(** * Lead automation workflow: a shallow embedding of [main.py]

    The development follows the layout of the program: text helpers and the
    MD5 digest behind [Lead.__post_init__], the [LeadValidator] with its
    two regular expressions, the scoring adapter ([GroqProcessor]), the
    worksheet adapter ([GoogleSheetsLogger]), calendar and notification
    adapters, and the orchestrator [LeadWorkflow.process_lead].

    Conventions.
    - Python [str] values are Rocq strings of 8-bit characters holding ASCII
      text; [lower] and the character classes of the regular expressions are
      the ASCII ones, [encode] yields the character codes.
    - Python [float] values are [spec_float] values (IEEE-754 binary64).
    - External services (scoring, worksheet, calendar, chat webhook, SMTP) are
      an explicit [world]: their stored data plus a script of the faults and
      replies the next calls will meet.
    - Exceptions are values: a computation returns [Ok v] or [Raise e]
      together with the state it leaves behind.
    - Calls of the logger are left out, except in [validate_datetime], whose
      only trace of a past-dated appointment is a log record. *)

From Stdlib Require Import ZArith Lia Bool Ascii.
From Stdlib Require String.
From Stdlib Require Import Floats.SpecFloat.
From stdpp Require Import base list strings gmap.

Local Open Scope Z_scope.

(* ===================================================================== *)
(** ** Text helpers (Python [str] methods used by the program)            *)
(* ===================================================================== *)

Module Text.

Definition code (c : ascii) : Z := Z.of_N (N_of_ascii c).

Definition in_range (lo hi : ascii) (c : ascii) : bool :=
  (code lo <=? code c) && (code c <=? code hi).

Definition is_upper (c : ascii) : bool := in_range "A" "Z" c.
Definition is_lower (c : ascii) : bool := in_range "a" "z" c.
Definition is_digit (c : ascii) : bool := in_range "0" "9" c.
Definition is_alpha (c : ascii) : bool := is_upper c || is_lower c.

(** [c.lower()] on one ASCII character. *)
Definition lower_char (c : ascii) : ascii :=
  if is_upper c then ascii_of_N (N_of_ascii c + 32)%N else c.

(** [s.lower()] *)
Fixpoint lower (s : string) : string :=
  match s with
  | EmptyString => EmptyString
  | String c s' => String (lower_char c) (lower s')
  end.

(** [s.replace(old, new)] for a one-character [old], the only form the
    program uses. *)
Fixpoint replace (old : ascii) (new : string) (s : string) : string :=
  match s with
  | EmptyString => EmptyString
  | String c s' =>
      if Ascii.eqb c old then new +:+ replace old new s'
      else String c (replace old new s')
  end.

(** [s.encode()] : the bytes of the text. *)
Fixpoint encode (s : string) : list Z :=
  match s with
  | EmptyString => []
  | String c s' => code c :: encode s'
  end.

(** [s[:n]] *)
Fixpoint take (n : nat) (s : string) : string :=
  match n, s with
  | S n', String c s' => String c (take n' s')
  | _, _ => EmptyString
  end.

(** Truthiness of a string: [not s] holds for the empty string only. *)
Definition falsy (s : string) : bool :=
  match s with EmptyString => true | _ => false end.

Fixpoint chars (s : string) : list ascii :=
  match s with
  | EmptyString => []
  | String c s' => c :: chars s'
  end.

Definition is_hex (c : ascii) : bool :=
  is_digit c || in_range "a" "f" c.

End Text.

(* ===================================================================== *)
(** ** [hashlib.md5]                                                     *)
(* ===================================================================== *)

Module MD5.

Definition mask32 : Z := 4294967295.

Definition add32 (a b : Z) : Z := Z.land (a + b) mask32.
Definition not32 (a : Z) : Z := Z.lxor a mask32.
Definition rotl32 (x c : Z) : Z :=
  Z.lor (Z.land (Z.shiftl x c) mask32) (Z.shiftr x (32 - c)).

Definition shifts : list Z :=
  [ 7; 12; 17; 22; 7; 12; 17; 22; 7; 12; 17; 22; 7; 12; 17; 22;
    5; 9; 14; 20; 5; 9; 14; 20; 5; 9; 14; 20; 5; 9; 14; 20;
    4; 11; 16; 23; 4; 11; 16; 23; 4; 11; 16; 23; 4; 11; 16; 23;
    6; 10; 15; 21; 6; 10; 15; 21; 6; 10; 15; 21; 6; 10; 15; 21 ].

(** [K i = floor (2^32 * |sin (i + 1)|)] *)
Definition K : list Z :=
  [ 3614090360; 3905402710; 606105819; 3250441966;
    4118548399; 1200080426; 2821735955; 4249261313;
    1770035416; 2336552879; 4294925233; 2304563134;
    1804603682; 4254626195; 2792965006; 1236535329;
    4129170786; 3225465664; 643717713; 3921069994;
    3593408605; 38016083; 3634488961; 3889429448;
    568446438; 3275163606; 4107603335; 1163531501;
    2850285829; 4243563512; 1735328473; 2368359562;
    4294588738; 2272392833; 1839030562; 4259657740;
    2763975236; 1272893353; 4139469664; 3200236656;
    681279174; 3936430074; 3572445317; 76029189;
    3654602809; 3873151461; 530742520; 3299628645;
    4096336452; 1126891415; 2878612391; 4237533241;
    1700485571; 2399980690; 4293915773; 2240044497;
    1873313359; 4264355552; 2734768916; 1309151649;
    4149444226; 3174756917; 718787259; 3951481745 ].

(** The [n] low bytes of [x], least significant first. *)
Fixpoint le_bytes (n : nat) (x : Z) : list Z :=
  match n with
  | O => []
  | S n' => Z.land x 255 :: le_bytes n' (Z.shiftr x 8)
  end.

Definition pad (msg : list Z) : list Z :=
  let len := Z.of_nat (length msg) in
  msg ++ [128] ++ repeat 0 (Z.to_nat ((55 - len) mod 64))
      ++ le_bytes 8 ((8 * len) mod 2 ^ 64).

(** [k] little-endian 32-bit words from a byte list. *)
Fixpoint words (k : nat) (l : list Z) : list Z :=
  match k with
  | O => []
  | S k' =>
      match l with
      | b0 :: b1 :: b2 :: b3 :: r =>
          (b0 + 256 * b1 + 65536 * b2 + 16777216 * b3) :: words k' r
      | _ => []
      end
  end.

Fixpoint blocks (k : nat) (l : list Z) : list (list Z) :=
  match k with
  | O => []
  | S k' => words 16 (firstn 64 l) :: blocks k' (skipn 64 l)
  end.

Definition state : Type := Z * Z * Z * Z.

Definition init : state := (1732584193, 4023233417, 2562383102, 271733878).

Definition step (M : list Z) (st : state) (i : nat) : state :=
  let '(A, B, C, D) := st in
  let iz := Z.of_nat i in
  let '(F, g) :=
    if iz <? 16 then (Z.lor (Z.land B C) (Z.land (not32 B) D), iz)
    else if iz <? 32 then
      (Z.lor (Z.land D B) (Z.land (not32 D) C), (5 * iz + 1) mod 16)
    else if iz <? 48 then (Z.lxor B (Z.lxor C D), (3 * iz + 5) mod 16)
    else (Z.lxor C (Z.lor B (not32 D)), (7 * iz) mod 16) in
  let F' := add32 (add32 (add32 F A) (nth i K 0)) (nth (Z.to_nat g) M 0) in
  (D, add32 B (rotl32 F' (nth i shifts 0)), B, C).

Definition compress (st : state) (M : list Z) : state :=
  let '(a0, b0, c0, d0) := st in
  let '(A, B, C, D) := fold_left (step M) (seq 0 64) st in
  (add32 a0 A, add32 b0 B, add32 c0 C, add32 d0 D).

Definition digest (msg : list Z) : list Z :=
  let p := pad msg in
  let '(a, b, c, d) :=
    fold_left compress (blocks (Nat.div (length p) 64) p) init in
  le_bytes 4 a ++ le_bytes 4 b ++ le_bytes 4 c ++ le_bytes 4 d.

Definition hex_digit (n : Z) : ascii :=
  if n <? 10 then ascii_of_N (Z.to_N (48 + n))
  else ascii_of_N (Z.to_N (87 + n)).

Fixpoint hex (bytes : list Z) : string :=
  match bytes with
  | [] => EmptyString
  | b :: r =>
      String (hex_digit (Z.land (Z.shiftr b 4) 15))
        (String (hex_digit (Z.land b 15)) (hex r))
  end.

(** [hashlib.md5(data).hexdigest()] *)
Definition hexdigest (msg : list Z) : string := hex (digest msg).

End MD5.


(* ===================================================================== *)
(** ** Exceptions and the state-and-exception monad                      *)
(* ===================================================================== *)

Inductive exn_kind :=
| TypeError | ValueError | KeyError | AttributeError | OverflowError
| JSONDecodeError      (* a subclass of ValueError *)
| ServiceError.        (* a fault raised by a client library *)

(** An exception with the text [str(e)] gives. *)
Inductive exn := Exn (kind : exn_kind) (msg : string).

Definition exn_str (e : exn) : string := let 'Exn _ m := e in m.
Definition exn_is (k : exn_kind) (e : exn) : bool :=
  let 'Exn k' _ := e in
  match k, k' with
  | TypeError, TypeError | KeyError, KeyError
  | AttributeError, AttributeError | OverflowError, OverflowError
  | JSONDecodeError, JSONDecodeError | ServiceError, ServiceError => true
  | ValueError, (ValueError | JSONDecodeError) => true
  | _, _ => false
  end.

Inductive outcome (A : Type) :=
| Ok (a : A)
| Raise (e : exn).
Arguments Ok {A} a.
Arguments Raise {A} e.

(** A computation over a state [S]: it ends normally or by an exception, and
    in both cases leaves a state behind (what was mutated stays mutated). *)
Definition M (S A : Type) : Type := S -> outcome A * S.

Definition ret {S A} (a : A) : M S A := fun s => (Ok a, s).

Definition bind {S A B} (m : M S A) (k : A -> M S B) : M S B :=
  fun s => match m s with
           | (Ok a, s') => k a s'
           | (Raise e, s') => (Raise e, s')
           end.

Definition raise {S A} (e : exn) : M S A := fun s => (Raise e, s).

(** [try: m  except Exception as e: h e] *)
Definition try_except {S A} (m : M S A) (h : exn -> M S A) : M S A :=
  fun s => match m s with
           | (Ok a, s') => (Ok a, s')
           | (Raise e, s') => h e s'
           end.

Definition get {S} : M S S := fun s => (Ok s, s).
Definition gets {S A} (f : S -> A) : M S A := fun s => (Ok (f s), s).
Definition modify {S} (f : S -> S) : M S unit := fun s => (Ok tt, f s).

(** A pure step that may raise. *)
Definition lift {S A} (o : outcome A) : M S A := fun s => (o, s).

(** Run a computation on a component of the state. *)
Definition zoom {S T A} (proj : S -> T) (upd : T -> S -> S) (m : M T A)
  : M S A :=
  fun s => let '(o, t') := m (proj s) in (o, upd t' s).

Notation "'let*' x ':=' m 'in' k" := (bind m (fun x => k))
  (at level 10, x pattern, m at level 100, k at level 200).
Notation "m ';;' k" := (bind m (fun _ => k))
  (at level 100, k at level 200, right associativity).

Definition when {S} (b : bool) (m : M S unit) : M S unit :=
  if b then m else ret tt.

(* ===================================================================== *)
(** ** Python values and floats                                          *)
(* ===================================================================== *)

Definition float : Type := spec_float.

Definition f_zero : float := S754_zero false.                         (* 0.0 *)
Definition f_half : float := S754_finite false 4503599627370496 (-53). (* 0.5 *)
Definition f_one : float := S754_finite false 4503599627370496 (-52).  (* 1.0 *)
Definition f_0_8 : float := S754_finite false 7205759403792794 (-53).  (* 0.8 *)

(** The values [json.loads] produces, and that the program passes around. *)
Inductive pyval :=
| VNone
| VBool (b : bool)
| VInt (z : Z)
| VFloat (f : float)
| VStr (s : string)
| VOther.   (* a list or a dict; the program only stores or formats it *)

(** [v == s] for a string [s]. *)
Definition py_eq_str (v : pyval) (s : string) : bool :=
  match v with
  | VStr t => String.eqb t s
  | _ => false
  end.

(** The two-argument builtins [min(a, b)] and [max(a, b)]: the first
    argument is kept unless the second compares strictly below (above). *)
Definition py_min (a b : float) : float := if SFltb b a then b else a.
Definition py_max (a b : float) : float := if SFltb a b then b else a.

(** A [datetime] value: the wall-clock reading and its offset from UTC. *)
Record datetime := {
  wall : Z;                 (* microseconds since 0001-01-01T00:00:00, as written *)
  utcoffset : option Z      (* microseconds east of UTC; None for a naive value *)
}.

(** What the Python runtime decides from text: library code, of which the
    program and the statements below only use the result. *)
Class Platform := {
  (** [datetime.fromisoformat s]: the value, or the text of the ValueError *)
  fromisoformat : string -> datetime + string;
  (** [float(s)] on a string: None when it raises ValueError *)
  float_of_string : string -> option float
}.

(** [float(v)] *)
Definition py_float `{Platform} (v : pyval) : outcome float :=
  match v with
  | VFloat f => Ok f
  | VBool b => Ok (if b then f_one else f_zero)
  | VInt z =>
      match binary_normalize 53 1024 z 0 false with
      | S754_infinity _ =>
          Raise (Exn OverflowError "int too large to convert to float")
      | f => Ok f
      end
  | VStr s =>
      match float_of_string s with
      | Some f => Ok f
      | None =>
          Raise (Exn ValueError ("could not convert string to float: '" +:+ s +:+ "'"))
      end
  | VNone | VOther =>
      Raise (Exn TypeError "float() argument must be a string or a real number")
  end.

(** The wall clock the process reads. *)
Record clock := {
  local_now : Z;         (* datetime.now(), microseconds since 0001-01-01 *)
  utc_now : Z;           (* the same instant on the UTC wall clock *)
  local_iso : string     (* datetime.now().isoformat() *)
}.

Definition minutes (n : Z) : Z := n * 60000000.
Definition hours (n : Z) : Z := n * 3600000000.
(** [datetime.max], 9999-12-31T23:59:59.999999 *)
Definition datetime_max : Z := 315537897600000000 - 1.

(* ===================================================================== *)
(** ** Regular expressions ([re.match] with an anchored pattern)          *)
(* ===================================================================== *)

Module Regex.

Inductive re :=
| Void                          (* matches nothing *)
| Eps                           (* the empty string *)
| Class (p : ascii -> bool)     (* one character of a class *)
| Seq (r1 r2 : re)
| Alt (r1 r2 : re)
| Star (r : re).

Definition opt (r : re) : re := Alt Eps r.            (* r? *)
Definition plus (r : re) : re := Seq r (Star r).      (* r+ *)
Fixpoint rep (n : nat) (r : re) : re :=               (* r{n} *)
  match n with O => Eps | S n' => Seq r (rep n' r) end.
Definition at_least (n : nat) (r : re) : re := Seq (rep n r) (Star r).
Definition between (lo hi : nat) (r : re) : re :=     (* r{lo,hi} *)
  Seq (rep lo r) (rep (hi - lo) (opt r)).
Definition lit (c : ascii) : re := Class (Ascii.eqb c).

Fixpoint nullable (r : re) : bool :=
  match r with
  | Void => false
  | Eps => true
  | Class _ => false
  | Seq r1 r2 => nullable r1 && nullable r2
  | Alt r1 r2 => nullable r1 || nullable r2
  | Star _ => true
  end.

Definition seq' (r1 r2 : re) : re :=
  match r1 with Void => Void | _ => Seq r1 r2 end.
Definition alt' (r1 r2 : re) : re :=
  match r1, r2 with
  | Void, _ => r2
  | _, Void => r1
  | _, _ => Alt r1 r2
  end.

(** Brzozowski derivative: what remains to be matched after [c]. *)
Fixpoint deriv (c : ascii) (r : re) : re :=
  match r with
  | Void | Eps => Void
  | Class p => if p c then Eps else Void
  | Seq r1 r2 =>
      alt' (seq' (deriv c r1) r2) (if nullable r1 then deriv c r2 else Void)
  | Alt r1 r2 => alt' (deriv c r1) (deriv c r2)
  | Star r1 => seq' (deriv c r1) (Star r1)
  end.

Fixpoint fullmatch (r : re) (s : string) : bool :=
  match s with
  | EmptyString => nullable r
  | String c s' => fullmatch (deriv c r) s'
  end.

(** [s] without a final newline, when it has one. *)
Fixpoint chop_newline (s : string) : option string :=
  match s with
  | EmptyString => None
  | String c EmptyString => if Ascii.eqb c "010" then Some EmptyString else None
  | String c s' => option_map (String c) (chop_newline s')
  end.

(** [bool(re.match("^" r "$", s))]: [$] matches at the end of the string
    and also just before a newline that ends it. *)
Definition match_anchored (r : re) (s : string) : bool :=
  fullmatch r s
  || match chop_newline s with
     | Some s' => fullmatch r s'
     | None => false
     end.

End Regex.

(* ===================================================================== *)
(** ** Dictionaries of text ([Dict[str, str]])                            *)
(* ===================================================================== *)

(** A dict as its items in insertion order (the order in which a
    call receives them as keywords). *)
Definition dict (V : Type) : Type := list (string * V).

Fixpoint dict_get {V} (k : string) (d : dict V) : option V :=
  match d with
  | [] => None
  | (k', v) :: d' => if String.eqb k' k then Some v else dict_get k d'
  end.

Definition dict_in {V} (k : string) (d : dict V) : bool :=
  match dict_get k d with Some _ => true | None => false end.

(** [d.get(k, default)] *)
Definition dict_get_default {V} (k : string) (default : V) (d : dict V) : V :=
  match dict_get k d with Some v => v | None => default end.

(** [d[k] = v] *)
Fixpoint dict_set {V} (k : string) (v : V) (d : dict V) : dict V :=
  match d with
  | [] => [(k, v)]
  | (k', v') :: d' =>
      if String.eqb k' k then (k', v) :: d' else (k', v') :: dict_set k v d'
  end.

Definition mem (k : string) (l : list string) : bool :=
  existsb (String.eqb k) l.

(** The first keyword of [kw] a constructor with fields [fields] rejects. *)
Definition unexpected_keyword {V} (fields : list string) (kw : dict V)
  : option string :=
  option_map fst (List.find (fun kv => negb (mem (fst kv) fields)) kw).

(** ['a'], ['a' and 'b'], ['a', 'b', and 'c']: how a TypeError lists names. *)
Fixpoint name_list_tail (names : list string) : string :=
  match names with
  | [] => ""
  | [n] => ", and '" +:+ n +:+ "'"
  | n :: r => ", '" +:+ n +:+ "'" +:+ name_list_tail r
  end.

Definition name_list (names : list string) : string :=
  match names with
  | [] => ""
  | [a] => "'" +:+ a +:+ "'"
  | [a; b] => "'" +:+ a +:+ "' and '" +:+ b +:+ "'"
  | a :: r => "'" +:+ a +:+ "'" +:+ name_list_tail r
  end.

Fixpoint decimal_digits (fuel : nat) (n : nat) (acc : string) : string :=
  match fuel with
  | O => acc
  | S fuel' =>
      let d := ascii_of_nat (48 + Nat.modulo n 10) in
      match Nat.div n 10 with
      | O => String d acc
      | q => decimal_digits fuel' q (String d acc)
      end
  end.

Definition decimal (n : nat) : string := decimal_digits (S n) n "".

(** The TypeError raised, if any, when [cls] is called with the keywords
    [kw]: the first unexpected keyword is reported, otherwise the required
    arguments that are missing (in the wording of CPython 3.10 to 3.12). *)
Definition bind_keywords {V} (cls : string) (fields required : list string)
    (kw : dict V) : outcome unit :=
  match unexpected_keyword fields kw with
  | Some k =>
      Raise (Exn TypeError
        (cls +:+ ".__init__() got an unexpected keyword argument '" +:+ k +:+ "'"))
  | None =>
      match List.filter (fun f => negb (dict_in f kw)) required with
      | [] => Ok tt
      | missing =>
          Raise (Exn TypeError
            (cls +:+ ".__init__() missing " +:+ decimal (length missing)
               +:+ " required positional argument"
               +:+ (if Nat.eqb (length missing) 1 then "" else "s")
               +:+ ": " +:+ name_list missing))
      end
  end.

(* ===================================================================== *)
(** ** [Lead] and [ProcessedLead]                                         *)
(* ===================================================================== *)

Module Lead.

Record t := {
  name : string;
  email : string;
  phone : string;
  car_model : string;
  appointment_datetime : string;
  intent_score : option string;   (* whatever the payload supplied *)
  timestamp : string;
  lead_id : string
}.

Definition fields : list string :=
  ["name"; "email"; "phone"; "car_model"; "appointment_datetime";
   "intent_score"; "timestamp"; "lead_id"].
Definition required : list string :=
  ["name"; "email"; "phone"; "car_model"; "appointment_datetime"].

(** [hashlib.md5(f"{email}{phone}".lower().encode()).hexdigest()[:12]] *)
Definition derive_id (email phone : string) : string :=
  let unique_string := Text.lower (email +:+ phone) in
  Text.take 12 (MD5.hexdigest (Text.encode unique_string)).

Definition is_set (o : option string) : bool :=
  match o with
  | Some s => negb (Text.falsy s)
  | None => false
  end.

(** The generated [__init__] followed by [__post_init__]; [now_iso] is
    [datetime.now().isoformat()]. *)
Definition make (now_iso : string)
    (name email phone car_model appointment_datetime : string)
    (intent_score timestamp lead_id : option string) : t :=
  {| name := name; email := email; phone := phone;
     car_model := car_model; appointment_datetime := appointment_datetime;
     intent_score := intent_score;
     timestamp := if is_set timestamp then default "" timestamp else now_iso;
     lead_id := if is_set lead_id then default "" lead_id
                else derive_id email phone |}.

(** [Lead] called with the keywords of [kw] *)
Definition new (now_iso : string) (kw : dict string) : outcome t :=
  match bind_keywords "Lead" fields required kw with
  | Raise e => Raise e
  | Ok _ =>
      Ok (make now_iso
            (dict_get_default "name" "" kw)
            (dict_get_default "email" "" kw)
            (dict_get_default "phone" "" kw)
            (dict_get_default "car_model" "" kw)
            (dict_get_default "appointment_datetime" "" kw)
            (dict_get "intent_score" kw)
            (dict_get "timestamp" kw)
            (dict_get "lead_id" kw))
  end.

End Lead.

Module ProcessedLead.

Record t := {
  name : pyval;
  phone : pyval;
  model : pyval;
  datetime : pyval;
  intent_score : float
}.

Definition fields : list string :=
  ["name"; "phone"; "model"; "datetime"; "intent_score"].

End ProcessedLead.

(* ===================================================================== *)
(** ** [LeadValidator]                                                    *)
(* ===================================================================== *)

Inductive log_record :=
| LogWarning (msg : string)
| LogError (msg : string).

Module LeadValidator.
Import Regex.

Definition word_char (extra : string) (c : ascii) : bool :=
  Text.is_alpha c || Text.is_digit c || existsb (Ascii.eqb c) (Text.chars extra).

(** [^[a-zA-Z0-9._%+-]+@[a-zA-Z0-9.-]+\.[a-zA-Z]{2,}$] *)
Definition email_pattern : re :=
  Seq (plus (Class (word_char "._%+-")))
    (Seq (lit "@")
       (Seq (plus (Class (word_char ".-")))
          (Seq (lit ".") (at_least 2 (Class Text.is_alpha))))).

(** [^\+?1?\d{9,15}$] *)
Definition phone_pattern : re :=
  Seq (opt (lit "+")) (Seq (opt (lit "1")) (between 9 15 (Class Text.is_digit))).

Definition validate_email (email : string) : bool :=
  if Text.falsy email then false
  else match_anchored email_pattern email.

Definition validate_phone (phone : string) : bool :=
  if Text.falsy phone then false
  else
    let clean_phone :=
      Text.replace ")" "" (Text.replace "(" "" (Text.replace " " ""
        (Text.replace "-" "" phone))) in
    match_anchored phone_pattern clean_phone.

(** [dt < now - timedelta(minutes=5)], with [now] taken in the zone of
    [dt] when it has one. *)
Definition in_the_past (clk : clock) (dt : datetime) : bool :=
  match utcoffset dt with
  | Some off => wall dt - off <? utc_now clk - minutes 5
  | None => wall dt <? local_now clk - minutes 5
  end.

(** [validate_datetime], with the records it hands to the logger. *)
Definition validate_datetime_logged `{Platform} (clk : clock)
    (dt_string : string) : bool * list log_record :=
  if Text.falsy dt_string then (false, [])
  else
    match fromisoformat (Text.replace "Z" "+00:00" dt_string) with
    | inl dt =>
        (true,
         if in_the_past clk dt
         then [LogWarning ("Appointment time is in the past: " +:+ dt_string)]
         else [])
    | inr e =>
        (false,
         [LogError ("Invalid datetime format: " +:+ dt_string
                      +:+ ", Error: " +:+ e)])
    end.

Definition validate_datetime `{Platform} (clk : clock) (dt_string : string)
  : bool :=
  fst (validate_datetime_logged clk dt_string).

Definition required_fields : list string :=
  ["name"; "email"; "phone"; "car_model"; "appointment_datetime"].

(** [field not in data or not data[field]] *)
Definition is_missing (data : dict string) (field : string) : bool :=
  negb (dict_in field data) || Text.falsy (dict_get_default field "" data).

(** One turn of the loop over [required_fields]. *)
Definition check_required (data : dict string) (errors : list string)
    (field : string) : list string :=
  if is_missing data field
  then errors ++ ["Missing required field: " +:+ field]
  else errors.

(** The three shape checks, run only when no field is missing. *)
Definition shape_errors `{Platform} (clk : clock) (data : dict string)
  : list string :=
  (if negb (validate_email (dict_get_default "email" "" data))
   then ["Invalid email format"] else [])
  ++ (if negb (validate_phone (dict_get_default "phone" "" data))
      then ["Invalid phone format"] else [])
  ++ (if negb (validate_datetime clk
                 (dict_get_default "appointment_datetime" "" data))
      then ["Invalid datetime format (use ISO 8601)"] else []).

Definition validate_lead_data `{Platform} (clk : clock) (data : dict string)
  : bool * list string :=
  let errors := fold_left (check_required data) required_fields [] in
  let errors :=
    match errors with
    | [] => errors ++ shape_errors clk data
    | _ => errors
    end in
  (Nat.eqb (length errors) 0, errors).

End LeadValidator.

(* ===================================================================== *)
(** ** The scoring service and [GroqProcessor]                            *)
(* ===================================================================== *)

(** A decoded JSON document: an object, or any other value. *)
Inductive json_doc :=
| JObject (items : dict pyval)
| JOther.

(** What one call of the scoring service yields: a fault of the client, or
    a message whose content [json.loads] decodes ([Some]) or rejects. *)
Inductive completion :=
| ServiceFault
| Content (doc : option json_doc).

Module Groq.

Record t := {
  replies : list completion;   (* what the next calls will yield *)
  requests : nat               (* calls made so far *)
}.

(** [self.client.chat.completions.create(...)] and the access to the
    message content; with nothing scripted the service is unreachable. *)
Definition create : M t (option json_doc) :=
  fun s =>
    let s' r := {| replies := r; requests := S (requests s) |} in
    match replies s with
    | Content doc :: r => (Ok doc, s' r)
    | ServiceFault :: r => (Raise (Exn ServiceError "Connection error."), s' r)
    | [] => (Raise (Exn ServiceError "Connection error."), s' [])
    end.

End Groq.

(** [json.loads] on a message content *)
Definition json_loads (content : option json_doc) : outcome json_doc :=
  match content with
  | Some doc => Ok doc
  | None => Raise (Exn JSONDecodeError "Expecting value: line 1 column 1 (char 0)")
  end.

(** [result[key]] *)
Definition subscript (result : json_doc) (key : string) : outcome pyval :=
  match result with
  | JObject items =>
      match dict_get key items with
      | Some v => Ok v
      | None => Raise (Exn KeyError ("'" +:+ key +:+ "'"))
      end
  | JOther => Raise (Exn TypeError "indices must be integers or slices, not str")
  end.

(** [ProcessedLead] called with the keywords of [kw], whose ["intent_score"]
    entry was just set to the float [score]. *)
Definition ProcessedLead_new (kw : dict pyval) (score : float)
  : outcome ProcessedLead.t :=
  match bind_keywords "ProcessedLead" ProcessedLead.fields ProcessedLead.fields kw with
  | Raise e => Raise e
  | Ok _ =>
      Ok {| ProcessedLead.name := dict_get_default "name" VNone kw;
            ProcessedLead.phone := dict_get_default "phone" VNone kw;
            ProcessedLead.model := dict_get_default "model" VNone kw;
            ProcessedLead.datetime := dict_get_default "datetime" VNone kw;
            ProcessedLead.intent_score := score |}
  end.

Module GroqProcessor.

Record t := { max_retries : nat }.

(** [__init__] with a non-empty API key *)
Definition init : t := {| max_retries := 3 |}.

(** [max(0.0, min(1.0, x))] *)
Definition clamp (x : float) : float := py_max f_zero (py_min f_one x).

(** The body of the [try] of one attempt. *)
Definition attempt `{Platform} : M Groq.t ProcessedLead.t :=
  let* content := Groq.create in
  let* result := lift (json_loads content) in
  let* raw := lift (subscript result "intent_score") in
  let* x := lift (py_float raw) in
  let score := clamp x in
  match result with
  | JObject items =>
      lift (ProcessedLead_new (dict_set "intent_score" (VFloat score) items) score)
  | JOther => raise (Exn TypeError "object does not support item assignment")
  end.

Inductive loop_exit :=
| Return (p : ProcessedLead.t)
| Break
| Continue.

(** What an [except] clause of the loop does on attempt number [n]. *)
Definition on_failure (self : t) (n : nat) : loop_exit :=
  if Nat.eqb n (max_retries self - 1) then Break else Continue.

(** [for attempt in range(self.max_retries): ...]; [None] when the loop
    ends without a return. *)
Fixpoint attempts `{Platform} (self : t) (range : list nat)
  : M Groq.t (option ProcessedLead.t) :=
  match range with
  | [] => ret None
  | n :: rest =>
      let* exit :=
        try_except (let* p := attempt in ret (Return p))
          (fun e =>
             if exn_is JSONDecodeError e then ret (on_failure self n)
             else ret (on_failure self n)) in
      match exit with
      | Return p => ret (Some p)
      | Break => ret None
      | Continue => attempts self rest
      end
  end.

(** The fallback record built after the loop. *)
Definition fallback (lead : Lead.t) : ProcessedLead.t :=
  {| ProcessedLead.name := VStr (Lead.name lead);
     ProcessedLead.phone := VStr (Lead.phone lead);
     ProcessedLead.model := VStr (Lead.car_model lead);
     ProcessedLead.datetime := VStr (Lead.appointment_datetime lead);
     ProcessedLead.intent_score := f_half |}.

Definition analyze_lead `{Platform} (self : t) (lead : Lead.t)
  : M Groq.t ProcessedLead.t :=
  let* r := attempts self (seq 0 (max_retries self)) in
  match r with
  | Some p => ret p
  | None => ret (fallback lead)
  end.

(** The four variables [__init__] hides from the client library. *)
Definition proxy_vars : list string :=
  ["HTTP_PROXY"; "HTTPS_PROXY"; "http_proxy"; "https_proxy"].

(** One turn of the first loop of [__init__] over [os.environ]: a variable
    that is set is saved and deleted. *)
Definition save_proxy (st : dict string * gmap string string) (var : string)
  : dict string * gmap string string :=
  match snd st !! var with
  | Some value => (dict_set var value (fst st), delete var (snd st))
  | None => st
  end.

(** One turn of the second loop: [os.environ[var] = value]. *)
Definition restore_proxy (env : gmap string string) (kv : string * string)
  : gmap string string :=
  <[fst kv := snd kv]> env.

(** [__init__] over the process environment; [client] is what constructing
    the client of the scoring service does (it may raise). *)
Definition __init__ (api_key : string) (client : outcome unit)
  : M (gmap string string) t :=
  if Text.falsy api_key then raise (Exn ValueError "Groq API key is required")
  else
    try_except
      (let* saved_proxies :=
         (fun env => let st := fold_left save_proxy proxy_vars ([], env) in
                     (Ok (fst st), snd st)) in
       lift client ;;
       modify (fun env => fold_left restore_proxy saved_proxies env) ;;
       ret {| max_retries := 3 |})
      (fun e => raise e).

End GroqProcessor.

(* ===================================================================== *)
(** ** The worksheet and [GoogleSheetsLogger]                             *)
(* ===================================================================== *)

(** The worksheet is a table of cells that hands back the values it was
    given: rows are lists of cells, the first row is the header, a cell the
    grid does not hold reads as the empty text. Every call of the client
    library is one round trip, which the service may refuse. *)
Module Sheets.

Definition row : Type := list pyval.

Record t := {
  rows : list row;        (* the worksheet, header row first *)
  faults : list bool      (* for each coming round trip: does it fail? *)
}.

Definition blank : pyval := VStr "".

(** One round trip to the service. *)
Definition remote : M t unit :=
  fun s =>
    match faults s with
    | true :: r =>
        (Raise (Exn ServiceError "APIError"), {| rows := rows s; faults := r |})
    | false :: r => (Ok tt, {| rows := rows s; faults := r |})
    | [] => (Ok tt, s)
    end.

(** [self.client.open(self.spreadsheet_name).sheet1] *)
Definition open_sheet1 : M t unit := remote.

Definition width (rs : list row) : nat :=
  fold_right (fun r w => Nat.max (length r) w) O rs.

Definition pad_row (w : nat) (r : row) : row :=
  r ++ repeat blank (w - length r).

(** [sheet.row_values(i)], rows counted from 1 *)
Definition row_values (i : nat) : M t row :=
  remote ;; gets (fun s => default [] (rows s !! (i - 1)%nat)).

(** [sheet.append_row(r)] *)
Definition append_row (r : row) : M t unit :=
  remote ;; modify (fun s => {| rows := rows s ++ [r]; faults := faults s |}).

(** A record of [get_all_records]: the header cells paired with the cells
    of a row; as in a dict built from pairs, the last pair of a key counts. *)
Definition record : Type := list (pyval * pyval).

Definition record_get (key : string) (r : record) : pyval :=
  fold_left (fun acc kv => if py_eq_str (fst kv) key then snd kv else acc)
    r VNone.

Definition records_of (rs : list row) : list record :=
  match rs with
  | [] => []
  | header :: data =>
      let w := width rs in
      map (fun r => zip (pad_row w header) (pad_row w r)) data
  end.

(** [sheet.get_all_records()] *)
Definition get_all_records : M t (list record) :=
  remote ;; gets (fun s => records_of (rows s)).

(** The cell at row [i], column [c] (both from 1); blank where the grid
    holds nothing. *)
Definition cell (rs : list row) (i c : nat) : pyval :=
  default blank (default [] (rs !! (i - 1)%nat) !! (c - 1)%nat).

(** The number of the first row at or after [i] whose cell in column [c]
    equals [query]. *)
Fixpoint find_in_column (query : string) (c : nat) (rs : list row) (i : nat)
  : option nat :=
  match rs with
  | [] => None
  | r :: rs' =>
      if py_eq_str (default blank (r !! (c - 1)%nat)) query then Some i
      else find_in_column query c rs' (S i)
  end.

(** [sheet.find(query, in_column=c)]: the row of the first matching cell *)
Definition find (query : string) (in_column : nat) : M t (option nat) :=
  remote ;; gets (fun s => find_in_column query in_column (rows s) 1%nat).

Definition set_cell (rs : list row) (i c : nat) (v : pyval) : list row :=
  let rs := rs ++ repeat [] (i - length rs) in
  let r := pad_row c (default [] (rs !! (i - 1)%nat)) in
  <[(i - 1)%nat := <[(c - 1)%nat := v]> r]> rs.

(** [sheet.update_cell(i, c, v)] *)
Definition update_cell (i c : nat) (v : pyval) : M t unit :=
  remote ;;
  modify (fun s => {| rows := set_cell (rows s) i c v; faults := faults s |}).

End Sheets.

Module GoogleSheetsLogger.
Import Sheets.

Definition header_row : row :=
  [VStr "Timestamp"; VStr "Name"; VStr "Email"; VStr "Phone";
   VStr "Car Model"; VStr "Appointment"; VStr "Intent Score"].

Definition is_nil {A} (l : list A) : bool :=
  match l with [] => true | _ => false end.

Definition _ensure_sheet_exists : M Sheets.t unit :=
  open_sheet1 ;;
  let* headers := row_values 1 in
  when (is_nil headers) (append_row header_row).

Definition lead_exists (lead_id : string) : M Sheets.t bool :=
  try_except
    (open_sheet1 ;;
     let* records := get_all_records in
     ret (existsb
            (fun r => py_eq_str (record_get "Email" r) lead_id
                      || py_eq_str (record_get "Phone" r) lead_id)
            records))
    (fun _ => ret false).

(** The row [log_lead] appends. *)
Definition row_of (lead : Lead.t) (processed : ProcessedLead.t) : row :=
  [VStr (Lead.timestamp lead);
   ProcessedLead.name processed;
   VStr (Lead.email lead);
   ProcessedLead.phone processed;
   ProcessedLead.model processed;
   ProcessedLead.datetime processed;
   VFloat (ProcessedLead.intent_score processed)].

Definition log_lead (lead : Lead.t) (processed : ProcessedLead.t)
  : M Sheets.t bool :=
  try_except
    (let* dup := lead_exists (Lead.lead_id lead) in
     if dup then ret false
     else
       open_sheet1 ;;
       append_row (row_of lead processed) ;;
       ret true)
    (fun _ => ret false).

Definition get_all_leads : M Sheets.t (list record) :=
  try_except (open_sheet1 ;; get_all_records) (fun _ => ret []).

Definition update_lead_status (lead_id status notes : string)
  : M Sheets.t bool :=
  try_except
    (open_sheet1 ;;
     let* cell := find lead_id 2 in
     match cell with
     | Some i =>
         update_cell i 9 (VStr status) ;;
         when (negb (Text.falsy notes)) (update_cell i 10 (VStr notes)) ;;
         ret true
     | None => ret false
     end)
    (fun _ => ret false).

End GoogleSheetsLogger.

(* ===================================================================== *)
(** ** The calendar and [CalendarManager]                                 *)
(* ===================================================================== *)

Module Calendar.

Record event := {
  start_time : datetime;
  end_wall : Z;
  time_zone : string
}.

Record t := {
  events : list event;
  faults : list bool     (* for each coming insert: does it fail? *)
}.

(** [self.service.events().insert(...).execute()] *)
Definition insert (e : event) : M t unit :=
  fun s =>
    match faults s with
    | true :: r =>
        (Raise (Exn ServiceError "HttpError"), {| events := events s; faults := r |})
    | false :: r => (Ok tt, {| events := events s ++ [e]; faults := r |})
    | [] => (Ok tt, {| events := events s ++ [e]; faults := [] |})
    end.

End Calendar.

Module CalendarManager.

Definition meet_link : string := "https://meet.google.com/new".

(** [datetime.fromisoformat(v.replace('Z', '+00:00'))] on a field of a
    processed lead *)
Definition parse_start `{Platform} (v : pyval) : outcome datetime :=
  match v with
  | VStr s =>
      match fromisoformat (Text.replace "Z" "+00:00" s) with
      | inl dt => Ok dt
      | inr msg => Raise (Exn ValueError msg)
      end
  | _ => Raise (Exn AttributeError "object has no attribute 'replace'")
  end.

(** [start_time + timedelta(hours=1)] *)
Definition one_hour_later (start : datetime) : outcome Z :=
  if wall start + hours 1 <=? datetime_max then Ok (wall start + hours 1)
  else Raise (Exn OverflowError "date value out of range").

Definition create_event `{Platform} (lead : Lead.t)
    (processed : ProcessedLead.t) (timezone : string)
  : M Calendar.t (option string) :=
  try_except
    (let* start := lift (parse_start (ProcessedLead.datetime processed)) in
     let* end_time := lift (one_hour_later start) in
     Calendar.insert {| Calendar.start_time := start;
                        Calendar.end_wall := end_time;
                        Calendar.time_zone := timezone |} ;;
     ret (Some meet_link))
    (fun _ => ret None).

End CalendarManager.

(* ===================================================================== *)
(** ** Chat webhook, SMTP and [NotificationService]                       *)
(* ===================================================================== *)

Inductive NotificationChannel := EMAIL | DISCORD.

Definition channel_value (c : NotificationChannel) : string :=
  match c with EMAIL => "email" | DISCORD => "discord" end.

Module Discord.

Record post := {
  content : string;
  color : Z;
  with_meet_field : bool
}.

Record t := {
  posts : list post;              (* messages the webhook accepted *)
  responses : list (option Z)     (* coming calls: no response, or a status *)
}.

(** [requests.post(...)] followed by [response.raise_for_status()] *)
Definition send (p : post) : M t unit :=
  fun s =>
    let '(resp, rest) :=
      match responses s with
      | r :: rest => (r, rest)
      | [] => (Some 204, [])
      end in
    match resp with
    | None =>
        (Raise (Exn ServiceError "ConnectionError"), {| posts := posts s; responses := rest |})
    | Some status =>
        if (400 <=? status) && (status <? 600)
        then (Raise (Exn ServiceError "HTTPError"), {| posts := posts s; responses := rest |})
        else (Ok tt, {| posts := posts s ++ [p]; responses := rest |})
    end.

End Discord.

Module Smtp.

Record mail := {
  mail_to : string;
  with_link : bool
}.

Record t := {
  sent : list mail;
  faults : list bool     (* for each coming session: does it fail? *)
}.

(** The SMTP session: connect, starttls, login, send_message. Logging in
    without a password raises. *)
Definition session (password : option string) (m : mail) : M t unit :=
  fun s =>
    let '(fault, rest) :=
      match faults s with
      | f :: rest => (f, rest)
      | [] => (false, [])
      end in
    match fault, password with
    | false, Some _ => (Ok tt, {| sent := sent s ++ [m]; faults := rest |})
    | _, _ => (Raise (Exn ServiceError "SMTPException"), {| sent := sent s; faults := rest |})
    end.

End Smtp.

(** Truthiness of an optional text ([None] and [''] are false). *)
Definition truthy (o : option string) : bool :=
  match o with
  | Some s => negb (Text.falsy s)
  | None => false
  end.

Module NotificationService.

(** The three environment variables read by [__init__]. *)
Record t := {
  discord_webhook : option string;
  gmail_user : option string;
  gmail_password : option string
}.

Definition _send_discord (self : t) (lead : Lead.t)
    (processed : ProcessedLead.t) (meet_link : option string)
  : M Discord.t bool :=
  try_except
    (let urgent := SFleb f_0_8 (ProcessedLead.intent_score processed) in
     Discord.send
       {| Discord.content :=
            if urgent then "@here New lead received!" else "New lead received";
          Discord.color := if urgent then 15158332 else 5814783;
          Discord.with_meet_field := truthy meet_link |} ;;
     ret true)
    (fun _ => ret false).

Definition _send_gmail (self : t) (lead : Lead.t)
    (processed : ProcessedLead.t) (meet_link : option string)
  : M Smtp.t bool :=
  try_except
    (Smtp.session (gmail_password self)
       {| Smtp.mail_to := Lead.email lead; Smtp.with_link := truthy meet_link |} ;;
     ret true)
    (fun _ => ret false).

End NotificationService.

(* ===================================================================== *)
(** ** The world of one process, and [LeadWorkflow]                       *)
(* ===================================================================== *)

Record world := {
  w_clock : clock;
  w_groq : Groq.t;
  w_sheets : Sheets.t;
  w_calendar : Calendar.t;
  w_discord : Discord.t;
  w_smtp : Smtp.t
}.

Definition set_groq (g : Groq.t) (w : world) : world :=
  {| w_clock := w_clock w; w_groq := g; w_sheets := w_sheets w;
     w_calendar := w_calendar w; w_discord := w_discord w; w_smtp := w_smtp w |}.
Definition set_sheets (x : Sheets.t) (w : world) : world :=
  {| w_clock := w_clock w; w_groq := w_groq w; w_sheets := x;
     w_calendar := w_calendar w; w_discord := w_discord w; w_smtp := w_smtp w |}.
Definition set_calendar (x : Calendar.t) (w : world) : world :=
  {| w_clock := w_clock w; w_groq := w_groq w; w_sheets := w_sheets w;
     w_calendar := x; w_discord := w_discord w; w_smtp := w_smtp w |}.
Definition set_discord (x : Discord.t) (w : world) : world :=
  {| w_clock := w_clock w; w_groq := w_groq w; w_sheets := w_sheets w;
     w_calendar := w_calendar w; w_discord := x; w_smtp := w_smtp w |}.
Definition set_smtp (x : Smtp.t) (w : world) : world :=
  {| w_clock := w_clock w; w_groq := w_groq w; w_sheets := w_sheets w;
     w_calendar := w_calendar w; w_discord := w_discord w; w_smtp := x |}.

Definition on_groq {A} : M Groq.t A -> M world A := zoom w_groq set_groq.
Definition on_sheets {A} : M Sheets.t A -> M world A := zoom w_sheets set_sheets.
Definition on_calendar {A} : M Calendar.t A -> M world A :=
  zoom w_calendar set_calendar.
Definition on_discord {A} : M Discord.t A -> M world A :=
  zoom w_discord set_discord.
Definition on_smtp {A} : M Smtp.t A -> M world A := zoom w_smtp set_smtp.

(** [NotificationService.send_notification] *)
Definition send_notification (self : NotificationService.t) (lead : Lead.t)
    (processed : ProcessedLead.t) (meet_link : option string)
    (channel : NotificationChannel) : M world bool :=
  match channel with
  | DISCORD =>
      if truthy (NotificationService.discord_webhook self)
      then on_discord (NotificationService._send_discord self lead processed meet_link)
      else ret false
  | EMAIL =>
      if truthy (NotificationService.gmail_user self)
      then on_smtp (NotificationService._send_gmail self lead processed meet_link)
      else ret false
  end.

(** The result dict of [process_lead]. *)
Record WorkflowResult := {
  success : bool;
  lead_id : option string;
  errors : list string;
  warnings : list string;
  meet_link : option string;
  intent_score : option float
}.

Definition set_success (b : bool) (r : WorkflowResult) : WorkflowResult :=
  {| success := b; lead_id := lead_id r; errors := errors r;
     warnings := warnings r; meet_link := meet_link r;
     intent_score := intent_score r |}.
Definition set_lead_id (x : option string) (r : WorkflowResult) : WorkflowResult :=
  {| success := success r; lead_id := x; errors := errors r;
     warnings := warnings r; meet_link := meet_link r;
     intent_score := intent_score r |}.
Definition add_errors (es : list string) (r : WorkflowResult) : WorkflowResult :=
  {| success := success r; lead_id := lead_id r; errors := errors r ++ es;
     warnings := warnings r; meet_link := meet_link r;
     intent_score := intent_score r |}.
Definition add_warning (x : string) (r : WorkflowResult) : WorkflowResult :=
  {| success := success r; lead_id := lead_id r; errors := errors r;
     warnings := warnings r ++ [x]; meet_link := meet_link r;
     intent_score := intent_score r |}.
Definition set_meet_link (x : option string) (r : WorkflowResult) : WorkflowResult :=
  {| success := success r; lead_id := lead_id r; errors := errors r;
     warnings := warnings r; meet_link := x;
     intent_score := intent_score r |}.
Definition set_intent_score (x : option float) (r : WorkflowResult) : WorkflowResult :=
  {| success := success r; lead_id := lead_id r; errors := errors r;
     warnings := warnings r; meet_link := meet_link r;
     intent_score := x |}.

Module LeadWorkflow.

Record t := {
  groq_processor : GroqProcessor.t;
  notification_service : NotificationService.t;
  notification_channels : list NotificationChannel;
  timezone : string
}.

(** The state of one call: the world and the [result] dict it fills in. *)
Definition st : Type := world * WorkflowResult.

Definition in_world {A} : M world A -> M st A :=
  zoom fst (fun w s => (w, snd s)).
Definition result_ (f : WorkflowResult -> WorkflowResult) : M st unit :=
  modify (fun s => (fst s, f (snd s))).

Definition initial : WorkflowResult :=
  {| success := false; lead_id := None; errors := []; warnings := [];
     meet_link := None; intent_score := None |}.

Definition manual_review : string :=
  "AI analysis failed - using default score - manual review recommended".

(** Step 7: one notification per configured channel. *)
Fixpoint notify_all (self : t) (lead : Lead.t) (processed : ProcessedLead.t)
    (link : option string) (channels : list NotificationChannel)
  : M st unit :=
  match channels with
  | [] => ret tt
  | channel :: rest =>
      let* notification_success :=
        in_world (send_notification (notification_service self)
                    lead processed link channel) in
      when (negb notification_success)
        (result_ (add_warning
           ("Failed to send " +:+ channel_value channel +:+ " notification"))) ;;
      notify_all self lead processed link rest
  end.

(** Steps 4 to 7 and the final [result['success'] = True]. *)
Definition process_new_lead `{Platform} (self : t) (lead : Lead.t)
  : M st unit :=
  let* processed_lead :=
    in_world (on_groq (GroqProcessor.analyze_lead (groq_processor self) lead)) in
  result_ (set_intent_score (Some (ProcessedLead.intent_score processed_lead))) ;;
  when (SFeqb (ProcessedLead.intent_score processed_lead) f_half)
    (result_ (add_warning manual_review)) ;;
  let* sheets_success :=
    in_world (on_sheets (GoogleSheetsLogger.log_lead lead processed_lead)) in
  when (negb sheets_success)
    (result_ (add_errors ["Failed to log to Google Sheets"])) ;;
  let* link :=
    in_world (on_calendar
      (CalendarManager.create_event lead processed_lead (timezone self))) in
  result_ (set_meet_link link) ;;
  when (negb (truthy link))
    (result_ (add_warning "Failed to create calendar event")) ;;
  notify_all self lead processed_lead link (notification_channels self) ;;
  result_ (set_success true).

(** The body of the [try] of [process_lead]. *)
Definition process_lead_body `{Platform} (self : t) (lead_data : dict string)
  : M st unit :=
  let* clk := gets (fun s => w_clock (fst s)) in
  let '(is_valid, errors) := LeadValidator.validate_lead_data clk lead_data in
  if negb is_valid then result_ (add_errors errors)
  else
    let* lead := lift (Lead.new (local_iso clk) lead_data) in
    result_ (set_lead_id (Some (Lead.lead_id lead))) ;;
    let* dup :=
      in_world (on_sheets (GoogleSheetsLogger.lead_exists (Lead.lead_id lead))) in
    if dup then result_ (add_errors ["Duplicate lead - already processed"])
    else process_new_lead self lead.

(** [process_lead]: the [result] dict is created, the body runs under
    [try], the handler turns an exception into one more error, and the
    dict is returned. *)
Definition process_lead `{Platform} (self : t) (lead_data : dict string)
  : M world WorkflowResult :=
  fun w =>
    let '(o, (w', result)) :=
      (try_except (process_lead_body self lead_data)
         (fun e => result_ (add_errors ["Unexpected error: " +:+ exn_str e])) ;;
       gets snd) (w, initial) in
    (o, w').

End LeadWorkflow.

(* ===================================================================== *)
(** ** The HTTP routes                                                    *)
(* ===================================================================== *)

Module Routes.

(** The JSON bodies the routes answer with. *)
Inductive body :=
| Failure (error : string)        (* {'success': False, 'error': error} *)
| NotReady (error : string)       (* {'error': error} *)
| Result (result : WorkflowResult)
| Leads (count : nat) (leads : list Sheets.record)
| Found (lead : Sheets.record)
| Message (message : string).     (* {'success': True, 'message': message} *)

Definition response : Type := body * Z.

(** [not lead_data] for what [request.json] returned. *)
Definition no_data (data : option (dict string)) : bool :=
  match data with
  | None | Some [] => true
  | Some _ => false
  end.

(** [capture_lead]; [workflow] is the module-level workflow ([None] when its
    initialisation failed), [request_json] what reading [request.json] does. *)
Definition capture_lead `{Platform} (workflow : option LeadWorkflow.t)
    (request_json : outcome (option (dict string))) : M world response :=
  match workflow with
  | None =>
      ret (Failure "System not initialized - check configuration", 503)
  | Some wf =>
      try_except
        (let* lead_data := lift request_json in
         if no_data lead_data then ret (Failure "No data provided", 400)
         else
           let* result := LeadWorkflow.process_lead wf (default [] lead_data) in
           ret (Result result, if success result then 200 else 400))
        (fun _ => ret (Failure "Internal server error", 500))
  end.


(** [get_lead] *)
Definition get_lead (workflow : option LeadWorkflow.t) (lead_id : string)
  : M world response :=
  match workflow with
  | None => ret (NotReady "System not initialized", 503)
  | Some _ =>
      try_except
        (let* leads := on_sheets GoogleSheetsLogger.get_all_leads in
         let lead :=
           List.find (fun l => py_eq_str (Sheets.record_get "Lead ID" l) lead_id)
             leads in
         match lead with
         | Some (kv :: l) => ret (Found (kv :: l), 200)
         | _ => ret (Failure "Lead not found", 404)
         end)
        (fun e => ret (Failure (exn_str e), 500))
  end.

(** The route [update_lead_status]. *)
Definition update_lead_status (workflow : option LeadWorkflow.t)
    (lead_id : string) (request_json : outcome (option (dict string)))
  : M world response :=
  match workflow with
  | None => ret (NotReady "System not initialized", 503)
  | Some _ =>
      try_except
        (let* data := lift request_json in
         match data with
         | None =>
             raise (Exn AttributeError "'NoneType' object has no attribute 'get'")
         | Some data =>
             let status := dict_get_default "status" "UPDATED" data in
             let notes := dict_get_default "notes" "" data in
             let* ok :=
               on_sheets (GoogleSheetsLogger.update_lead_status lead_id status notes) in
             if ok
             then ret (Message ("Lead " +:+ lead_id +:+ " updated successfully"), 200)
             else ret (Failure "Failed to update lead", 400)
         end)
        (fun e => ret (Failure (exn_str e), 500))
  end.

End Routes.

(* ===================================================================== *)
(** ** A platform to run examples on                                     *)
(* ===================================================================== *)

(** [fromisoformat] and [float] are library code; the theorems hold for any
    [Platform]. To run the workflow on concrete inputs, [Reference] reads the
    spellings every version of the library agrees on: dates
    [YYYY-MM-DD], optionally followed by one separator character, a time
    [HH:MM] or [HH:MM:SS] and an offset [+HH:MM] or [-HH:MM]; and floats
    written as plain decimals or as [nan], [inf], [-inf]. *)
Module Reference.

Fixpoint number (s : string) (acc : Z) : option Z :=
  match s with
  | EmptyString => Some acc
  | String c s' =>
      if Text.is_digit c then number s' (10 * acc + (Text.code c - 48))
      else None
  end.

(** The value of a non-empty run of digits. *)
Definition digits (s : string) : option Z :=
  if Text.falsy s then None else number s 0.

Fixpoint drop (n : nat) (s : string) : string :=
  match n, s with
  | S n', String _ s' => drop n' s'
  | _, _ => s
  end.

Definition slice (i n : nat) (s : string) : string := Text.take n (drop i s).

Definition char_at (i : nat) (s : string) : option ascii :=
  match drop i s with String c _ => Some c | EmptyString => None end.

Definition is_char (c : ascii) (o : option ascii) : bool :=
  match o with Some c' => Ascii.eqb c c' | None => false end.

Definition is_leap (y : Z) : bool :=
  ((y mod 4 =? 0) && negb (y mod 100 =? 0)) || (y mod 400 =? 0).

Definition days_in_month (y m : Z) : Z :=
  if m =? 2 then (if is_leap y then 29 else 28)
  else if (m =? 4) || (m =? 6) || (m =? 9) || (m =? 11) then 30 else 31.

Fixpoint days_before_month (y : Z) (m : nat) : Z :=
  match m with
  | O => 0
  | S m' => days_before_month y m' + days_in_month y (Z.of_nat m)
  end.

(** Days from 0001-01-01 to the given date. *)
Definition days_before (y m d : Z) : Z :=
  365 * (y - 1) + (y - 1) / 4 - (y - 1) / 100 + (y - 1) / 400
  + days_before_month y (Z.to_nat (m - 1)) + (d - 1).

Definition parse_date (s : string) : option Z :=
  match digits (slice 0 4 s), digits (slice 5 2 s), digits (slice 8 2 s) with
  | Some y, Some m, Some d =>
      if (String.length s =? 10)%nat
         && is_char "-" (char_at 4 s) && is_char "-" (char_at 7 s)
         && (1 <=? y) && (1 <=? m) && (m <=? 12)
         && (1 <=? d) && (d <=? days_in_month y m)
      then Some (days_before y m d * 86400000000) else None
  | _, _, _ => None
  end.

(** [HH:MM] or [HH:MM:SS], in microseconds. *)
Definition parse_clock (s : string) : option Z :=
  match digits (slice 0 2 s), digits (slice 3 2 s) with
  | Some h, Some mi =>
      if is_char ":" (char_at 2 s) && (h <? 24) && (mi <? 60) then
        if (String.length s =? 5)%nat then Some (hours h + minutes mi)
        else
          match digits (slice 6 2 s) with
          | Some sec =>
              if (String.length s =? 8)%nat && is_char ":" (char_at 5 s)
                 && (sec <? 60)
              then Some (hours h + minutes mi + sec * 1000000) else None
          | None => None
          end
      else None
  | _, _ => None
  end.

(** The position of the sign that starts an offset, if any. *)
Fixpoint sign_at (s : string) (i : nat) : option nat :=
  match s with
  | EmptyString => None
  | String c s' =>
      if Ascii.eqb c "+" || Ascii.eqb c "-" then Some i else sign_at s' (S i)
  end.

Definition parse_offset (s : string) : option Z :=
  match parse_clock (drop 1 s) with
  | Some off =>
      if (String.length s =? 6)%nat then
        if is_char "-" (char_at 0 s) then Some (- off) else Some off
      else None
  | None => None
  end.

Definition parse_time (s : string) : option (Z * option Z) :=
  match sign_at s 0 with
  | None => option_map (fun t => (t, None)) (parse_clock s)
  | Some i =>
      match parse_clock (Text.take i s), parse_offset (drop i s) with
      | Some t, Some off => Some (t, Some off)
      | _, _ => None
      end
  end.

Definition parse_iso (s : string) : datetime + string :=
  let bad := inr ("Invalid isoformat string: '" +:+ s +:+ "'") in
  match parse_date (Text.take 10 s) with
  | None => bad
  | Some day =>
      if (String.length s =? 10)%nat
      then inl {| wall := day; utcoffset := None |}
      else
        match parse_time (drop 11 s) with
        | Some (t, off) => inl {| wall := day + t; utcoffset := off |}
        | None => bad
        end
  end.

Definition of_Z (z : Z) : float := binary_normalize 53 1024 z 0 false.

Fixpoint split_dot (s : string) (acc : string) : string * option string :=
  match s with
  | EmptyString => (acc, None)
  | String c s' =>
      if Ascii.eqb c "." then (acc, Some s')
      else split_dot s' (acc +:+ String c EmptyString)
  end.

(** A plain decimal of at most 15 digits, rounded as a quotient. *)
Definition decimal_float (s : string) : option float :=
  let '(ip, fp) := split_dot s "" in
  let fp := default "" fp in
  match digits (ip +:+ fp) with
  | Some n =>
      if (String.length (ip +:+ fp) <=? 15)%nat
      then Some (SFdiv 53 1024 (of_Z n) (of_Z (10 ^ Z.of_nat (String.length fp))))
      else None
  | None => None
  end.

Definition parse_float (s : string) : option float :=
  if String.eqb s "nan" then Some S754_nan
  else if String.eqb s "inf" then Some (S754_infinity false)
  else if String.eqb s "-inf" then Some (S754_infinity true)
  else
    match s with
    | String "-" s' => option_map SFopp (decimal_float s')
    | _ => decimal_float s
    end.

#[export] Instance platform : Platform :=
  {| fromisoformat := parse_iso; float_of_string := parse_float |}.

End Reference.

(* ===================================================================== *)
(** ** Example data                                                      *)
(* ===================================================================== *)

Module Examples.

Definition jane : dict string :=
  [("name", "Jane Doe"); ("email", "jane@corp.com");
   ("phone", "+1-212-555-0100"); ("car_model", "Luxury Sedan X");
   ("appointment_datetime", "2026-11-05T10:00:00")].

(** The same contact asking for another car at another time. *)
Definition jane_again : dict string :=
  [("name", "Jane D."); ("email", "jane@corp.com");
   ("phone", "+1-212-555-0100"); ("car_model", "Compact Y");
   ("appointment_datetime", "2026-11-06T15:30:00")].

(** 2026-11-03T09:00:00 local time, five and a half hours east of UTC. *)
Definition nov3 : clock :=
  {| local_now := 63929293200000000;
     utc_now := 63929293200000000 - 19800000000;
     local_iso := "2026-11-03T09:00:00" |}.

(** The reply the prompt asks for. *)
Definition reply_for (kw : dict string) (score : float) : completion :=
  Content (Some (JObject
    [("name", VStr (dict_get_default "name" "" kw));
     ("phone", VStr (dict_get_default "phone" "" kw));
     ("model", VStr (dict_get_default "car_model" "" kw));
     ("datetime", VStr (dict_get_default "appointment_datetime" "" kw));
     ("intent_score", VFloat score)])).

(** A worksheet holding [rs], and services that answer every call. *)
Definition quiet (rs : list Sheets.row) (replies : list completion) : world :=
  {| w_clock := nov3;
     w_groq := {| Groq.replies := replies; Groq.requests := 0 |};
     w_sheets := {| Sheets.rows := rs; Sheets.faults := [] |};
     w_calendar := {| Calendar.events := []; Calendar.faults := [] |};
     w_discord := {| Discord.posts := []; Discord.responses := [] |};
     w_smtp := {| Smtp.sent := []; Smtp.faults := [] |} |}.

Definition fresh : world :=
  quiet [GoogleSheetsLogger.header_row]
    [reply_for jane f_one; reply_for jane_again f_one].

Definition service : NotificationService.t :=
  {| NotificationService.discord_webhook := Some "https://discord.example/hook";
     NotificationService.gmail_user := Some "desk@dealer.example";
     NotificationService.gmail_password := Some "app-password" |}.

Definition workflow : LeadWorkflow.t :=
  {| LeadWorkflow.groq_processor := GroqProcessor.init;
     LeadWorkflow.notification_service := service;
     LeadWorkflow.notification_channels := [DISCORD; EMAIL];
     LeadWorkflow.timezone := "America/New_York" |}.

Definition run (d : dict string) (w : world) : outcome WorkflowResult * world :=
  @LeadWorkflow.process_lead Reference.platform workflow d w.

(** The Lead built from [jane] at [nov3], and its scored record. *)
Definition jane_lead : Lead.t :=
  Lead.make "2026-11-03T09:00:00" "Jane Doe" "jane@corp.com"
    "+1-212-555-0100" "Luxury Sedan X" "2026-11-05T10:00:00" None None None.

Definition jane_scored : ProcessedLead.t :=
  {| ProcessedLead.name := VStr "Jane Doe";
     ProcessedLead.phone := VStr "+1-212-555-0100";
     ProcessedLead.model := VStr "Luxury Sedan X";
     ProcessedLead.datetime := VStr "2026-11-05T10:00:00";
     ProcessedLead.intent_score := f_one |}.

(** The world the first submission leaves behind. *)
Definition after_first : world := snd (run jane fresh).

(** The worksheet answers every read and refuses the append: the two reads
    of the duplicate check, the two reads of the check inside log_lead and
    the opening of the sheet succeed, append_row fails. *)
Definition append_refused : world :=
  set_sheets {| Sheets.rows := [GoogleSheetsLogger.header_row];
                Sheets.faults := [false; false; false; false; false; true] |}
    fresh.

(** The scoring service fails three times in three ways: a fault of the
    client, a content that is not JSON, a JSON document without a score. *)
Definition scoring_down : world :=
  quiet [GoogleSheetsLogger.header_row]
    [ServiceFault; Content None; Content (Some (JObject [("name", VStr "Jane Doe")]))].

(** A payload that names its own identifier and timestamp. *)
Definition walk_in : dict string :=
  jane ++ [("lead_id", "walk-in-42"); ("timestamp", "2026-11-01T08:00:00")].

(** The same with a key that is no field of Lead. *)
Definition tagged : dict string :=
  jane ++ [("lead_id", "walk-in-42"); ("utm_source", "newsletter")].

(** Three required fields are missing or empty, the phone is malformed. *)
Definition incomplete : dict string :=
  [("phone", "12"); ("name", "Jane Doe"); ("email", "")].

(** A payload whose identifier is the address of a stored lead. *)
Definition returning : dict string :=
  jane ++ [("lead_id", "jane@corp.com")].

Definition returning_lead : Lead.t :=
  Lead.make "2026-11-03T09:00:00" "Jane Doe" "jane@corp.com"
    "+1-212-555-0100" "Luxury Sedan X" "2026-11-05T10:00:00" None None
    (Some "jane@corp.com").

(** A scored record whose datetime is no ISO text. *)
Definition vague : ProcessedLead.t :=
  {| ProcessedLead.name := VStr "Jane Doe";
     ProcessedLead.phone := VStr "+1-212-555-0100";
     ProcessedLead.model := VStr "Luxury Sedan X";
     ProcessedLead.datetime := VStr "tomorrow at ten";
     ProcessedLead.intent_score := f_one |}.

(** The worksheet holding the header and the row of [jane]. *)
Definition one_lead : list Sheets.row :=
  [GoogleSheetsLogger.header_row; GoogleSheetsLogger.row_of jane_lead jane_scored].

End Examples.

(* ===================================================================== *)
(** ** Vocabulary of the statements                                      *)
(* ===================================================================== *)

(** [0.0 <= x <= 1.0] *)
Definition in_unit_interval (x : float) : Prop :=
  SFleb f_zero x = true /\ SFleb x f_one = true.

Definition missing_message (field : string) : string :=
  "Missing required field: " +:+ field.

(** The strings a regular expression denotes. *)
Inductive matches : Regex.re -> string -> Prop :=
| matches_eps : matches Regex.Eps ""
| matches_class p c : p c = true -> matches (Regex.Class p) (String c "")
| matches_seq r1 r2 s1 s2 :
    matches r1 s1 -> matches r2 s2 -> matches (Regex.Seq r1 r2) (s1 +:+ s2)
| matches_alt_l r1 r2 s : matches r1 s -> matches (Regex.Alt r1 r2) s
| matches_alt_r r1 r2 s : matches r2 s -> matches (Regex.Alt r1 r2) s
| matches_star_nil r : matches (Regex.Star r) ""
| matches_star_cons r s1 s2 :
    matches r s1 -> matches (Regex.Star r) s2 ->
    matches (Regex.Star r) (s1 +:+ s2).

(** [n] attempts in a row fail, taking the scoring service from [g] to [g']. *)
Inductive failing_attempts `{Platform} : nat -> Groq.t -> Groq.t -> Prop :=
| failing_none g : failing_attempts O g g
| failing_next n g e g1 g' :
    GroqProcessor.attempt g = (Raise e, g1) ->
    failing_attempts n g1 g' ->
    failing_attempts (S n) g g'.

(** The notifications for [channels] are sent one after the other from
    world [w] to world [w'], and [bs] lists what each send returned. *)
Inductive sends (svc : NotificationService.t) (lead : Lead.t)
    (p : ProcessedLead.t) (link : option string)
  : list NotificationChannel -> world -> list bool -> world -> Prop :=
| sends_nil w : sends svc lead p link [] w [] w
| sends_cons c cs b bs w w1 w' :
    send_notification svc lead p link c w = (Ok b, w1) ->
    sends svc lead p link cs w1 bs w' ->
    sends svc lead p link (c :: cs) w (b :: bs) w'.

(** The warnings left by sends with results [bs]. *)
Fixpoint send_warnings (channels : list NotificationChannel) (bs : list bool)
  : list string :=
  match channels, bs with
  | c :: cs, b :: bs' =>
      (if b then []
       else ["Failed to send " +:+ channel_value c +:+ " notification"])
      ++ send_warnings cs bs'
  | _, _ => []
  end.

Definition add_warnings (ws : list string) (r : WorkflowResult) : WorkflowResult :=
  {| success := success r; lead_id := lead_id r; errors := errors r;
     warnings := warnings r ++ ws; meet_link := meet_link r;
     intent_score := intent_score r |}.

(** The result dict after steps 4 to 7, from what the steps returned. *)
Definition finish (p : ProcessedLead.t) (logged : bool) (link : option string)
    (ws : list string) (r : WorkflowResult) : WorkflowResult :=
  let r := set_intent_score (Some (ProcessedLead.intent_score p)) r in
  let r := if SFeqb (ProcessedLead.intent_score p) f_half
           then add_warning LeadWorkflow.manual_review r else r in
  let r := if logged then r else add_errors ["Failed to log to Google Sheets"] r in
  let r := set_meet_link link r in
  let r := if truthy link then r
           else add_warning "Failed to create calendar event" r in
  set_success true (add_warnings ws r).

(** The worksheet after the header was written and the leads of [entries]
    were appended by [log_lead]. *)
Definition appended (entries : list (Lead.t * ProcessedLead.t)) : list Sheets.row :=
  GoogleSheetsLogger.header_row
    :: map (fun e => GoogleSheetsLogger.row_of (fst e) (snd e)) entries.

(** The four ways a call of [process_lead] can go. *)
Inductive run_case `{Platform} (self : LeadWorkflow.t) (lead_data : dict string)
    (w : world) : WorkflowResult -> world -> Prop :=
| case_invalid errs :
    LeadValidator.validate_lead_data (w_clock w) lead_data = (false, errs) ->
    run_case self lead_data w (add_errors errs LeadWorkflow.initial) w
| case_rejected errs e :
    LeadValidator.validate_lead_data (w_clock w) lead_data = (true, errs) ->
    Lead.new (local_iso (w_clock w)) lead_data = Raise e ->
    run_case self lead_data w (add_errors ["Unexpected error: " +:+ exn_str e] LeadWorkflow.initial) w
| case_duplicate errs lead w1 :
    LeadValidator.validate_lead_data (w_clock w) lead_data = (true, errs) ->
    Lead.new (local_iso (w_clock w)) lead_data = Ok lead ->
    on_sheets (GoogleSheetsLogger.lead_exists (Lead.lead_id lead)) w = (Ok true, w1) ->
    run_case self lead_data w (add_errors ["Duplicate lead - already processed"]
                (set_lead_id (Some (Lead.lead_id lead)) LeadWorkflow.initial)) w1
| case_new errs lead w1 p w2 logged w3 link w4 bs w5 :
    LeadValidator.validate_lead_data (w_clock w) lead_data = (true, errs) ->
    Lead.new (local_iso (w_clock w)) lead_data = Ok lead ->
    on_sheets (GoogleSheetsLogger.lead_exists (Lead.lead_id lead)) w = (Ok false, w1) ->
    on_groq (GroqProcessor.analyze_lead (LeadWorkflow.groq_processor self) lead) w1
      = (Ok p, w2) ->
    on_sheets (GoogleSheetsLogger.log_lead lead p) w2 = (Ok logged, w3) ->
    on_calendar (CalendarManager.create_event lead p (LeadWorkflow.timezone self)) w3
      = (Ok link, w4) ->
    sends (LeadWorkflow.notification_service self) lead p link
      (LeadWorkflow.notification_channels self) w4 bs w5 ->
    run_case self lead_data w (finish p logged link
                (send_warnings (LeadWorkflow.notification_channels self) bs)
                (set_lead_id (Some (Lead.lead_id lead)) LeadWorkflow.initial)) w5.

(** All characters of a text are in a class. *)
Definition all_chars (cls : ascii -> bool) (s : string) : Prop :=
  Forall (fun c => cls c = true) (Text.chars s).

(** [local@domain.tld]: a non-empty local part of letters, digits and
    [._%+-], a non-empty domain of letters, digits and [.-], and a last
    label of at least two letters. *)
Definition email_shape (s : string) : Prop :=
  exists local domain tld,
    s = local +:+ "@" +:+ domain +:+ "." +:+ tld
    /\ local <> "" /\ all_chars (LeadValidator.word_char "._%+-") local
    /\ domain <> "" /\ all_chars (LeadValidator.word_char ".-") domain
    /\ (2 <= String.length tld)%nat /\ all_chars Text.is_alpha tld.

(** An optional [+], an optional [1], then 9 to 15 digits. *)
Definition phone_shape (s : string) : Prop :=
  exists sign one digits,
    s = sign +:+ one +:+ digits
    /\ (sign = "" \/ sign = "+") /\ (one = "" \/ one = "1")
    /\ (9 <= String.length digits <= 15)%nat /\ all_chars Text.is_digit digits.

(** The phone number with the separators [-], space, [(] and [)] removed. *)
Definition clean_phone (phone : string) : string :=
  Text.replace ")" "" (Text.replace "(" "" (Text.replace " " ""
    (Text.replace "-" "" phone))).

(** A text, or the text followed by one final newline. *)
Definition up_to_newline (shape : string -> Prop) (s : string) : Prop :=
  shape s \/ exists s', s = s' +:+ String "010" "" /\ shape s'.

(* ===================================================================== *)
(** * Properties                                                         *)
(* ===================================================================== *)

(** ** The digest: test vectors and the shape of its output *)

Example md5_empty :
  MD5.hexdigest (Text.encode "") = "d41d8cd98f00b204e9800998ecf8427e".
Proof. vm_compute. reflexivity. Qed.

Example md5_abc :
  MD5.hexdigest (Text.encode "abc") = "900150983cd24fb0d6963f7d28e17f72".
Proof. vm_compute. reflexivity. Qed.

Example md5_two_blocks :
  MD5.hexdigest (repeat 97 100) = "36a92cc94a9e0fa21f625f8bfb007adf".
Proof. vm_compute. reflexivity. Qed.

Example derive_id_jane :
  Lead.derive_id "jane@corp.com" "+1-212-555-0100" = "c0ef8a4bd04e".
Proof. vm_compute. reflexivity. Qed.

Lemma le_bytes_length n x : length (MD5.le_bytes n x) = n.
Proof. revert x. induction n as [|n IH]; intros x; simpl; [|rewrite IH]; reflexivity. Qed.

Lemma digest_length msg : length (MD5.digest msg) = 16%nat.
Proof.
  unfold MD5.digest.
  destruct (fold_left MD5.compress _ MD5.init) as [[[a b] c] d].
  rewrite !length_app, !le_bytes_length. reflexivity.
Qed.

Lemma hex_length bytes :
  String.length (MD5.hex bytes) = (2 * length bytes)%nat.
Proof. induction bytes as [|b r IH]; simpl; [reflexivity | rewrite IH; lia]. Qed.

Lemma nibble_range x : 0 <= Z.land x 15 < 16.
Proof.
  change 15 with (Z.ones 4). rewrite Z.land_ones by lia.
  apply Z.mod_pos_bound. lia.
Qed.

Lemma hex_digit_is_hex n :
  0 <= n < 16 -> Text.is_hex (MD5.hex_digit n) = true.
Proof.
  intros Hn.
  assert (Hall : forallb (fun i => Text.is_hex (MD5.hex_digit (Z.of_nat i)))
                   (seq 0 16) = true) by reflexivity.
  rewrite forallb_forall in Hall.
  rewrite <- (Z2Nat.id n) by lia.
  apply Hall, in_seq. lia.
Qed.

Lemma hex_chars bytes :
  Forall (fun c => Text.is_hex c = true) (Text.chars (MD5.hex bytes)).
Proof.
  induction bytes as [|b r IH]; simpl; [constructor |].
  repeat constructor; try apply hex_digit_is_hex, nibble_range. exact IH.
Qed.

Lemma take_length n s :
  (n <= String.length s)%nat -> String.length (Text.take n s) = n.
Proof.
  revert s. induction n as [|n IH]; intros [|c s] Hn; simpl in *; try lia.
  rewrite IH; [reflexivity | lia].
Qed.

Lemma take_chars P n s :
  Forall P (Text.chars s) -> Forall P (Text.chars (Text.take n s)).
Proof.
  revert s. induction n as [|n IH]; intros [|c s] H; simpl; try constructor.
  - inversion H; assumption.
  - apply IH. inversion H; assumption.
Qed.

Lemma derive_id_shape email phone :
  String.length (Lead.derive_id email phone) = 12%nat
  /\ Forall (fun c => Text.is_hex c = true)
       (Text.chars (Lead.derive_id email phone)).
Proof.
  unfold Lead.derive_id, MD5.hexdigest. split.
  - apply take_length. rewrite hex_length, digest_length. lia.
  - apply take_chars, hex_chars.
Qed.

(** ** Lead identity *)

(** C6. Two constructions of a Lead with the same email and phone and no
    supplied lead_id (absent or empty) get the same lead_id, whatever the
    other fields are; that id is the first 12 characters of the hex digest
    of the lowercased concatenation of email and phone, so it has 12
    characters, all hexadecimal digits. *)
Theorem C6_lead_id_deterministic
    (email phone : string)
    (now1 now2 name1 name2 model1 model2 time1 time2 : string)
    (score1 score2 stamp1 stamp2 id1 id2 : option string) :
  Lead.is_set id1 = false ->
  Lead.is_set id2 = false ->
  Lead.lead_id (Lead.make now1 name1 email phone model1 time1 score1 stamp1 id1)
  = Lead.lead_id (Lead.make now2 name2 email phone model2 time2 score2 stamp2 id2)
  /\ Lead.lead_id (Lead.make now1 name1 email phone model1 time1 score1 stamp1 id1)
     = Text.take 12 (MD5.hexdigest (Text.encode (Text.lower (email +:+ phone))))
  /\ String.length
       (Lead.lead_id (Lead.make now1 name1 email phone model1 time1 score1 stamp1 id1))
     = 12%nat
  /\ Forall (fun c => Text.is_hex c = true)
       (Text.chars
          (Lead.lead_id (Lead.make now1 name1 email phone model1 time1 score1 stamp1 id1))).
Proof.
  intros H1 H2. unfold Lead.make. cbn [Lead.lead_id].
  rewrite H1, H2.
  repeat split; try reflexivity; apply derive_id_shape.
Qed.

Lemma C6_lead_id_deterministic_witness :
  Lead.lead_id (Lead.make "2026-11-03T09:00:00" "Jane Doe" "jane@corp.com"
                  "+1-212-555-0100" "Luxury Sedan X" "2026-11-05T10:00:00"
                  None None None)
  = Lead.lead_id (Lead.make "2026-11-04T18:20:00" "J. Doe" "jane@corp.com"
                    "+1-212-555-0100" "Compact Y" "2026-11-09T08:00:00"
                    (Some "0.9") (Some "2026-01-01T00:00:00") (Some "")).
Proof.
  apply (C6_lead_id_deterministic "jane@corp.com" "+1-212-555-0100");
    reflexivity.
Defined.

(** ** Clamping and the score of a processed lead *)

Lemma SFltb_SFleb x y : SFltb x y = true -> SFleb x y = true.
Proof.
  unfold SFltb, SFleb. destruct (SFcompare x y) as [[]|]; congruence.
Qed.

Lemma clamp_in_unit_interval x : in_unit_interval (GroqProcessor.clamp x).
Proof.
  unfold in_unit_interval, GroqProcessor.clamp, py_max, py_min.
  destruct (SFltb x f_one) eqn:Hhi.
  - destruct (SFltb f_zero x) eqn:Hlo.
    + split; apply SFltb_SFleb; assumption.
    + split; reflexivity.
  - split; reflexivity.
Qed.

Lemma half_in_unit_interval : in_unit_interval f_half.
Proof. split; reflexivity. Qed.

Section Scoring.
Context `{Platform}.

Lemma attempt_score g p g' :
  GroqProcessor.attempt g = (Ok p, g') ->
  exists x, ProcessedLead.intent_score p = GroqProcessor.clamp x.
Proof.
  unfold GroqProcessor.attempt, bind, lift, raise.
  destruct (Groq.create g) as [[content|e] g1]; [|discriminate].
  destruct (json_loads content) as [result|e]; [|discriminate].
  destruct (subscript result "intent_score") as [raw|e]; [|discriminate].
  destruct (py_float raw) as [x|e]; [|discriminate].
  destruct result as [items|]; [|discriminate].
  unfold ProcessedLead_new.
  destruct (bind_keywords _ _ _ _); [|discriminate].
  intros [= <- _]. exists x. reflexivity.
Qed.

(** One turn of the retry loop, by the outcome of its attempt. *)
Lemma attempts_cons self n rest g :
  GroqProcessor.attempts self (n :: rest) g =
  match GroqProcessor.attempt g with
  | (Ok p, g1) => (Ok (Some p), g1)
  | (Raise _, g1) =>
      if Nat.eqb n (GroqProcessor.max_retries self - 1) then (Ok None, g1)
      else GroqProcessor.attempts self rest g1
  end.
Proof.
  cbn [GroqProcessor.attempts]. unfold bind at 1. unfold try_except, bind.
  destruct (GroqProcessor.attempt g) as [[p|e] g1]; [reflexivity|].
  unfold GroqProcessor.on_failure.
  destruct (exn_is JSONDecodeError e), (Nat.eqb n _); reflexivity.
Qed.

(** The loop never raises, and a record it returns carries a clamped score. *)
Lemma attempts_clamped self range g :
  match GroqProcessor.attempts self range g with
  | (Ok (Some p), _) =>
      exists x, ProcessedLead.intent_score p = GroqProcessor.clamp x
  | (Ok None, _) => True
  | (Raise _, _) => False
  end.
Proof.
  revert g. induction range as [|n rest IH]; intros g; [exact I|].
  rewrite attempts_cons.
  destruct (GroqProcessor.attempt g) as [[p|e] g1] eqn:Ha.
  - eapply attempt_score; eassumption.
  - destruct (Nat.eqb n _); [exact I | apply IH].
Qed.

(** [analyze_lead] by the outcome of its loop. *)
Lemma analyze_lead_unfold self lead g :
  GroqProcessor.analyze_lead self lead g =
  match GroqProcessor.attempts self (seq 0 (GroqProcessor.max_retries self)) g with
  | (Ok (Some p), g') => (Ok p, g')
  | (Ok None, g') => (Ok (GroqProcessor.fallback lead), g')
  | (Raise e, g') => (Raise e, g')
  end.
Proof.
  unfold GroqProcessor.analyze_lead, bind.
  destruct (GroqProcessor.attempts _ _ g) as [[[p|]|e] g']; reflexivity.
Qed.

(** C7. Whatever the lead and whatever the scoring service answers,
    analyze_lead returns a ProcessedLead (it never raises) whose
    intent_score lies in [0.0, 1.0]: the record is either built from a
    decoded response, with the score max(0.0, min(1.0, x)) of the decoded
    number x, or it is the fallback record with the score 0.5. *)
Theorem C7_intent_score_in_unit_interval
    (self : GroqProcessor.t) (lead : Lead.t) (g : Groq.t) :
  match GroqProcessor.analyze_lead self lead g with
  | (Ok p, _) =>
      in_unit_interval (ProcessedLead.intent_score p)
      /\ ((exists x, ProcessedLead.intent_score p = GroqProcessor.clamp x)
          \/ p = GroqProcessor.fallback lead)
  | (Raise _, _) => False
  end.
Proof.
  rewrite analyze_lead_unfold.
  pose proof (attempts_clamped self
                (seq 0 (GroqProcessor.max_retries self)) g) as Hloop.
  destruct (GroqProcessor.attempts _ _ g) as [[[p|]|e] g'].
  - destruct Hloop as [x Hx]. split; [|left; eauto].
    rewrite Hx. apply clamp_in_unit_interval.
  - split; [apply half_in_unit_interval | right; reflexivity].
  - exact Hloop.
Qed.

Lemma analyze_lead_total self lead g :
  exists p g', GroqProcessor.analyze_lead self lead g = (Ok p, g').
Proof.
  rewrite analyze_lead_unfold.
  pose proof (attempts_clamped self
                (seq 0 (GroqProcessor.max_retries self)) g) as Hloop.
  destruct (GroqProcessor.attempts _ _ g) as [[[p|]|e] g'];
    [eauto | eauto | contradiction].
Qed.

End Scoring.

(** ** The validator *)

Section Validation.
Context `{Platform}.

Lemma falsy_empty s : Text.falsy s = true <-> s = "".
Proof. destruct s; simpl; split; congruence. Qed.

(** C8. validate_datetime returns true exactly for the non-empty strings
    that the ISO-8601 parser accepts once every 'Z' is rewritten to the
    UTC offset '+00:00' (so false exactly for the empty string and for
    strings that fail to parse); a parsed time earlier than now minus five
    minutes is still accepted, the only effect being one warning handed to
    the logger. *)
Theorem C8_validate_datetime_lenient (clk : clock) (dt_string : string) :
  (LeadValidator.validate_datetime clk dt_string = true
   <-> dt_string <> ""
       /\ exists dt, fromisoformat (Text.replace "Z" "+00:00" dt_string) = inl dt)
  /\ (LeadValidator.validate_datetime clk dt_string = false
      <-> dt_string = ""
          \/ exists e, fromisoformat (Text.replace "Z" "+00:00" dt_string) = inr e)
  /\ (forall dt,
        dt_string <> "" ->
        fromisoformat (Text.replace "Z" "+00:00" dt_string) = inl dt ->
        LeadValidator.in_the_past clk dt = true ->
        LeadValidator.validate_datetime_logged clk dt_string
        = (true, [LogWarning ("Appointment time is in the past: " +:+ dt_string)])).
Proof.
  unfold LeadValidator.validate_datetime, LeadValidator.validate_datetime_logged.
  destruct dt_string as [|c s]; simpl Text.falsy; cbv iota.
  - split; [|split]; simpl.
    + split; [discriminate | intros [Hne _]; contradiction].
    + split; auto.
    + intros dt Hne; contradiction.
  - set (text := Text.replace "Z" "+00:00" (String c s)).
    destruct (fromisoformat text) as [dt|e]; (split; [|split]); simpl.
    + split; [intros _; split; [discriminate | eauto] | reflexivity].
    + split; [discriminate | intros [? | [e ?]]; discriminate].
    + intros dt' _ [= <-] ->. reflexivity.
    + split; [discriminate | intros [_ [dt ?]]; discriminate].
    + split; [eauto | reflexivity].
    + intros dt' _ ?; discriminate.
Qed.

Lemma check_required_fold data fields acc :
  fold_left (LeadValidator.check_required data) fields acc
  = acc ++ map missing_message
             (List.filter (LeadValidator.is_missing data) fields).
Proof.
  revert acc. induction fields as [|f fields IH]; intros acc; simpl.
  - rewrite app_nil_r. reflexivity.
  - rewrite IH. unfold LeadValidator.check_required.
    destruct (LeadValidator.is_missing data f); simpl.
    + rewrite <- app_assoc. reflexivity.
    + reflexivity.
Qed.

(** [validate_lead_data] by whether a required field is missing. *)
Lemma validate_lead_data_unfold clk data :
  LeadValidator.validate_lead_data clk data =
  match List.filter (LeadValidator.is_missing data) LeadValidator.required_fields with
  | [] =>
      (Nat.eqb (length (LeadValidator.shape_errors clk data)) 0,
       LeadValidator.shape_errors clk data)
  | missing =>
      (false, map missing_message missing)
  end.
Proof.
  unfold LeadValidator.validate_lead_data.
  rewrite check_required_fold, app_nil_l.
  destruct (List.filter _ LeadValidator.required_fields); reflexivity.
Qed.

(** C5. When a required field (name, email, phone, car_model,
    appointment_datetime) is absent or empty, validate_lead_data returns
    ok=false and exactly the list of "Missing required field" errors, one
    per missing field in that field order; nothing else is in the list, so
    no shape check contributed (the result does not depend on the clock or
    on the parser). In all cases ok is true iff the error list is empty. *)
Theorem C5_missing_fields_reported_in_order (clk : clock) (data : dict string) :
  ((exists field, In field LeadValidator.required_fields
                  /\ LeadValidator.is_missing data field = true) ->
   LeadValidator.validate_lead_data clk data
   = (false,
      map (fun field => "Missing required field: " +:+ field)
        (List.filter (LeadValidator.is_missing data)
           ["name"; "email"; "phone"; "car_model"; "appointment_datetime"])))
  /\ (fst (LeadValidator.validate_lead_data clk data) = true
      <-> snd (LeadValidator.validate_lead_data clk data) = []).
Proof.
  rewrite validate_lead_data_unfold. split.
  - intros (field & Hin & Hmiss).
    assert (Hf : In field (List.filter (LeadValidator.is_missing data)
                             LeadValidator.required_fields))
      by (apply filter_In; split; assumption).
    change ["name"; "email"; "phone"; "car_model"; "appointment_datetime"]
      with LeadValidator.required_fields.
    destruct (List.filter _ LeadValidator.required_fields) as [|m ms];
      [destruct Hf | reflexivity].
  - destruct (List.filter _ LeadValidator.required_fields) as [|m ms]; simpl.
    + destruct (LeadValidator.shape_errors clk data); simpl; split; congruence.
    + split; congruence.
Qed.

End Validation.

(** ** Adapters never raise *)

Lemma try_except_ret_total {S A} (m : M S A) (x : A) (s : S) :
  exists a s', try_except m (fun _ => ret x) s = (Ok a, s').
Proof.
  unfold try_except, ret. destruct (m s) as [[a|e] s']; eauto.
Qed.

Lemma zoom_total {S T A} (proj : S -> T) (upd : T -> S -> S) (m : M T A) s :
  (exists a t', m (proj s) = (Ok a, t')) ->
  exists a s', zoom proj upd m s = (Ok a, s').
Proof.
  intros (a & t' & Hm). unfold zoom. rewrite Hm. eauto.
Qed.

Lemma lead_exists_total key s :
  exists b s', GoogleSheetsLogger.lead_exists key s = (Ok b, s').
Proof. apply try_except_ret_total. Qed.

Lemma log_lead_total lead p s :
  exists b s', GoogleSheetsLogger.log_lead lead p s = (Ok b, s').
Proof. apply try_except_ret_total. Qed.


Lemma create_event_total `{Platform} lead p tz s :
  exists l s', CalendarManager.create_event lead p tz s = (Ok l, s').
Proof. apply try_except_ret_total. Qed.

Lemma send_notification_total svc lead p link c w :
  exists b w', send_notification svc lead p link c w = (Ok b, w').
Proof.
  unfold send_notification.
  destruct c.
  - destruct (truthy _); [|unfold ret; eauto].
    apply zoom_total, try_except_ret_total.
  - destruct (truthy _); [|unfold ret; eauto].
    apply zoom_total, try_except_ret_total.
Qed.

Lemma sends_total svc lead p link cs w :
  exists bs w', sends svc lead p link cs w bs w'.
Proof.
  revert w. induction cs as [|c cs IH]; intros w.
  - exists [], w. constructor.
  - destruct (send_notification_total svc lead p link c w) as (b & w1 & Hs).
    destruct (IH w1) as (bs & w' & Hrest).
    exists (b :: bs), w'. econstructor; eassumption.
Qed.

(** A link returned by [create_event] is the fixed meeting link. *)
Lemma create_event_link `{Platform} lead p tz s l s' :
  CalendarManager.create_event lead p tz s = (Ok (Some l), s') ->
  l = CalendarManager.meet_link.
Proof.
  unfold CalendarManager.create_event, try_except, bind, lift, ret.
  destruct (CalendarManager.parse_start _) as [start|e]; [|discriminate].
  destruct (CalendarManager.one_hour_later start) as [e1|e]; [|discriminate].
  destruct (Calendar.insert _ s) as [[[]|e] s1]; [|discriminate].
  intros [= <- _]. reflexivity.
Qed.

(** ** The orchestrator, path by path *)

Lemma add_warnings_nil r : add_warnings [] r = r.
Proof. destruct r. unfold add_warnings. simpl. rewrite app_nil_r. reflexivity. Qed.

Lemma add_warnings_app ws1 ws2 r :
  add_warnings (ws1 ++ ws2) r = add_warnings ws2 (add_warnings ws1 r).
Proof. unfold add_warnings. simpl. rewrite app_assoc. reflexivity. Qed.

Section Workflow.
Context `{Platform}.
Variable self : LeadWorkflow.t.

Lemma notify_all_run lead p link cs w bs w' r :
  sends (LeadWorkflow.notification_service self) lead p link cs w bs w' ->
  LeadWorkflow.notify_all self lead p link cs (w, r)
  = (Ok tt, (w', add_warnings (send_warnings cs bs) r)).
Proof.
  intros Hs. revert r.
  induction Hs as [w | c cs b bs w w1 w' Hsend _ IH]; intros r.
  - simpl. rewrite add_warnings_nil. reflexivity.
  - cbn [LeadWorkflow.notify_all send_warnings].
    unfold bind at 1. unfold LeadWorkflow.in_world, zoom. simpl fst.
    rewrite Hsend. unfold bind at 1.
    rewrite add_warnings_app.
    destruct b; simpl.
    + rewrite add_warnings_nil. apply IH.
    + apply IH.
Qed.

(** Steps 4 to 7 on a lead that is not a duplicate. *)
Lemma process_new_lead_run lead w r p w2 logged w3 link w4 bs w5 :
  on_groq (GroqProcessor.analyze_lead (LeadWorkflow.groq_processor self) lead) w
    = (Ok p, w2) ->
  on_sheets (GoogleSheetsLogger.log_lead lead p) w2 = (Ok logged, w3) ->
  on_calendar (CalendarManager.create_event lead p (LeadWorkflow.timezone self)) w3
    = (Ok link, w4) ->
  sends (LeadWorkflow.notification_service self) lead p link
    (LeadWorkflow.notification_channels self) w4 bs w5 ->
  LeadWorkflow.process_new_lead self lead (w, r)
  = (Ok tt,
     (w5, finish p logged link
            (send_warnings (LeadWorkflow.notification_channels self) bs) r)).
Proof.
  intros Hscore Hlog Hcal Hsends.
  unfold LeadWorkflow.process_new_lead, finish.
  unfold bind at 1. unfold LeadWorkflow.in_world at 1. unfold zoom at 1.
  simpl fst. rewrite Hscore.
  unfold bind at 1. unfold LeadWorkflow.result_ at 1. unfold modify at 1.
  simpl fst; simpl snd.
  unfold bind at 1.
  set (r1 := set_intent_score _ r).
  assert (Hwhen1 :
    when (SFeqb (ProcessedLead.intent_score p) f_half)
      (LeadWorkflow.result_ (add_warning LeadWorkflow.manual_review)) (w2, r1)
    = (Ok tt, (w2, if SFeqb (ProcessedLead.intent_score p) f_half
                   then add_warning LeadWorkflow.manual_review r1 else r1)))
    by (destruct (SFeqb _ _); reflexivity).
  rewrite Hwhen1. clear Hwhen1.
  set (r2 := if SFeqb _ _ then _ else r1).
  unfold bind at 1. unfold LeadWorkflow.in_world at 1. unfold zoom at 1.
  simpl fst. rewrite Hlog. simpl snd.
  unfold bind at 1.
  assert (Hwhen2 :
    when (negb logged)
      (LeadWorkflow.result_ (add_errors ["Failed to log to Google Sheets"])) (w3, r2)
    = (Ok tt, (w3, if logged then r2
                   else add_errors ["Failed to log to Google Sheets"] r2)))
    by (destruct logged; reflexivity).
  rewrite Hwhen2. clear Hwhen2.
  set (r3 := if logged then r2 else _).
  unfold bind at 1. unfold LeadWorkflow.in_world at 1. unfold zoom at 1.
  simpl fst. rewrite Hcal. simpl snd.
  unfold bind at 1. unfold LeadWorkflow.result_ at 1. unfold modify at 1.
  simpl fst; simpl snd.
  unfold bind at 1.
  set (r4 := set_meet_link link r3).
  assert (Hwhen3 :
    when (negb (truthy link))
      (LeadWorkflow.result_ (add_warning "Failed to create calendar event")) (w4, r4)
    = (Ok tt, (w4, if truthy link then r4
                   else add_warning "Failed to create calendar event" r4)))
    by (destruct (truthy link); reflexivity).
  rewrite Hwhen3. clear Hwhen3.
  set (r5 := if truthy link then r4 else _).
  unfold bind at 1.
  rewrite (notify_all_run _ _ _ _ _ _ _ r5 Hsends).
  reflexivity.
Qed.

End Workflow.

Section ProcessLead.
Context `{Platform}.
Variable self : LeadWorkflow.t.
Variable lead_data : dict string.
Variable w : world.

(** [process_lead] from the outcome of the body of its [try]. *)
Lemma process_lead_of_body :
  LeadWorkflow.process_lead self lead_data w =
  match LeadWorkflow.process_lead_body self lead_data (w, LeadWorkflow.initial) with
  | (Ok _, (w1, r1)) => (Ok r1, w1)
  | (Raise e, (w1, r1)) =>
      (Ok (add_errors ["Unexpected error: " +:+ exn_str e] r1), w1)
  end.
Proof.
  unfold LeadWorkflow.process_lead, bind, try_except.
  destruct (LeadWorkflow.process_lead_body self lead_data (w, LeadWorkflow.initial))
    as [[[]|e] [w1 r1]]; reflexivity.
Qed.

(** Step 1 fails: the errors of the validator, nothing else. *)
Lemma body_invalid r errs :
  LeadValidator.validate_lead_data (w_clock w) lead_data = (false, errs) ->
  LeadWorkflow.process_lead_body self lead_data (w, r)
  = (Ok tt, (w, add_errors errs r)).
Proof.
  intros Hv. unfold LeadWorkflow.process_lead_body, bind, gets. cbn [fst snd].
  rewrite Hv. reflexivity.
Qed.

(** Step 2 fails: the constructor rejects the keywords. *)
Lemma body_rejected r errs e :
  LeadValidator.validate_lead_data (w_clock w) lead_data = (true, errs) ->
  Lead.new (local_iso (w_clock w)) lead_data = Raise e ->
  LeadWorkflow.process_lead_body self lead_data (w, r) = (Raise e, (w, r)).
Proof.
  intros Hv Hnew. unfold LeadWorkflow.process_lead_body, bind, gets. cbn [fst snd].
  rewrite Hv. cbn [negb fst snd].
  unfold lift. rewrite Hnew. reflexivity.
Qed.

(** Step 3 answers "duplicate". *)
Lemma body_duplicate r errs lead w1 :
  LeadValidator.validate_lead_data (w_clock w) lead_data = (true, errs) ->
  Lead.new (local_iso (w_clock w)) lead_data = Ok lead ->
  on_sheets (GoogleSheetsLogger.lead_exists (Lead.lead_id lead)) w = (Ok true, w1) ->
  LeadWorkflow.process_lead_body self lead_data (w, r)
  = (Ok tt, (w1, add_errors ["Duplicate lead - already processed"]
                   (set_lead_id (Some (Lead.lead_id lead)) r))).
Proof.
  intros Hv Hnew Hdup.
  unfold LeadWorkflow.process_lead_body, bind, gets. cbn [fst snd].
  rewrite Hv. cbn [negb fst snd].
  unfold lift. rewrite Hnew. cbn [fst snd].
  unfold LeadWorkflow.result_ at 1. unfold modify at 1. cbn [fst snd].
  unfold LeadWorkflow.in_world at 1. unfold zoom at 1. cbn [fst snd].
  rewrite Hdup. reflexivity.
Qed.

(** Step 3 answers "new": steps 4 to 7 run. *)
Lemma body_new r errs lead w1 p w2 logged w3 link w4 bs w5 :
  LeadValidator.validate_lead_data (w_clock w) lead_data = (true, errs) ->
  Lead.new (local_iso (w_clock w)) lead_data = Ok lead ->
  on_sheets (GoogleSheetsLogger.lead_exists (Lead.lead_id lead)) w = (Ok false, w1) ->
  on_groq (GroqProcessor.analyze_lead (LeadWorkflow.groq_processor self) lead) w1
    = (Ok p, w2) ->
  on_sheets (GoogleSheetsLogger.log_lead lead p) w2 = (Ok logged, w3) ->
  on_calendar (CalendarManager.create_event lead p (LeadWorkflow.timezone self)) w3
    = (Ok link, w4) ->
  sends (LeadWorkflow.notification_service self) lead p link
    (LeadWorkflow.notification_channels self) w4 bs w5 ->
  LeadWorkflow.process_lead_body self lead_data (w, r)
  = (Ok tt,
     (w5, finish p logged link
            (send_warnings (LeadWorkflow.notification_channels self) bs)
            (set_lead_id (Some (Lead.lead_id lead)) r))).
Proof.
  intros Hv Hnew Hdup Hscore Hlog Hcal Hsends.
  unfold LeadWorkflow.process_lead_body, bind, gets. cbn [fst snd].
  rewrite Hv. cbn [negb fst snd].
  unfold lift. rewrite Hnew. cbn [fst snd].
  unfold LeadWorkflow.result_ at 1. unfold modify at 1. cbn [fst snd].
  unfold LeadWorkflow.in_world at 1. unfold zoom at 1. cbn [fst snd]. rewrite Hdup.
  cbn [fst snd].
  apply (process_new_lead_run self lead w1 _ p w2 logged w3 link w4 bs w5);
    assumption.
Qed.

(** What the steps after the duplicate check return always exists. *)
Lemma steps_exist lead w1 :
  exists p w2 logged w3 link w4 bs w5,
    on_groq (GroqProcessor.analyze_lead (LeadWorkflow.groq_processor self) lead) w1
      = (Ok p, w2)
    /\ on_sheets (GoogleSheetsLogger.log_lead lead p) w2 = (Ok logged, w3)
    /\ on_calendar (CalendarManager.create_event lead p (LeadWorkflow.timezone self)) w3
         = (Ok link, w4)
    /\ sends (LeadWorkflow.notification_service self) lead p link
         (LeadWorkflow.notification_channels self) w4 bs w5.
Proof.
  destruct (zoom_total w_groq set_groq
              (GroqProcessor.analyze_lead (LeadWorkflow.groq_processor self) lead) w1
              (analyze_lead_total _ _ _)) as (p & w2 & Hp).
  destruct (zoom_total w_sheets set_sheets
              (GoogleSheetsLogger.log_lead lead p) w2
              (log_lead_total _ _ _)) as (logged & w3 & Hl).
  destruct (zoom_total w_calendar set_calendar
              (CalendarManager.create_event lead p (LeadWorkflow.timezone self)) w3
              (create_event_total _ _ _ _)) as (link & w4 & Hc).
  destruct (sends_total (LeadWorkflow.notification_service self) lead p link
              (LeadWorkflow.notification_channels self) w4) as (bs & w5 & Hs).
  exists p, w2, logged, w3, link, w4, bs, w5. auto.
Qed.

(** The body of the [try] either ends normally, or it raises before any
    step ran, leaving the result dict as it was. *)
Lemma body_outcome r :
  (exists w1 r1,
      LeadWorkflow.process_lead_body self lead_data (w, r) = (Ok tt, (w1, r1)))
  \/ (exists e,
      LeadWorkflow.process_lead_body self lead_data (w, r) = (Raise e, (w, r))).
Proof.
  destruct (LeadValidator.validate_lead_data (w_clock w) lead_data) as [[|] errs] eqn:Hv.
  - destruct (Lead.new (local_iso (w_clock w)) lead_data) as [lead|e] eqn:Hnew.
    + destruct (zoom_total w_sheets set_sheets
                  (GoogleSheetsLogger.lead_exists (Lead.lead_id lead)) w
                  (lead_exists_total _ _)) as ([|] & w1 & Hdup).
      * left. do 2 eexists. eapply body_duplicate; eassumption.
      * destruct (steps_exist lead w1)
          as (p & w2 & logged & w3 & link & w4 & bs & w5 & Hp & Hl & Hc & Hs).
        left. do 2 eexists. eapply body_new; eassumption.
    + right. exists e. eapply body_rejected; eassumption.
  - left. do 2 eexists. eapply body_invalid; eassumption.
Qed.

End ProcessLead.

(** ** The claims about [process_lead] *)

Section Orchestrator.
Context `{Platform}.

(** C3. For every payload and every world, process_lead returns a result
    dict (with success, lead_id, errors, warnings, meet_link and
    intent_score) and never raises. When the body of its try ends normally
    the dict is returned as the body left it; when the body raises, the
    handler appends the single error "Unexpected error: ..." to the errors
    collected so far and success is still false. *)
Theorem C3_process_lead_never_raises
    (self : LeadWorkflow.t) (lead_data : dict string) (w : world) :
  exists r w',
    LeadWorkflow.process_lead self lead_data w = (Ok r, w')
    /\ match LeadWorkflow.process_lead_body self lead_data (w, LeadWorkflow.initial) with
       | (Ok _, (w1, r1)) => r = r1 /\ w' = w1
       | (Raise e, (w1, r1)) =>
           w' = w1
           /\ errors r = errors r1 ++ ["Unexpected error: " +:+ exn_str e]
           /\ success r = false
           /\ lead_id r = lead_id r1 /\ warnings r = warnings r1
           /\ meet_link r = meet_link r1 /\ intent_score r = intent_score r1
       end.
Proof.
  rewrite process_lead_of_body.
  destruct (body_outcome self lead_data w LeadWorkflow.initial)
    as [(w1 & r1 & Hb) | (e & Hb)]; rewrite Hb.
  - exists r1, w1. auto.
  - eexists _, w. split; [reflexivity|]. simpl. auto 10.
Qed.

(** C2. For a payload that passes validation and is not found as a
    duplicate, if log_lead returns false while the calendar event is
    created and every notification is sent, process_lead returns
    success=true with exactly one error, "Failed to log to Google Sheets";
    the world it leaves is the one reached by the calendar and
    notification steps run after the failed append. *)
Theorem C2_storage_failure_does_not_stop
    (self : LeadWorkflow.t) (lead_data : dict string) (w : world)
    (errs : list string) (lead : Lead.t) (p : ProcessedLead.t)
    (link : string) (w1 w2 w3 w4 w5 : world) :
  LeadValidator.validate_lead_data (w_clock w) lead_data = (true, errs) ->
  Lead.new (local_iso (w_clock w)) lead_data = Ok lead ->
  on_sheets (GoogleSheetsLogger.lead_exists (Lead.lead_id lead)) w = (Ok false, w1) ->
  on_groq (GroqProcessor.analyze_lead (LeadWorkflow.groq_processor self) lead) w1
    = (Ok p, w2) ->
  on_sheets (GoogleSheetsLogger.log_lead lead p) w2 = (Ok false, w3) ->
  on_calendar (CalendarManager.create_event lead p (LeadWorkflow.timezone self)) w3
    = (Ok (Some link), w4) ->
  sends (LeadWorkflow.notification_service self) lead p (Some link)
    (LeadWorkflow.notification_channels self) w4
    (map (fun _ => true) (LeadWorkflow.notification_channels self)) w5 ->
  LeadWorkflow.process_lead self lead_data w
  = (Ok {| success := true;
           lead_id := Some (Lead.lead_id lead);
           errors := ["Failed to log to Google Sheets"];
           warnings := if SFeqb (ProcessedLead.intent_score p) f_half
                       then [LeadWorkflow.manual_review] else [];
           meet_link := Some link;
           intent_score := Some (ProcessedLead.intent_score p) |},
     w5).
Proof.
  intros Hv Hnew Hdup Hscore Hlog Hcal Hsends.
  rewrite process_lead_of_body.
  rewrite (body_new self lead_data w _ errs lead w1 p w2 false w3 (Some link)
             w4 _ w5 Hv Hnew Hdup Hscore Hlog Hcal Hsends).
  assert (Hlink : link = CalendarManager.meet_link).
  { unfold on_calendar, zoom in Hcal.
    destruct (CalendarManager.create_event _ _ _ _) as [o c'] eqn:Hc.
    injection Hcal as -> _. eapply create_event_link; eassumption. }
  assert (Hws : forall cs, send_warnings cs (map (fun _ => true) cs) = []).
  { induction cs as [|c cs IH]; simpl; auto. }
  rewrite Hws. subst link. unfold finish. simpl truthy. cbv iota.
  destruct (SFeqb _ _); reflexivity.
Qed.

Lemma failing_attempts_fall_through self m :
  forall k g g',
    (k + m)%nat = GroqProcessor.max_retries self ->
    failing_attempts m g g' ->
    GroqProcessor.attempts self (seq k m) g = (Ok None, g').
Proof.
  induction m as [|m IH]; intros k g g' Hk Hfail.
  - inversion Hfail; subst. reflexivity.
  - inversion Hfail as [|n g0 e g1 g2 Ha Hrest]; subst.
    cbn [seq]. rewrite attempts_cons, Ha.
    destruct (Nat.eqb k (GroqProcessor.max_retries self - 1)) eqn:Hlast.
    + apply Nat.eqb_eq in Hlast.
      assert (m = O) by lia. subst m.
      inversion Hrest; subst. reflexivity.
    + apply IH; [lia | assumption].
Qed.

Lemma fallback_after_failures lead g g' :
  failing_attempts 3 g g' ->
  GroqProcessor.analyze_lead GroqProcessor.init lead g
  = (Ok (GroqProcessor.fallback lead), g').
Proof.
  intros Hfail. rewrite analyze_lead_unfold.
  change (GroqProcessor.max_retries GroqProcessor.init) with 3%nat.
  rewrite (failing_attempts_fall_through GroqProcessor.init 3 0 g g');
    [reflexivity | reflexivity | assumption].
Qed.

Lemma finish_fields p logged link ws r :
  success (finish p logged link ws r) = true
  /\ lead_id (finish p logged link ws r) = lead_id r
  /\ intent_score (finish p logged link ws r)
     = Some (ProcessedLead.intent_score p)
  /\ meet_link (finish p logged link ws r) = link.
Proof.
  unfold finish.
  destruct (SFeqb _ _), logged, (truthy link); simpl; auto.
Qed.

Lemma finish_manual_review p logged link ws r :
  SFeqb (ProcessedLead.intent_score p) f_half = true ->
  In LeadWorkflow.manual_review (warnings (finish p logged link ws r)).
Proof.
  intros Hs. unfold finish. rewrite Hs.
  destruct logged, (truthy link); simpl;
    rewrite ?in_app_iff; simpl; rewrite ?in_app_iff; simpl; tauto.
Qed.

(** C4. If the three scoring attempts all fail (whatever the fault),
    analyze_lead returns the fallback ProcessedLead: name, phone, model and
    datetime are the lead's name, phone, car_model and appointment_datetime
    verbatim and intent_score is exactly 0.5. The orchestrator, for a
    payload that reaches the scoring step, then reports intent_score 0.5
    with the manual-review warning among its warnings; the warning is
    present whenever the score analyze_lead returned equals 0.5. *)
Theorem C4_fallback_and_manual_review (lead : Lead.t) (g g' : Groq.t) :
  failing_attempts 3 g g' ->
  (exists p,
      GroqProcessor.analyze_lead GroqProcessor.init lead g = (Ok p, g')
      /\ ProcessedLead.name p = VStr (Lead.name lead)
      /\ ProcessedLead.phone p = VStr (Lead.phone lead)
      /\ ProcessedLead.model p = VStr (Lead.car_model lead)
      /\ ProcessedLead.datetime p = VStr (Lead.appointment_datetime lead)
      /\ ProcessedLead.intent_score p = f_half)
  /\ (forall self lead_data w errs w1,
        LeadWorkflow.groq_processor self = GroqProcessor.init ->
        LeadValidator.validate_lead_data (w_clock w) lead_data = (true, errs) ->
        Lead.new (local_iso (w_clock w)) lead_data = Ok lead ->
        on_sheets (GoogleSheetsLogger.lead_exists (Lead.lead_id lead)) w
          = (Ok false, w1) ->
        w_groq w1 = g ->
        exists r w',
          LeadWorkflow.process_lead self lead_data w = (Ok r, w')
          /\ success r = true
          /\ intent_score r = Some f_half
          /\ In LeadWorkflow.manual_review (warnings r))
  /\ (forall self lead_data w errs w1 p w2,
        LeadValidator.validate_lead_data (w_clock w) lead_data = (true, errs) ->
        Lead.new (local_iso (w_clock w)) lead_data = Ok lead ->
        on_sheets (GoogleSheetsLogger.lead_exists (Lead.lead_id lead)) w
          = (Ok false, w1) ->
        on_groq (GroqProcessor.analyze_lead (LeadWorkflow.groq_processor self) lead) w1
          = (Ok p, w2) ->
        SFeqb (ProcessedLead.intent_score p) f_half = true ->
        exists r w',
          LeadWorkflow.process_lead self lead_data w = (Ok r, w')
          /\ In LeadWorkflow.manual_review (warnings r)).
Proof.
  intros Hfail. split; [|split].
  - exists (GroqProcessor.fallback lead).
    rewrite (fallback_after_failures lead g g' Hfail). auto 10.
  - intros self lead_data w errs w1 Hinit Hv Hnew Hdup Hg.
    assert (Hscore :
      on_groq (GroqProcessor.analyze_lead (LeadWorkflow.groq_processor self) lead) w1
      = (Ok (GroqProcessor.fallback lead), set_groq g' w1)).
    { unfold on_groq, zoom. rewrite Hinit, Hg.
      rewrite (fallback_after_failures lead g g' Hfail). reflexivity. }
    destruct (steps_exist self lead w1)
      as (p & w2 & logged & w3 & link & w4 & bs & w5 & Hp & Hl & Hc & Hs).
    rewrite Hscore in Hp. injection Hp as <- <-.
    rewrite process_lead_of_body.
    rewrite (body_new self lead_data w _ errs lead w1 _ _ logged w3 link
               w4 bs w5 Hv Hnew Hdup Hscore Hl Hc Hs).
    eexists _, w5. split; [reflexivity|].
    destruct (finish_fields (GroqProcessor.fallback lead) logged link
                (send_warnings (LeadWorkflow.notification_channels self) bs)
                (set_lead_id (Some (Lead.lead_id lead)) LeadWorkflow.initial))
      as (Hok & _ & Hsc & _).
    split; [exact Hok|]. split; [exact Hsc|].
    apply finish_manual_review. reflexivity.
  - intros self lead_data w errs w1 p w2 Hv Hnew Hdup Hscore Hhalf.
    destruct (steps_exist self lead w1)
      as (p' & w2' & logged & w3 & link & w4 & bs & w5 & Hp & Hl & Hc & Hs).
    rewrite Hscore in Hp. injection Hp as <- <-.
    rewrite process_lead_of_body.
    rewrite (body_new self lead_data w _ errs lead w1 p w2 logged w3 link
               w4 bs w5 Hv Hnew Hdup Hscore Hl Hc Hs).
    eexists _, w5. split; [reflexivity|].
    apply finish_manual_review. assumption.
Qed.

End Orchestrator.

(** ** Caller-supplied identifiers *)

Lemma filter_nil_false {A} (f : A -> bool) (l : list A) :
  List.filter f l = [] -> forall x, In x l -> f x = false.
Proof.
  induction l as [|a l IH]; simpl; intros Hf x Hin; [contradiction|].
  destruct (f a) eqn:Hfa; [discriminate|].
  destruct Hin as [<- | Hin]; [assumption | apply IH; assumption].
Qed.

Lemma unexpected_keyword_none {V} (fields : list string) (kw : dict V) :
  Forall (fun kv => mem (fst kv) fields = true) kw ->
  unexpected_keyword fields kw = None.
Proof.
  unfold unexpected_keyword.
  induction 1 as [|kv kw Hkv _ IH]; simpl; [reflexivity|].
  rewrite Hkv. simpl. exact IH.
Qed.

Section SuppliedId.
Context `{Platform}.

Lemma valid_has_required clk data errs :
  LeadValidator.validate_lead_data clk data = (true, errs) ->
  forall field, In field LeadValidator.required_fields ->
                dict_in field data = true.
Proof.
  rewrite validate_lead_data_unfold. intros Hv field Hin.
  destruct (List.filter (LeadValidator.is_missing data)
              LeadValidator.required_fields) as [|m ms] eqn:Hf;
    [|discriminate].
  pose proof (filter_nil_false _ _ Hf field Hin) as Hm.
  unfold LeadValidator.is_missing in Hm.
  apply orb_false_elim in Hm as [Hm _].
  apply negb_false_iff in Hm. exact Hm.
Qed.

(** A validated payload with no foreign key is accepted by the
    constructor. *)
Lemma Lead_new_accepts clk data errs now :
  LeadValidator.validate_lead_data clk data = (true, errs) ->
  Forall (fun kv => mem (fst kv) Lead.fields = true) data ->
  Lead.new now data
  = Ok (Lead.make now
          (dict_get_default "name" "" data)
          (dict_get_default "email" "" data)
          (dict_get_default "phone" "" data)
          (dict_get_default "car_model" "" data)
          (dict_get_default "appointment_datetime" "" data)
          (dict_get "intent_score" data)
          (dict_get "timestamp" data)
          (dict_get "lead_id" data)).
Proof.
  intros Hv Hkeys. unfold Lead.new, bind_keywords.
  rewrite (unexpected_keyword_none _ _ Hkeys).
  pose proof (valid_has_required _ _ _ Hv) as Hreq.
  unfold Lead.required. cbn [List.filter].
  rewrite !Hreq by (simpl; tauto). reflexivity.
Qed.

(** C10 (amended). For every payload that passes validation and has no key
    outside the fields of Lead, the Lead is constructed, with a non-empty
    lead_id of the payload as its lead_id verbatim (no derivation from email
    and phone) and a non-empty timestamp of the payload as its timestamp
    verbatim; process_lead reports the Lead's lead_id, hence the supplied
    one, as the result's lead_id, and it is the key of the duplicate check:
    the request is refused as a duplicate exactly when lead_exists answers
    true for that value. *)
Theorem C10_supplied_lead_id_is_used
    (self : LeadWorkflow.t) (lead_data : dict string) (w : world)
    (errs : list string) :
  LeadValidator.validate_lead_data (w_clock w) lead_data = (true, errs) ->
  Forall (fun kv => mem (fst kv) Lead.fields = true) lead_data ->
  exists lead r w' dup w1,
    Lead.new (local_iso (w_clock w)) lead_data = Ok lead
    /\ (forall supplied, dict_get "lead_id" lead_data = Some supplied ->
                         supplied <> "" -> Lead.lead_id lead = supplied)
    /\ (forall stamp, dict_get "timestamp" lead_data = Some stamp ->
                      stamp <> "" -> Lead.timestamp lead = stamp)
    /\ LeadWorkflow.process_lead self lead_data w = (Ok r, w')
    /\ lead_id r = Some (Lead.lead_id lead)
    /\ on_sheets (GoogleSheetsLogger.lead_exists (Lead.lead_id lead)) w
       = (Ok dup, w1)
    /\ (dup = true ->
        w' = w1
        /\ r = add_errors ["Duplicate lead - already processed"]
                 (set_lead_id (Some (Lead.lead_id lead)) LeadWorkflow.initial))
    /\ (dup = false -> success r = true).
Proof.
  intros Hv Hkeys.
  pose proof (Lead_new_accepts _ _ _ (local_iso (w_clock w)) Hv Hkeys) as Hnew.
  set (lead := Lead.make _ _ _ _ _ _ _ _ _) in Hnew.
  assert (Hlid : forall supplied, dict_get "lead_id" lead_data = Some supplied ->
                                  supplied <> "" -> Lead.lead_id lead = supplied).
  { intros supplied Hid Hne. subst lead. unfold Lead.make. cbn [Lead.lead_id].
    rewrite Hid. simpl.
    destruct supplied; [contradiction | reflexivity]. }
  assert (Hstamp : forall stamp, dict_get "timestamp" lead_data = Some stamp ->
                                 stamp <> "" -> Lead.timestamp lead = stamp).
  { intros stamp Hs Hsne. subst lead. unfold Lead.make. cbn [Lead.timestamp].
    rewrite Hs. simpl.
    destruct stamp; [contradiction | reflexivity]. }
  destruct (zoom_total w_sheets set_sheets
              (GoogleSheetsLogger.lead_exists (Lead.lead_id lead)) w
              (lead_exists_total _ _)) as (dup & w1 & Hdup).
  fold (@on_sheets bool) in Hdup.
  rewrite process_lead_of_body.
  destruct dup.
  - rewrite (body_duplicate self lead_data w _ errs lead w1 Hv Hnew Hdup).
    eexists lead, _, _, true, w1.
    split; [exact Hnew|]. split; [exact Hlid|]. split; [exact Hstamp|].
    split; [reflexivity|]. split; [reflexivity|]. split; [exact Hdup|].
    split; [intros _; split; reflexivity | discriminate].
  - destruct (steps_exist self lead w1)
      as (p & w2 & logged & w3 & link & w4 & bs & w5 & Hp & Hl & Hc & Hs).
    rewrite (body_new self lead_data w _ errs lead w1 p w2 logged w3 link
               w4 bs w5 Hv Hnew Hdup Hp Hl Hc Hs).
    destruct (finish_fields p logged link
                (send_warnings (LeadWorkflow.notification_channels self) bs)
                (set_lead_id (Some (Lead.lead_id lead)) LeadWorkflow.initial))
      as (Hok & Hl' & _ & _).
    eexists lead, _, _, false, w1.
    split; [exact Hnew|]. split; [exact Hlid|]. split; [exact Hstamp|].
    split; [reflexivity|]. split; [exact Hl'|]. split; [exact Hdup|].
    split; [discriminate | intros _; exact Hok].
Qed.

End SuppliedId.

(** ** The worksheet *)

Lemma remote_rows s o s' :
  Sheets.remote s = (o, s') -> Sheets.rows s' = Sheets.rows s.
Proof.
  unfold Sheets.remote.
  destruct (Sheets.faults s) as [|[|] r]; intros [= <- <-]; reflexivity.
Qed.

Lemma find_in_column_none key c rs i :
  Forall (fun r => py_eq_str (default Sheets.blank (r !! (c - 1)%nat)) key = false) rs ->
  Sheets.find_in_column key c rs i = None.
Proof.
  intros Hrs. revert i.
  induction Hrs as [|r rs Hr _ IH]; intros i; simpl; [reflexivity|].
  rewrite Hr. apply IH.
Qed.

(** Without a matching cell in column 2 the update does nothing. *)
Lemma update_lead_status_no_match key status notes s :
  Forall (fun r => py_eq_str (default Sheets.blank (r !! 1%nat)) key = false)
    (Sheets.rows s) ->
  exists s',
    GoogleSheetsLogger.update_lead_status key status notes s = (Ok false, s')
    /\ Sheets.rows s' = Sheets.rows s.
Proof.
  intros Hrows.
  unfold GoogleSheetsLogger.update_lead_status, try_except, bind,
    Sheets.open_sheet1, Sheets.find, bind, gets, ret.
  destruct (Sheets.remote s) as [[[]|e] s1] eqn:H1.
  - pose proof (remote_rows _ _ _ H1) as R1.
    destruct (Sheets.remote s1) as [[[]|e] s2] eqn:H2.
    + pose proof (remote_rows _ _ _ H2) as R2.
      rewrite (find_in_column_none key 2 (Sheets.rows s2) 1)
        by (rewrite R2, R1; exact Hrows).
      exists s2. split; [reflexivity | congruence].
    + pose proof (remote_rows _ _ _ H2) as R2.
      exists s2. split; [reflexivity | congruence].
  - exists s1. split; [reflexivity | eapply remote_rows; eassumption].
Qed.

(** C9 (amended). On a worksheet made of the header row and of rows
    appended by log_lead, for every lead_id that is different from the
    header text "Name" and from the name stored in column 2 of every
    appended row, update_lead_status finds no cell, returns false and leaves
    every row as it was, whatever faults the service has. *)
Theorem C9_update_lead_status_finds_nothing
    (entries : list (Lead.t * ProcessedLead.t)) (faults : list bool)
    (lead_id status notes : string) :
  lead_id <> "Name" ->
  (forall lead p, In (lead, p) entries ->
                  py_eq_str (ProcessedLead.name p) lead_id = false) ->
  exists s',
    GoogleSheetsLogger.update_lead_status lead_id status notes
      {| Sheets.rows := appended entries; Sheets.faults := faults |}
    = (Ok false, s')
    /\ Sheets.rows s' = appended entries.
Proof.
  intros Hheader Hnames.
  apply (update_lead_status_no_match lead_id status notes
           {| Sheets.rows := appended entries; Sheets.faults := faults |}).
  cbn [Sheets.rows]. unfold appended. constructor.
  - change (String.eqb "Name" lead_id = false).
    apply String.eqb_neq. congruence.
  - apply Forall_forall. intros r Hr.
    apply list_elem_of_In in Hr. apply in_map_iff in Hr as ([lead p] & <- & Hin).
    change (py_eq_str (ProcessedLead.name p) lead_id = false).
    eapply Hnames. eassumption.
Qed.

(** ** Why the duplicate check misses a stored contact *)

Lemma nullable_matches r : Regex.nullable r = true -> matches r "".
Proof.
  induction r as [| |p|r1 IH1 r2 IH2|r1 IH1 r2 IH2|r IH]; simpl; intros Hn;
    try discriminate.
  - constructor.
  - apply andb_prop in Hn as [H1 H2].
    change "" with ("" +:+ ""). constructor; auto.
  - apply orb_prop in Hn as [H1 | H2];
      [apply matches_alt_l | apply matches_alt_r]; auto.
  - constructor.
Qed.

Lemma alt'_matches r1 r2 s :
  matches (Regex.alt' r1 r2) s -> matches (Regex.Alt r1 r2) s.
Proof.
  unfold Regex.alt'. intros Hm.
  destruct r1; try (apply matches_alt_r; exact Hm);
    destruct r2; try (apply matches_alt_l; exact Hm); exact Hm.
Qed.

Lemma seq'_matches r1 r2 s :
  matches (Regex.seq' r1 r2) s -> matches (Regex.Seq r1 r2) s.
Proof.
  unfold Regex.seq'. intros Hm. destruct r1; try exact Hm. inversion Hm.
Qed.

Lemma deriv_matches r : forall c s,
  matches (Regex.deriv c r) s -> matches r (String c s).
Proof.
  induction r as [| |p|r1 IH1 r2 IH2|r1 IH1 r2 IH2|r IH]; intros c s Hm;
    simpl in Hm.
  - inversion Hm.
  - inversion Hm.
  - destruct (p c) eqn:Hp; inversion Hm; subst. constructor. exact Hp.
  - apply alt'_matches in Hm. inversion Hm as [| | | ? ? ? Hl | ? ? ? Hr | |]; subst.
    + apply seq'_matches in Hl.
      inversion Hl as [| | ? ? s1 s2 H1 H2 | | | |]; subst.
      change (String c (s1 +:+ s2)) with (String c s1 +:+ s2).
      constructor; auto.
    + destruct (Regex.nullable r1) eqn:Hn; [|inversion Hr].
      change (String c s) with ("" +:+ String c s).
      constructor; [apply nullable_matches; exact Hn | auto].
  - apply alt'_matches in Hm. inversion Hm; subst;
      [apply matches_alt_l | apply matches_alt_r]; auto.
  - apply seq'_matches in Hm.
    inversion Hm as [| | ? ? s1 s2 H1 H2 | | | |]; subst.
    change (String c (s1 +:+ s2)) with (String c s1 +:+ s2).
    constructor; auto.
Qed.

(** The matcher only accepts strings of the language. *)
Lemma fullmatch_matches s : forall r,
  Regex.fullmatch r s = true -> matches r s.
Proof.
  induction s as [|c s IH]; intros r Hm; simpl in Hm.
  - apply nullable_matches. exact Hm.
  - apply deriv_matches, IH. exact Hm.
Qed.

Lemma chars_app s1 s2 :
  Text.chars (s1 +:+ s2) = Text.chars s1 ++ Text.chars s2.
Proof. induction s1 as [|c s1 IH]; simpl; [|rewrite IH]; reflexivity. Qed.

Lemma chop_newline_chars s s' :
  Regex.chop_newline s = Some s' -> Text.chars s = Text.chars s' ++ ["010"%char].
Proof.
  revert s'. induction s as [|c s IH]; intros s' Hc; simpl in Hc; [discriminate|].
  destruct s as [|d s].
  - destruct (Ascii.eqb c "010") eqn:Hn; [|discriminate].
    apply Ascii.eqb_eq in Hn. injection Hc as <-. subst c. reflexivity.
  - destruct (Regex.chop_newline (String d s)) as [t|]; [|discriminate].
    injection Hc as <-.
    change (c :: Text.chars (String d s) = c :: (Text.chars t ++ ["010"%char])).
    f_equal. apply IH. reflexivity.
Qed.

Lemma email_pattern_at s :
  matches LeadValidator.email_pattern s -> In "@"%char (Text.chars s).
Proof.
  unfold LeadValidator.email_pattern. intros Hm.
  inversion Hm as [| | ? ? s1 s2 _ H2 | | | |]; subst.
  inversion H2 as [| | ? ? s3 s4 H3 _ | | | |]; subst.
  inversion H3 as [| ? c Hc | | | | |]; subst.
  apply Ascii.eqb_eq in Hc. subst c.
  rewrite chars_app. apply in_or_app. right. simpl. auto.
Qed.

(** An address the validator accepts contains an at sign. *)
Lemma valid_email_at email :
  LeadValidator.validate_email email = true -> In "@"%char (Text.chars email).
Proof.
  unfold LeadValidator.validate_email, Regex.match_anchored.
  destruct (Text.falsy email); [discriminate|].
  intros Hm. apply orb_prop in Hm as [Hm | Hm].
  - apply email_pattern_at, fullmatch_matches, Hm.
  - destruct (Regex.chop_newline email) as [e'|] eqn:Hc; [|discriminate].
    rewrite (chop_newline_chars _ _ Hc). apply in_or_app. left.
    apply email_pattern_at, fullmatch_matches, Hm.
Qed.

(** So it is never a derived lead_id, which has hexadecimal digits only. *)
Lemma valid_email_is_no_id stored email phone :
  LeadValidator.validate_email stored = true ->
  String.eqb stored (Lead.derive_id email phone) = false.
Proof.
  intros Hv. apply String.eqb_neq. intros ->.
  apply valid_email_at in Hv.
  destruct (derive_id_shape email phone) as [_ Hhex].
  rewrite Forall_forall in Hhex.
  apply list_elem_of_In, Hhex in Hv. discriminate.
Qed.

Lemma appended_width entries :
  Sheets.width (appended entries) = 7%nat.
Proof.
  unfold appended. induction entries as [|e entries IH]; [reflexivity|].
  simpl in *. rewrite IH. reflexivity.
Qed.

(** On a worksheet filled by log_lead with leads whose address passed the
    validator, the duplicate check on a derived lead_id can only succeed
    through a Phone cell that happens to equal the id: the Email cells never
    do, and when no Phone cell does either, the check answers false for
    every contact, stored or not. *)
Lemma lead_exists_misses_derived_id entries faults email phone :
  (forall lead p, In (lead, p) entries ->
                  LeadValidator.validate_email (Lead.email lead) = true) ->
  (forall lead p, In (lead, p) entries ->
                  py_eq_str (ProcessedLead.phone p) (Lead.derive_id email phone) = false) ->
  exists s',
    GoogleSheetsLogger.lead_exists (Lead.derive_id email phone)
      {| Sheets.rows := appended entries; Sheets.faults := faults |}
    = (Ok false, s').
Proof.
  intros Hemail Hphone.
  set (key := Lead.derive_id email phone) in *.
  assert (Hrec :
    existsb (fun r => py_eq_str (Sheets.record_get "Email" r) key
                      || py_eq_str (Sheets.record_get "Phone" r) key)
      (Sheets.records_of (appended entries)) = false).
  { unfold Sheets.records_of. rewrite appended_width.
    unfold appended at 1.
    induction entries as [|[lead p] entries IH]; [reflexivity|].
    cbn [map existsb fst snd].
    rewrite IH;
      [ | intros l' p' Hin; eapply Hemail; right; exact Hin
        | intros l' p' Hin; eapply Hphone; right; exact Hin ].
    rewrite orb_false_r.
    change (String.eqb (Lead.email lead) key
            || py_eq_str (ProcessedLead.phone p) key = false).
    rewrite (Hphone lead p) by (left; reflexivity).
    rewrite orb_false_r. apply valid_email_is_no_id.
    eapply Hemail. left. reflexivity. }
  unfold GoogleSheetsLogger.lead_exists, try_except, bind,
    Sheets.open_sheet1, Sheets.get_all_records, bind, gets, ret.
  destruct (Sheets.remote _) as [[[]|e] s1] eqn:H1; [|eauto].
  pose proof (remote_rows _ _ _ H1) as R1.
  destruct (Sheets.remote s1) as [[[]|e] s2] eqn:H2; [|eauto].
  pose proof (remote_rows _ _ _ H2) as R2.
  rewrite R2, R1. cbn [Sheets.rows]. rewrite Hrec. eauto.
Qed.

(** ** The claims on concrete runs *)

Lemma C2_storage_failure_does_not_stop_witness :
  fst (Examples.run Examples.jane Examples.append_refused)
  = Ok {| success := true;
          lead_id := Some "c0ef8a4bd04e";
          errors := ["Failed to log to Google Sheets"];
          warnings := [];
          meet_link := Some "https://meet.google.com/new";
          intent_score := Some f_one |}.
Proof.
  unfold Examples.run.
  erewrite (C2_storage_failure_does_not_stop (H := Reference.platform));
    [ | lazy; reflexivity | lazy; reflexivity | lazy; reflexivity
      | lazy; reflexivity | lazy; reflexivity | lazy; reflexivity
      | repeat (econstructor; [lazy; reflexivity|]); constructor ].
  vm_compute. reflexivity.
Defined.

Lemma C4_fallback_and_manual_review_witness :
  exists r w',
    Examples.run Examples.jane Examples.scoring_down = (Ok r, w')
    /\ success r = true
    /\ intent_score r = Some f_half
    /\ In LeadWorkflow.manual_review (warnings r).
Proof.
  assert (Hfail : @failing_attempts Reference.platform 3
                    (w_groq Examples.scoring_down)
                    {| Groq.replies := []; Groq.requests := 3 |}).
  { repeat (econstructor; [lazy; reflexivity|]). constructor. }
  destruct (C4_fallback_and_manual_review (H := Reference.platform)
              Examples.jane_lead _ _ Hfail) as (_ & Hrun & _).
  eapply (Hrun Examples.workflow Examples.jane Examples.scoring_down []).
  - reflexivity.
  - vm_compute. reflexivity.
  - vm_compute. reflexivity.
  - lazy. reflexivity.
  - reflexivity.
Defined.

Lemma C5_missing_fields_reported_in_order_witness :
  @LeadValidator.validate_lead_data Reference.platform Examples.nov3
    Examples.incomplete
  = (false, ["Missing required field: email";
             "Missing required field: car_model";
             "Missing required field: appointment_datetime"]).
Proof.
  apply (proj1 (C5_missing_fields_reported_in_order (H := Reference.platform)
                  Examples.nov3 Examples.incomplete)).
  exists "email". split; [simpl; tauto | reflexivity].
Defined.

Lemma C8_validate_datetime_lenient_witness :
  @LeadValidator.validate_datetime_logged Reference.platform Examples.nov3
    "2026-11-03T03:00:00Z"
  = (true, [LogWarning "Appointment time is in the past: 2026-11-03T03:00:00Z"]).
Proof.
  eapply (proj2 (proj2 (C8_validate_datetime_lenient (H := Reference.platform)
                          Examples.nov3 "2026-11-03T03:00:00Z"))).
  - discriminate.
  - lazy. reflexivity.
  - vm_compute. reflexivity.
Defined.

Lemma C9_update_lead_status_finds_nothing_witness :
  exists s',
    GoogleSheetsLogger.update_lead_status "c0ef8a4bd04e" "CONTACTED" "called back"
      {| Sheets.rows := appended [(Examples.jane_lead, Examples.jane_scored)];
         Sheets.faults := [] |}
    = (Ok false, s')
    /\ Sheets.rows s' = appended [(Examples.jane_lead, Examples.jane_scored)].
Proof.
  apply C9_update_lead_status_finds_nothing.
  - discriminate.
  - intros lead p [[= <- <-] | []]. reflexivity.
Defined.

(** C9, as stated, fails for the identifier "Name": it is the name of no
    stored lead, yet the search of column 2 meets the header cell, the
    update returns true and writes the status into the header row. *)
Lemma C9_header_cell_is_matched :
  py_eq_str (ProcessedLead.name Examples.jane_scored) "Name" = false
  /\ GoogleSheetsLogger.update_lead_status "Name" "CONTACTED" ""
       {| Sheets.rows := appended [(Examples.jane_lead, Examples.jane_scored)];
          Sheets.faults := [] |}
     = (Ok true,
        {| Sheets.rows :=
             (GoogleSheetsLogger.header_row ++ [VStr ""; VStr "CONTACTED"])
               :: [GoogleSheetsLogger.row_of Examples.jane_lead Examples.jane_scored];
           Sheets.faults := [] |}).
Proof. split; vm_compute; reflexivity. Qed.

Lemma C10_supplied_lead_id_is_used_witness :
  exists r w',
    Examples.run Examples.walk_in Examples.fresh = (Ok r, w')
    /\ lead_id r = Some "walk-in-42"
    /\ success r = true.
Proof.
  destruct (C10_supplied_lead_id_is_used (H := Reference.platform)
              Examples.workflow Examples.walk_in Examples.fresh [])
    as (lead & r & w' & dup & w1 & _ & Hsup & _ & Hrun & Hid & Hdup & _ & Hnew).
  - vm_compute. reflexivity.
  - repeat constructor.
  - rewrite (Hsup "walk-in-42") in Hid, Hdup by (reflexivity || discriminate).
    exists r, w'. split; [exact Hrun|]. split; [exact Hid|].
    apply Hnew.
    assert (Hq : on_sheets (GoogleSheetsLogger.lead_exists "walk-in-42")
                   Examples.fresh = (Ok false, Examples.fresh))
      by (vm_compute; reflexivity).
    rewrite Hq in Hdup. congruence.
Defined.

(** C10, as stated, fails for a payload with a key that Lead does not have:
    it passes validation and carries a non-empty lead_id, the constructor
    rejects it, and the result's lead_id stays empty. *)
Lemma C10_foreign_key_voids_lead_id :
  @LeadValidator.validate_lead_data Reference.platform Examples.nov3 Examples.tagged
  = (true, [])
  /\ dict_get "lead_id" Examples.tagged = Some "walk-in-42"
  /\ fst (Examples.run Examples.tagged Examples.fresh)
     = Ok {| success := false;
             lead_id := None;
             errors := ["Unexpected error: Lead.__init__() got an unexpected keyword argument 'utm_source'"];
             warnings := [];
             meet_link := None;
             intent_score := None |}.
Proof. repeat split; vm_compute; reflexivity. Qed.

(** C1, evaluated. After the first submission of a contact succeeded and its
    row was appended, the duplicate check on the derived lead_id answers
    false (the Email and Phone cells hold the address and the number, not the
    id), and the second submission of the same email and phone is scored,
    stored, scheduled and notified again and returns success=true. *)
Theorem C1_second_submission_is_processed_again :
  fst (Examples.run Examples.jane Examples.fresh)
  = Ok {| success := true; lead_id := Some "c0ef8a4bd04e"; errors := [];
          warnings := []; meet_link := Some "https://meet.google.com/new";
          intent_score := Some f_one |}
  /\ Sheets.rows (w_sheets Examples.after_first)
     = appended [(Examples.jane_lead, Examples.jane_scored)]
  /\ fst (GoogleSheetsLogger.lead_exists "c0ef8a4bd04e"
            (w_sheets Examples.after_first)) = Ok false
  /\ fst (Examples.run Examples.jane_again Examples.after_first)
     = Ok {| success := true; lead_id := Some "c0ef8a4bd04e"; errors := [];
             warnings := []; meet_link := Some "https://meet.google.com/new";
             intent_score := Some f_one |}
  /\ length (Sheets.rows (w_sheets (snd (Examples.run Examples.jane_again
                                           Examples.after_first)))) = 3%nat
  /\ Groq.requests (w_groq (snd (Examples.run Examples.jane_again
                                   Examples.after_first))) = 2%nat
  /\ length (Calendar.events (w_calendar (snd (Examples.run Examples.jane_again
                                                 Examples.after_first)))) = 2%nat
  /\ length (Discord.posts (w_discord (snd (Examples.run Examples.jane_again
                                              Examples.after_first)))) = 2%nat
  /\ length (Smtp.sent (w_smtp (snd (Examples.run Examples.jane_again
                                       Examples.after_first)))) = 2%nat.
Proof. repeat split; vm_compute; reflexivity. Qed.

(* ===================================================================== *)
(** * Further properties of the workflow                                 *)
(* ===================================================================== *)

(** ** [process_lead], case by case *)

Lemma on_sheets_frame {A} (m : M Sheets.t A) w o w' :
  on_sheets m w = (o, w') ->
  exists s', m (w_sheets w) = (o, s') /\ w' = set_sheets s' w.
Proof.
  unfold on_sheets, zoom. destruct (m (w_sheets w)) as [o' s'].
  intros [= <- <-]. eauto.
Qed.

Lemma lead_exists_rows key s o s' :
  GoogleSheetsLogger.lead_exists key s = (o, s') ->
  Sheets.rows s' = Sheets.rows s /\ exists b, o = Ok b.
Proof.
  unfold GoogleSheetsLogger.lead_exists, try_except, bind,
    Sheets.open_sheet1, Sheets.get_all_records, bind, gets, ret.
  destruct (Sheets.remote s) as [[[]|e] s1] eqn:H1.
  - pose proof (remote_rows _ _ _ H1) as R1.
    destruct (Sheets.remote s1) as [[[]|e] s2] eqn:H2;
      pose proof (remote_rows _ _ _ H2) as R2;
      intros [= <- <-]; split; eauto; congruence.
  - pose proof (remote_rows _ _ _ H1) as R1.
    intros [= <- <-]; split; eauto.
Qed.

Section Cases.
Context `{Platform}.
Variables (self : LeadWorkflow.t) (lead_data : dict string) (w : world).

Lemma process_lead_cases :
  exists r w', LeadWorkflow.process_lead self lead_data w = (Ok r, w')
               /\ run_case self lead_data w r w'.
Proof.
  rewrite process_lead_of_body.
  destruct (LeadValidator.validate_lead_data (w_clock w) lead_data)
    as [[|] errs] eqn:Hv.
  - destruct (Lead.new (local_iso (w_clock w)) lead_data) as [lead|e] eqn:Hnew.
    + destruct (zoom_total w_sheets set_sheets
                  (GoogleSheetsLogger.lead_exists (Lead.lead_id lead)) w
                  (lead_exists_total _ _)) as ([|] & w1 & Hdup).
      * rewrite (body_duplicate self lead_data w _ errs lead w1 Hv Hnew Hdup).
        do 2 eexists. split; [reflexivity|]. econstructor; eassumption.
      * destruct (steps_exist self lead w1)
          as (p & w2 & logged & w3 & link & w4 & bs & w5 & Hp & Hl & Hc & Hs).
        rewrite (body_new self lead_data w _ errs lead w1 p w2 logged w3 link
                   w4 bs w5 Hv Hnew Hdup Hp Hl Hc Hs).
        do 2 eexists. split; [reflexivity|]. econstructor; eassumption.
    + rewrite (body_rejected self lead_data w _ errs e Hv Hnew).
      do 2 eexists. split; [reflexivity|]. econstructor; eassumption.
  - rewrite (body_invalid self lead_data w _ errs Hv).
    do 2 eexists. split; [reflexivity|]. econstructor; eassumption.
Qed.

End Cases.

Lemma invalid_has_errors `{Platform} clk data errs :
  LeadValidator.validate_lead_data clk data = (false, errs) -> errs <> [].
Proof.
  rewrite validate_lead_data_unfold.
  destruct (List.filter _ LeadValidator.required_fields) as [|m ms].
  - destruct (LeadValidator.shape_errors clk data); [discriminate|].
    intros [= <-]. discriminate.
  - intros [= <-]. discriminate.
Qed.

Lemma analyze_lead_score `{Platform} self lead w p w2 :
  on_groq (GroqProcessor.analyze_lead self lead) w = (Ok p, w2) ->
  in_unit_interval (ProcessedLead.intent_score p).
Proof.
  unfold on_groq, zoom.
  destruct (GroqProcessor.analyze_lead self lead (w_groq w)) as [o g'] eqn:Ha.
  intros [= -> _]. rewrite analyze_lead_unfold in Ha.
  pose proof (attempts_clamped self (seq 0 (GroqProcessor.max_retries self))
                (w_groq w)) as Hloop.
  destruct (GroqProcessor.attempts _ _ _) as [[[q|]|e] g1]; try discriminate.
  - injection Ha as <- _. destruct Hloop as [x ->]. apply clamp_in_unit_interval.
  - injection Ha as <- _. apply half_in_unit_interval.
Qed.

Lemma create_event_link_cases `{Platform} lead p tz w link w' :
  on_calendar (CalendarManager.create_event lead p tz) w = (Ok link, w') ->
  link = None \/ link = Some CalendarManager.meet_link.
Proof.
  unfold on_calendar, zoom.
  destruct (CalendarManager.create_event lead p tz (w_calendar w)) as [o c] eqn:Hc.
  intros [= -> _]. destruct link as [l|]; [right|left; reflexivity].
  f_equal. eapply create_event_link; eassumption.
Qed.

Section ProcessLeadFacts.
Context `{Platform}.

(** A payload the validator refuses is answered with the validator's errors
    alone: success=false, no lead_id, no score, no link, and the world is
    left exactly as it was (no service is contacted). *)
Theorem process_lead_invalid_touches_nothing
    (self : LeadWorkflow.t) (lead_data : dict string) (w : world) :
  fst (LeadValidator.validate_lead_data (w_clock w) lead_data) = false ->
  LeadWorkflow.process_lead self lead_data w
  = (Ok {| success := false; lead_id := None;
           errors := snd (LeadValidator.validate_lead_data (w_clock w) lead_data);
           warnings := []; meet_link := None; intent_score := None |}, w)
  /\ snd (LeadValidator.validate_lead_data (w_clock w) lead_data) <> [].
Proof.
  destruct (LeadValidator.validate_lead_data (w_clock w) lead_data)
    as [ok errs] eqn:Hv.
  simpl. intros ->. split.
  - rewrite process_lead_of_body.
    rewrite (body_invalid self lead_data w _ errs Hv). reflexivity.
  - eapply invalid_has_errors; eassumption.
Qed.

(** When the duplicate check answers true, process_lead stops there: the
    result is success=false with the lead's id and the single error
    "Duplicate lead - already processed", and nothing was scored, stored,
    scheduled or sent: the scoring service, the calendar, the webhook, the
    mail outbox and the rows of the worksheet are as before. *)
Theorem process_lead_duplicate_only_reads
    (self : LeadWorkflow.t) (lead_data : dict string) (w w1 : world)
    (errs : list string) (lead : Lead.t) :
  LeadValidator.validate_lead_data (w_clock w) lead_data = (true, errs) ->
  Lead.new (local_iso (w_clock w)) lead_data = Ok lead ->
  on_sheets (GoogleSheetsLogger.lead_exists (Lead.lead_id lead)) w = (Ok true, w1) ->
  LeadWorkflow.process_lead self lead_data w
  = (Ok {| success := false; lead_id := Some (Lead.lead_id lead);
           errors := ["Duplicate lead - already processed"];
           warnings := []; meet_link := None; intent_score := None |}, w1)
  /\ w_groq w1 = w_groq w
  /\ w_calendar w1 = w_calendar w
  /\ w_discord w1 = w_discord w
  /\ w_smtp w1 = w_smtp w
  /\ Sheets.rows (w_sheets w1) = Sheets.rows (w_sheets w).
Proof.
  intros Hv Hnew Hdup. split.
  - rewrite process_lead_of_body.
    rewrite (body_duplicate self lead_data w _ errs lead w1 Hv Hnew Hdup).
    reflexivity.
  - apply on_sheets_frame in Hdup as (s' & Hs & ->).
    apply lead_exists_rows in Hs as [Hrows _].
    repeat split; try reflexivity. exact Hrows.
Qed.

(** success is true exactly when the payload passed validation, the Lead
    constructor accepted it and the duplicate check answered false; what the
    scoring, storage, calendar and notification steps did has no part in
    it. *)
Theorem process_lead_success_iff
    (self : LeadWorkflow.t) (lead_data : dict string) (w : world) :
  match LeadWorkflow.process_lead self lead_data w with
  | (Ok r, _) =>
      success r = true <->
      fst (LeadValidator.validate_lead_data (w_clock w) lead_data) = true
      /\ exists lead,
           Lead.new (local_iso (w_clock w)) lead_data = Ok lead
           /\ fst (on_sheets (GoogleSheetsLogger.lead_exists (Lead.lead_id lead)) w)
              = Ok false
  | (Raise _, _) => False
  end.
Proof.
  destruct (process_lead_cases self lead_data w) as (r & w' & -> & Hcase).
  destruct Hcase as [errs Hv | errs e Hv Hnew | errs lead w1 Hv Hnew Hdup
                    | errs lead w1 p w2 logged w3 link w4 bs w5 Hv Hnew Hdup Hp Hl Hc Hs].
  - rewrite Hv. simpl. split; [discriminate | intros [? _]; discriminate].
  - rewrite Hv, Hnew. simpl.
    split; [discriminate | intros [_ (lead & ? & _)]; discriminate].
  - rewrite Hv, Hnew. simpl. split; [discriminate|].
    intros [_ (lead' & [= <-] & Hd)]. rewrite Hdup in Hd. discriminate.
  - rewrite Hv. simpl. split.
    + intros _. split; [reflexivity|]. exists lead. rewrite Hdup.
      split; [exact Hnew | reflexivity].
    + intros _.
      exact (proj1 (finish_fields p logged link
                      (send_warnings (LeadWorkflow.notification_channels self) bs)
                      (set_lead_id (Some (Lead.lead_id lead)) LeadWorkflow.initial))).
Qed.

(** Every call of process_lead returns a result and goes one of four ways:
    the payload is refused by the validator (its errors, world untouched);
    the Lead constructor raises (one "Unexpected error" entry, world
    untouched); the duplicate check answers true (one error, nothing beyond
    the read); or the lead is new, and then scoring, storing, scheduling and
    one send per configured channel all run, in this order, each on the
    world the step before left, and the result is assembled from what they
    returned. *)
Theorem process_lead_goes_one_of_four_ways
    (self : LeadWorkflow.t) (lead_data : dict string) (w : world) :
  exists r w', LeadWorkflow.process_lead self lead_data w = (Ok r, w')
               /\ run_case self lead_data w r w'.
Proof. exact (process_lead_cases self lead_data w). Qed.

(** Whatever the payload and the services do, the result of process_lead
    keeps these invariants: a reported intent_score lies in [0.0, 1.0]; a
    reported meet_link is the fixed meeting link; a result with
    success=false carries at least one error and neither score nor link; a
    result with success=true carries a lead_id and a score, and its errors
    are either none or the single storage error. *)
Theorem process_lead_result_invariants
    (self : LeadWorkflow.t) (lead_data : dict string) (w : world) :
  match LeadWorkflow.process_lead self lead_data w with
  | (Ok r, _) =>
      (forall x, intent_score r = Some x -> in_unit_interval x)
      /\ (meet_link r = None \/ meet_link r = Some CalendarManager.meet_link)
      /\ (success r = false ->
          errors r <> [] /\ meet_link r = None /\ intent_score r = None)
      /\ (success r = true ->
          lead_id r <> None /\ intent_score r <> None
          /\ (errors r = [] \/ errors r = ["Failed to log to Google Sheets"]))
  | (Raise _, _) => False
  end.
Proof.
  destruct (process_lead_cases self lead_data w) as (r & w' & -> & Hcase).
  destruct Hcase as [errs Hv | errs e Hv Hnew | errs lead w1 Hv Hnew Hdup
                    | errs lead w1 p w2 logged w3 link w4 bs w5 Hv Hnew Hdup Hp Hl Hc Hs].
  - simpl. repeat split; try discriminate; auto.
    eapply invalid_has_errors; eassumption.
  - simpl. repeat split; try discriminate; auto.
  - simpl. repeat split; try discriminate; auto.
  - destruct (finish_fields p logged link
                (send_warnings (LeadWorkflow.notification_channels self) bs)
                (set_lead_id (Some (Lead.lead_id lead)) LeadWorkflow.initial))
      as (Hok & Hid & Hsc & Hlink).
    rewrite Hok, Hid, Hsc, Hlink. split; [|split; [|split]].
    + intros x [= <-]. eapply analyze_lead_score; eassumption.
    + eapply create_event_link_cases; eassumption.
    + discriminate.
    + intros _. split; [discriminate|]. split; [discriminate|].
      unfold finish.
      destruct (SFeqb _ _), logged, (truthy link); simpl; auto.
Qed.

End ProcessLeadFacts.

(** ** The worksheet adapter *)

Lemma append_row_effect r s :
  match Sheets.append_row r s with
  | (Ok _, s') => Sheets.rows s' = Sheets.rows s ++ [r]
  | (Raise _, s') => Sheets.rows s' = Sheets.rows s
  end.
Proof.
  unfold Sheets.append_row, bind, modify.
  destruct (Sheets.remote s) as [[[]|e] s1] eqn:H1;
    pose proof (remote_rows _ _ _ H1) as R1; simpl; congruence.
Qed.



(** lead_exists only reads: it never raises and never changes a row. It
    answers true only if the Email or the Phone cell of some stored record
    equals the key, and it answers false whenever one of its two round trips
    to the service fails, whatever the worksheet holds. *)
Theorem lead_exists_reads_and_fails_open (key : string) (s : Sheets.t) :
  match GoogleSheetsLogger.lead_exists key s with
  | (Ok b, s') =>
      Sheets.rows s' = Sheets.rows s
      /\ (b = true ->
          exists r, In r (Sheets.records_of (Sheets.rows s))
                    /\ (py_eq_str (Sheets.record_get "Email" r) key = true
                        \/ py_eq_str (Sheets.record_get "Phone" r) key = true))
      /\ ((exists rest, Sheets.faults s = true :: rest
                        \/ Sheets.faults s = false :: true :: rest) ->
          b = false)
  | (Raise _, _) => False
  end.
Proof.
  unfold GoogleSheetsLogger.lead_exists, try_except, bind,
    Sheets.open_sheet1, Sheets.get_all_records, bind, gets, ret.
  destruct (Sheets.remote s) as [[[]|e] s1] eqn:H1;
    pose proof (remote_rows _ _ _ H1) as R1.
  - destruct (Sheets.remote s1) as [[[]|e] s2] eqn:H2;
      pose proof (remote_rows _ _ _ H2) as R2.
    + split; [congruence|]. split.
      * intros Hb. apply existsb_exists in Hb as (r & Hin & Hr).
        exists r. rewrite R2, R1 in Hin. split; [exact Hin|].
        apply orb_prop in Hr. exact Hr.
      * intros (rest & [Hf | Hf]); unfold Sheets.remote in H1, H2;
          rewrite Hf in H1; try discriminate.
        injection H1 as <-. simpl in H2. discriminate.
    + split; [congruence|]. split; [discriminate | reflexivity].
  - split; [congruence|]. split; [discriminate | reflexivity].
Qed.




Lemma repeat_lookup {A} (d : A) n k x : repeat d n !! k = Some x -> x = d.
Proof.
  revert k. induction n as [|n IH]; intros k; simpl; [discriminate|].
  destruct k as [|k]; simpl; [congruence | apply IH].
Qed.

(** Reading past the end of a padded list gives the padding. *)
Lemma default_lookup_pad {A} (d : A) (l : list A) n j :
  default d ((l ++ repeat d n) !! j) = default d (l !! j).
Proof.
  destruct (decide (j < length l)%nat) as [Hlt | Hge].
  - rewrite lookup_app_l by exact Hlt. reflexivity.
  - rewrite lookup_app_r by lia.
    rewrite (lookup_ge_None_2 l j) by lia. simpl.
    destruct (repeat d n !! (j - length l)%nat) as [x|] eqn:Hx; [|reflexivity].
    simpl. eapply repeat_lookup; eassumption.
Qed.

(** Reading a cell after [set_cell]: the written cell holds the new value,
    every other cell reads as before. *)
Lemma cell_set_cell rs i c v i' c' :
  (1 <= i)%nat -> (1 <= c)%nat -> (1 <= i')%nat -> (1 <= c')%nat ->
  Sheets.cell (Sheets.set_cell rs i c v) i' c'
  = if decide (i' = i /\ c' = c) then v else Sheets.cell rs i' c'.
Proof.
  intros Hi Hc Hi' Hc'.
  unfold Sheets.cell, Sheets.set_cell, Sheets.pad_row, Sheets.row in *.
  cbv zeta.
  set (rs1 := rs ++ repeat [] (i - length rs)).
  assert (Hrs1 : forall k, default [] (rs1 !! k) = default [] (rs !! k))
    by (intros k; apply default_lookup_pad).
  assert (Hlen : (i - 1 < length rs1)%nat)
    by (subst rs1; rewrite length_app, repeat_length; lia).
  set (old := default [] (rs1 !! (i - 1)%nat)).
  destruct (decide (i' = i)) as [-> | Hne].
  - rewrite list_lookup_insert_eq by exact Hlen. simpl.
    destruct (decide (c' = c)) as [-> | Hcne].
    + rewrite decide_True by auto.
      rewrite list_lookup_insert_eq; [reflexivity|].
      rewrite length_app, repeat_length. lia.
    + rewrite decide_False by tauto.
      rewrite list_lookup_insert_ne by lia.
      rewrite default_lookup_pad. subst old. rewrite Hrs1. reflexivity.
  - rewrite decide_False by tauto.
    rewrite list_lookup_insert_ne by lia. rewrite Hrs1. reflexivity.
Qed.

Lemma find_in_column_first key c rs : forall start k,
  (k < length rs)%nat ->
  py_eq_str (default Sheets.blank (default [] (rs !! k) !! (c - 1)%nat)) key = true ->
  (forall j, (j < k)%nat ->
     py_eq_str (default Sheets.blank (default [] (rs !! j) !! (c - 1)%nat)) key = false) ->
  Sheets.find_in_column key c rs start = Some (start + k)%nat.
Proof.
  induction rs as [|r rs IH]; intros start k Hk Hhit Hmiss; simpl in Hk; [lia|].
  destruct k as [|k]; cbn [Sheets.find_in_column].
  - change (py_eq_str (default Sheets.blank (r !! (c - 1)%nat)) key = true) in Hhit.
    rewrite Hhit. f_equal. lia.
  - pose proof (Hmiss O ltac:(lia)) as H0.
    change (py_eq_str (default Sheets.blank (r !! (c - 1)%nat)) key = false) in H0.
    rewrite H0.
    rewrite (IH (S start) k); [f_equal; lia | lia | exact Hhit |].
    intros j Hj. apply (Hmiss (S j)). lia.
Qed.

Lemma find_first_match key rs i :
  (1 <= i <= length rs)%nat ->
  py_eq_str (Sheets.cell rs i 2) key = true ->
  (forall j, (1 <= j < i)%nat -> py_eq_str (Sheets.cell rs j 2) key = false) ->
  Sheets.find_in_column key 2 rs 1 = Some i.
Proof.
  intros Hi Hhit Hmiss.
  replace i with (1 + (i - 1))%nat at 1 by lia.
  apply find_in_column_first; [lia | exact Hhit |].
  intros j Hj. specialize (Hmiss (S j) ltac:(lia)).
  unfold Sheets.cell in Hmiss. replace (S j - 1)%nat with j in Hmiss by lia.
  exact Hmiss.
Qed.

(** When the service answers every call, update_lead_status works on the
    first row whose column 2 equals the identifier: it returns true, writes
    the status into column 9 of that row and, when notes are given, the notes
    into column 10, and leaves every other cell of the worksheet as it
    was. *)
Theorem update_lead_status_writes_first_match
    (rs : list Sheets.row) (key status notes : string) (i : nat) :
  (1 <= i <= length rs)%nat ->
  py_eq_str (Sheets.cell rs i 2) key = true ->
  (forall j, (1 <= j < i)%nat -> py_eq_str (Sheets.cell rs j 2) key = false) ->
  exists s',
    GoogleSheetsLogger.update_lead_status key status notes
      {| Sheets.rows := rs; Sheets.faults := [] |} = (Ok true, s')
    /\ Sheets.cell (Sheets.rows s') i 9 = VStr status
    /\ Sheets.cell (Sheets.rows s') i 10
       = (if Text.falsy notes then Sheets.cell rs i 10 else VStr notes)
    /\ (forall r c, (1 <= r)%nat -> (1 <= c)%nat ->
                    ~ (r = i /\ (c = 9 \/ c = 10))%nat ->
                    Sheets.cell (Sheets.rows s') r c = Sheets.cell rs r c).
Proof.
  intros Hi Hhit Hmiss.
  pose proof (find_first_match key rs i Hi Hhit Hmiss) as Hfind.
  unfold GoogleSheetsLogger.update_lead_status, try_except, bind,
    Sheets.open_sheet1, Sheets.find, bind, gets, ret.
  unfold Sheets.remote. cbn [Sheets.faults Sheets.rows]. rewrite Hfind.
  unfold Sheets.update_cell, bind, modify, when, Sheets.remote.
  cbn [Sheets.faults Sheets.rows].
  destruct (Text.falsy notes) eqn:Hn; cbn [negb Sheets.faults Sheets.rows ret];
    unfold ret; eexists; (split; [reflexivity|]); cbn [Sheets.rows].
  - split; [|split].
    + rewrite cell_set_cell by lia. rewrite decide_True by auto. reflexivity.
    + rewrite cell_set_cell by lia. rewrite decide_False by lia. reflexivity.
    + intros r c Hr Hc Hne. rewrite cell_set_cell by lia.
      rewrite decide_False by lia. reflexivity.
  - split; [|split].
    + rewrite !cell_set_cell by lia.
      rewrite decide_False by lia. rewrite decide_True by auto. reflexivity.
    + rewrite cell_set_cell by lia. rewrite decide_True by auto. reflexivity.
    + intros r c Hr Hc Hne. rewrite !cell_set_cell by lia.
      rewrite !decide_False by lia. reflexivity.
Qed.

(** update_lead_status is not atomic: when the service accepts the write of
    the status and refuses the write of the notes, the call returns false
    although the status is now stored in column 9 of the matching row. *)
Theorem update_lead_status_partial_write
    (rs : list Sheets.row) (key status notes : string) (i : nat)
    (rest : list bool) :
  (1 <= i <= length rs)%nat ->
  py_eq_str (Sheets.cell rs i 2) key = true ->
  (forall j, (1 <= j < i)%nat -> py_eq_str (Sheets.cell rs j 2) key = false) ->
  notes <> "" ->
  exists s',
    GoogleSheetsLogger.update_lead_status key status notes
      {| Sheets.rows := rs;
         Sheets.faults := false :: false :: false :: true :: rest |}
    = (Ok false, s')
    /\ Sheets.cell (Sheets.rows s') i 9 = VStr status
    /\ Sheets.cell (Sheets.rows s') i 10 = Sheets.cell rs i 10.
Proof.
  intros Hi Hhit Hmiss Hnotes.
  pose proof (find_first_match key rs i Hi Hhit Hmiss) as Hfind.
  assert (Hn : Text.falsy notes = false)
    by (destruct notes; [contradiction | reflexivity]).
  unfold GoogleSheetsLogger.update_lead_status, try_except, bind,
    Sheets.open_sheet1, Sheets.find, bind, gets, ret.
  unfold Sheets.remote. cbn [Sheets.faults Sheets.rows]. rewrite Hfind.
  unfold Sheets.update_cell, bind, modify, when, Sheets.remote.
  cbn [Sheets.faults Sheets.rows]. rewrite Hn.
  cbn [negb Sheets.faults Sheets.rows]. unfold ret.
  eexists. split; [reflexivity|]. cbn [Sheets.rows].
  split; rewrite cell_set_cell by lia.
  - rewrite decide_True by auto. reflexivity.
  - rewrite decide_False by lia. reflexivity.
Qed.

(** _ensure_sheet_exists writes the header at most once: when the first row
    of the worksheet holds something it changes nothing; when it is empty
    and the service answers, the seven header cells are appended; when the
    service fails the fault is raised and the rows are unchanged. *)
Theorem ensure_sheet_exists_effect (s : Sheets.t) :
  match GoogleSheetsLogger._ensure_sheet_exists s with
  | (Ok _, s') =>
      Sheets.rows s'
      = match default [] (Sheets.rows s !! 0%nat) with
        | [] => Sheets.rows s
                ++ [[VStr "Timestamp"; VStr "Name"; VStr "Email"; VStr "Phone";
                     VStr "Car Model"; VStr "Appointment"; VStr "Intent Score"]]
        | _ :: _ => Sheets.rows s
        end
  | (Raise _, s') => Sheets.rows s' = Sheets.rows s
  end.
Proof.
  unfold GoogleSheetsLogger._ensure_sheet_exists, bind, Sheets.open_sheet1,
    Sheets.row_values, bind, gets, when.
  destruct (Sheets.remote s) as [[[]|e] s1] eqn:H1;
    pose proof (remote_rows _ _ _ H1) as R1; [|exact R1].
  destruct (Sheets.remote s1) as [[[]|e] s2] eqn:H2;
    pose proof (remote_rows _ _ _ H2) as R2; [|congruence].
  change (1 - 1)%nat with 0%nat. rewrite R2, R1.
  destruct (default [] (Sheets.rows s !! 0%nat)) as [|x l]; cbn [GoogleSheetsLogger.is_nil].
  - pose proof (append_row_effect GoogleSheetsLogger.header_row s2) as Ha.
    destruct (Sheets.append_row _ s2) as [[[]|e] s3];
      rewrite Ha, R2, R1; reflexivity.
  - unfold ret. congruence.
Qed.

(** ** The scoring adapter *)

Section ScoringFacts.
Context `{Platform}.

(** Every attempt issues exactly one request. *)
Lemma attempt_requests g o g' :
  GroqProcessor.attempt g = (o, g') -> Groq.requests g' = S (Groq.requests g).
Proof.
  unfold GroqProcessor.attempt, bind, lift, raise, Groq.create.
  destruct (Groq.replies g) as [|[|doc] r]; try (intros [= _ <-]; reflexivity).
  cbn [Groq.requests].
  destruct (json_loads doc) as [result|e]; [|intros [= _ <-]; reflexivity].
  destruct (subscript result "intent_score") as [raw|e];
    [|intros [= _ <-]; reflexivity].
  destruct (py_float raw) as [x|e]; [|intros [= _ <-]; reflexivity].
  destruct result as [items|]; intros [= _ <-]; reflexivity.
Qed.

Lemma attempts_requests self range : forall g o g',
  GroqProcessor.attempts self range g = (o, g') ->
  (Groq.requests g <= Groq.requests g' <= Groq.requests g + length range)%nat
  /\ (range <> [] -> Groq.requests g < Groq.requests g')%nat.
Proof.
  induction range as [|n rest IH]; intros g o g' Hrun.
  - injection Hrun as _ <-. split; [simpl; lia | congruence].
  - rewrite attempts_cons in Hrun.
    destruct (GroqProcessor.attempt g) as [[p|e] g1] eqn:Ha;
      pose proof (attempt_requests _ _ _ Ha) as Hone.
    + injection Hrun as _ <-. simpl. split; [lia | intros _; lia].
    + destruct (Nat.eqb n _).
      * injection Hrun as _ <-. simpl. split; [lia | intros _; lia].
      * destruct (IH _ _ _ Hrun) as [Hb _]. simpl. split; [lia | intros _; lia].
Qed.

(** The retries are bounded: one call of analyze_lead sends at most
    max_retries requests to the scoring service (three for a processor built
    by the constructor), and at least one when max_retries is positive. *)
Theorem analyze_lead_request_bound
    (self : GroqProcessor.t) (lead : Lead.t) (g : Groq.t) :
  match GroqProcessor.analyze_lead self lead g with
  | (_, g') =>
      (Groq.requests g' <= Groq.requests g + GroqProcessor.max_retries self)%nat
      /\ (Groq.requests g <= Groq.requests g')%nat
      /\ (1 <= GroqProcessor.max_retries self ->
          Groq.requests g + 1 <= Groq.requests g')%nat
  end.
Proof.
  rewrite analyze_lead_unfold.
  destruct (GroqProcessor.attempts self (seq 0 (GroqProcessor.max_retries self)) g)
    as [o g'] eqn:Hrun.
  destruct (attempts_requests _ _ _ _ _ Hrun) as [Hb Hpos].
  rewrite length_seq in Hb.
  assert (Hgoal :
    (Groq.requests g' <= Groq.requests g + GroqProcessor.max_retries self)%nat
    /\ (Groq.requests g <= Groq.requests g')%nat
    /\ (1 <= GroqProcessor.max_retries self ->
        Groq.requests g + 1 <= Groq.requests g')%nat).
  { split; [lia|]. split; [lia|]. intros Hm.
    assert (seq 0 (GroqProcessor.max_retries self) <> []).
    { destruct (GroqProcessor.max_retries self); [lia | discriminate]. }
    specialize (Hpos ltac:(assumption)). lia. }
  destruct o as [[p|]|e]; exact Hgoal.
Qed.

Lemma failing_attempts_requests n g g' :
  failing_attempts n g g' -> Groq.requests g' = (Groq.requests g + n)%nat.
Proof.
  induction 1 as [g | n g e g1 g' Ha _ IH]; [lia|].
  rewrite IH, (attempt_requests _ _ _ Ha). lia.
Qed.

Lemma attempts_first_success self p g1 g2 m : forall start k g,
  (start + m)%nat = GroqProcessor.max_retries self ->
  (k < m)%nat ->
  failing_attempts k g g1 ->
  GroqProcessor.attempt g1 = (Ok p, g2) ->
  GroqProcessor.attempts self (seq start m) g = (Ok (Some p), g2).
Proof.
  induction m as [|m IH]; intros start k g Hmax Hk Hfail Hok; [lia|].
  cbn [seq]. rewrite attempts_cons.
  inversion Hfail as [? | n g0 e g' g'' Ha Hrest]; subst.
  - rewrite Hok. reflexivity.
  - rewrite Ha.
    destruct (Nat.eqb start (GroqProcessor.max_retries self - 1)) eqn:Hlast.
    + apply Nat.eqb_eq in Hlast. lia.
    + apply (IH (S start) n); [lia | lia | assumption | assumption].
Qed.

(** Retry until the first success: when the first k attempts fail and the
    next one, still within max_retries, yields a record, analyze_lead
    returns that record, after exactly k + 1 requests, and does not fall
    back to the default score. *)
Theorem analyze_lead_returns_first_success
    (self : GroqProcessor.t) (lead : Lead.t) (k : nat) (g g1 g2 : Groq.t)
    (p : ProcessedLead.t) :
  (k < GroqProcessor.max_retries self)%nat ->
  failing_attempts k g g1 ->
  GroqProcessor.attempt g1 = (Ok p, g2) ->
  GroqProcessor.analyze_lead self lead g = (Ok p, g2)
  /\ Groq.requests g2 = (Groq.requests g + k + 1)%nat.
Proof.
  intros Hk Hfail Hok. split.
  - rewrite analyze_lead_unfold.
    rewrite (attempts_first_success self p g1 g2 _ 0 k g);
      [reflexivity | reflexivity | assumption | assumption | assumption].
  - rewrite (attempt_requests _ _ _ Hok), (failing_attempts_requests _ _ _ Hfail).
    lia.
Qed.

Lemma unexpected_keyword_dict_set {V} fields key (v : V) (d : dict V) :
  mem key fields = true ->
  unexpected_keyword fields (dict_set key v d) = unexpected_keyword fields d.
Proof.
  intros Hkey. unfold unexpected_keyword.
  induction d as [|[k' v'] d IH]; simpl.
  - rewrite Hkey. reflexivity.
  - destruct (String.eqb k' key) eqn:Hk; simpl.
    + destruct (negb (mem k' fields)); reflexivity.
    + destruct (negb (mem k' fields)); [reflexivity | exact IH].
Qed.

Lemma dict_in_dict_set {V} key (v : V) (d : dict V) f :
  String.eqb key f = false ->
  dict_in f (dict_set key v d) = dict_in f d.
Proof.
  intros Hne. unfold dict_in.
  induction d as [|[k' v'] d IH]; simpl.
  - rewrite Hne. reflexivity.
  - destruct (String.eqb k' key) eqn:Hk; simpl.
    + destruct (String.eqb k' f); reflexivity.
    + destruct (String.eqb k' f); [reflexivity | exact IH].
Qed.

(** The decoded reply must be an object with exactly the five fields of
    ProcessedLead: an attempt whose reply has a key that is no field, or
    lacks one of the fields, fails (and is retried or falls back), whatever
    score the reply carries. *)
Theorem attempt_rejects_other_shapes
    (items : dict pyval) (rest : list completion) (n : nat) :
  ((exists k, unexpected_keyword ProcessedLead.fields items = Some k)
   \/ (exists f, In f ProcessedLead.fields /\ dict_in f items = false)) ->
  exists e g',
    GroqProcessor.attempt
      {| Groq.replies := Content (Some (JObject items)) :: rest;
         Groq.requests := n |}
    = (Raise e, g').
Proof.
  intros Hshape.
  unfold GroqProcessor.attempt, bind, lift, raise, Groq.create.
  cbn [Groq.replies Groq.requests json_loads].
  destruct (subscript (JObject items) "intent_score") as [raw|e] eqn:Hsub;
    [|eauto].
  destruct (py_float raw) as [x|e]; [|eauto].
  unfold ProcessedLead_new, bind_keywords.
  rewrite unexpected_keyword_dict_set by reflexivity.
  destruct Hshape as [[k Hk] | (f & Hf & Hmiss)].
  - rewrite Hk. eauto.
  - destruct (unexpected_keyword ProcessedLead.fields items); [eauto|].
    assert (Hpresent : dict_in "intent_score" items = true).
    { unfold subscript in Hsub. unfold dict_in.
      destruct (dict_get "intent_score" items); [reflexivity | discriminate]. }
    assert (Hne : String.eqb "intent_score" f = false).
    { apply String.eqb_neq. intros <-. congruence. }
    assert (Hstill : dict_in f (dict_set "intent_score"
                                  (VFloat (GroqProcessor.clamp x)) items) = false)
      by (rewrite dict_in_dict_set by exact Hne; exact Hmiss).
    destruct (List.filter _ ProcessedLead.fields) as [|m ms] eqn:Hfilter; [|eauto].
    exfalso.
    pose proof (filter_nil_false _ _ Hfilter f Hf) as Hc.
    cbv beta in Hc. rewrite Hstill in Hc. discriminate.
Qed.

End ScoringFacts.

(** What clamping does to a score: a value strictly between 0 and 1 is kept
    as it is; clamping twice is clamping once; a NaN and plus infinity
    become 1.0, minus infinity and negative zero become 0.0. *)
Theorem clamp_behaviour (x : float) :
  (SFltb f_zero x = true -> SFltb x f_one = true -> GroqProcessor.clamp x = x)
  /\ GroqProcessor.clamp (GroqProcessor.clamp x) = GroqProcessor.clamp x
  /\ GroqProcessor.clamp S754_nan = f_one
  /\ GroqProcessor.clamp (S754_infinity false) = f_one
  /\ GroqProcessor.clamp (S754_infinity true) = f_zero
  /\ GroqProcessor.clamp (S754_zero true) = f_zero.
Proof.
  split; [|split; [|repeat split; reflexivity]].
  - intros Hlo Hhi. unfold GroqProcessor.clamp, py_max, py_min.
    rewrite Hhi, Hlo. reflexivity.
  - unfold GroqProcessor.clamp, py_max, py_min.
    destruct (SFltb x f_one) eqn:Hhi.
    + destruct (SFltb f_zero x) eqn:Hlo.
      * rewrite Hhi, Hlo. reflexivity.
      * reflexivity.
    + reflexivity.
Qed.

(** ** Calendar and notifications *)

Section CalendarFacts.
Context `{Platform}.



(** The event is scheduled from the datetime of the processed lead, that is
    from what the scoring service returned: when that value is not a string,
    or is a text the ISO parser rejects, create_event returns nothing and the
    calendar service is not even contacted. *)
Theorem create_event_needs_parsable_datetime
    (lead : Lead.t) (p : ProcessedLead.t) (tz : string) (c : Calendar.t) :
  (forall s, ProcessedLead.datetime p = VStr s ->
             exists e, fromisoformat (Text.replace "Z" "+00:00" s) = inr e) ->
  CalendarManager.create_event lead p tz c = (Ok None, c).
Proof.
  intros Hbad.
  unfold CalendarManager.create_event, try_except, bind, lift, ret,
    CalendarManager.parse_start.
  destruct (ProcessedLead.datetime p) as [| | | |s|]; try reflexivity.
  destruct (Hbad s eq_refl) as [e ->]. reflexivity.
Qed.

End CalendarFacts.




(** A channel without its credential (no webhook URL for the chat, no mail
    account for email) is not tried: send_notification returns false and
    leaves the world exactly as it was, the scripts of the services
    included. *)
Lemma send_notification_unconfigured
    (svc : NotificationService.t) (lead : Lead.t) (p : ProcessedLead.t)
    (link : option string) (channel : NotificationChannel) (w : world) :
  truthy (match channel with
          | DISCORD => NotificationService.discord_webhook svc
          | EMAIL => NotificationService.gmail_user svc
          end) = false ->
  send_notification svc lead p link channel w = (Ok false, w).
Proof.
  intros Hcred. unfold send_notification.
  destruct channel; rewrite Hcred; reflexivity.
Qed.

(** ** The language of the two patterns *)

Lemma append_cons c s t : String c s +:+ t = String c (s +:+ t).
Proof. reflexivity. Qed.

Lemma append_nil_inv s1 s2 : s1 +:+ s2 = "" -> s1 = "" /\ s2 = "".
Proof. destruct s1; [auto | discriminate]. Qed.

Lemma append_cons_inv s1 s2 c s :
  s1 +:+ s2 = String c s ->
  (s1 = "" /\ s2 = String c s)
  \/ (exists s1', s1 = String c s1' /\ s = s1' +:+ s2).
Proof.
  destruct s1 as [|d s1]; [auto|].
  rewrite append_cons. intros [= -> <-]. right. eauto.
Qed.

Lemma append_nil_r s : s +:+ "" = s.
Proof.
  induction s as [|c s IH]; [reflexivity|]. rewrite append_cons, IH. reflexivity.
Qed.

Lemma append_assoc s1 s2 s3 : (s1 +:+ s2) +:+ s3 = s1 +:+ (s2 +:+ s3).
Proof.
  induction s1 as [|c s1 IH]; [reflexivity|].
  rewrite !append_cons, IH. reflexivity.
Qed.

Lemma length_append s1 s2 :
  String.length (s1 +:+ s2) = (String.length s1 + String.length s2)%nat.
Proof.
  induction s1 as [|c s1 IH]; [reflexivity|].
  rewrite append_cons. simpl. rewrite IH. reflexivity.
Qed.

Lemma all_chars_append cls s1 s2 :
  all_chars cls (s1 +:+ s2) <-> all_chars cls s1 /\ all_chars cls s2.
Proof. unfold all_chars. rewrite chars_app. apply Forall_app. Qed.

Lemma matches_nullable r s : matches r s -> s = "" -> Regex.nullable r = true.
Proof.
  induction 1 as [| p c Hp | r1 r2 s1 s2 _ IH1 _ IH2 | r1 r2 s _ IH
                 | r1 r2 s _ IH | r | r s1 s2 _ _ _ _]; intros Hs; simpl;
    try reflexivity.
  - discriminate.
  - apply append_nil_inv in Hs as [-> ->]. rewrite IH1, IH2; reflexivity.
  - rewrite IH by exact Hs. reflexivity.
  - rewrite IH by exact Hs. apply orb_true_r.
Qed.

Lemma seq'_intro r1 r2 s :
  matches (Regex.Seq r1 r2) s -> matches (Regex.seq' r1 r2) s.
Proof.
  intros Hm. unfold Regex.seq'. destruct r1; try exact Hm.
  inversion Hm as [| | ? ? s1 s2 H1 _ | | | |]; subst. inversion H1.
Qed.

Lemma alt'_intro r1 r2 s :
  matches (Regex.Alt r1 r2) s -> matches (Regex.alt' r1 r2) s.
Proof.
  intros Hm. unfold Regex.alt'.
  inversion Hm as [| | | ? ? ? Hl | ? ? ? Hr | |]; subst.
  - destruct r1; try (inversion Hl; fail);
      destruct r2; try exact Hl; apply matches_alt_l; exact Hl.
  - destruct r1; try exact Hr;
      destruct r2; try (inversion Hr; fail); apply matches_alt_r; exact Hr.
Qed.

Lemma matches_deriv r t :
  matches r t -> forall c s, t = String c s -> matches (Regex.deriv c r) s.
Proof.
  induction 1 as [| p d Hp | r1 r2 s1 s2 H1 IH1 H2 IH2 | r1 r2 s0 _ IH
                 | r1 r2 s0 _ IH | r | r s1 s2 H1 IH1 H2 IH2];
    intros c s Ht; simpl.
  - discriminate.
  - injection Ht as -> <-. rewrite Hp. constructor.
  - apply alt'_intro.
    apply append_cons_inv in Ht as [[-> ->] | (s1' & -> & ->)].
    + apply matches_alt_r.
      rewrite (matches_nullable _ _ H1 eq_refl). apply IH2. reflexivity.
    + apply matches_alt_l, seq'_intro. constructor; [apply IH1; reflexivity | exact H2].
  - apply alt'_intro, matches_alt_l, IH, Ht.
  - apply alt'_intro, matches_alt_r, IH, Ht.
  - discriminate.
  - apply append_cons_inv in Ht as [[-> ->] | (s1' & -> & ->)].
    + apply (IH2 c s eq_refl).
    + apply seq'_intro. constructor; [apply IH1; reflexivity | exact H2].
Qed.

(** The matcher accepts every string of the language. *)
Lemma matches_fullmatch s : forall r,
  matches r s -> Regex.fullmatch r s = true.
Proof.
  induction s as [|c s IH]; intros r Hm; simpl.
  - eapply matches_nullable; [exact Hm | reflexivity].
  - apply IH. eapply matches_deriv; [exact Hm | reflexivity].
Qed.

Lemma fullmatch_iff r s : Regex.fullmatch r s = true <-> matches r s.
Proof. split; [apply fullmatch_matches | apply matches_fullmatch]. Qed.

Lemma class_iff p s :
  matches (Regex.Class p) s <-> exists c, s = String c "" /\ p c = true.
Proof.
  split.
  - intros Hm. inversion Hm; subst. eauto.
  - intros (c & -> & Hp). constructor. exact Hp.
Qed.

Lemma star_class_iff p s :
  matches (Regex.Star (Regex.Class p)) s <-> all_chars p s.
Proof.
  unfold all_chars. split.
  - intros Hm. remember (Regex.Star (Regex.Class p)) as r eqn:Hr.
    induction Hm as [| | | | | r0 | r0 s1 s2 H1 _ _ IH2]; try discriminate.
    + constructor.
    + injection Hr as ->. apply class_iff in H1 as (c & -> & Hp).
      change (String c "" +:+ s2) with (String c s2). simpl. constructor; [exact Hp | apply IH2; reflexivity].
  - induction s as [|c s IH]; simpl; intros Hall.
    + constructor.
    + inversion Hall; subst.
      change (String c s) with (String c "" +:+ s).
      constructor; [constructor; assumption | apply IH; assumption].
Qed.

Lemma seq_iff r1 r2 s :
  matches (Regex.Seq r1 r2) s
  <-> exists s1 s2, s = s1 +:+ s2 /\ matches r1 s1 /\ matches r2 s2.
Proof.
  split.
  - intros Hm. inversion Hm; subst. eauto.
  - intros (s1 & s2 & -> & H1 & H2). constructor; assumption.
Qed.

Lemma rep_class_iff p n : forall s,
  matches (Regex.rep n (Regex.Class p)) s
  <-> String.length s = n /\ all_chars p s.
Proof.
  unfold all_chars.
  induction n as [|n IH]; intros s; simpl.
  - split.
    + intros Hm. inversion Hm; subst. split; [reflexivity | constructor].
    + intros [Hlen _]. destruct s; [constructor | discriminate].
  - rewrite seq_iff. split.
    + intros (s1 & s2 & -> & H1 & H2).
      apply class_iff in H1 as (c & -> & Hp). apply IH in H2 as [Hlen Hall].
      change (String c "" +:+ s2) with (String c s2). simpl. split; [lia | constructor; assumption].
    + intros [Hlen Hall]. destruct s as [|c s]; [discriminate|].
      simpl in Hall. inversion Hall; subst.
      exists (String c ""), s. split; [reflexivity|].
      split; [constructor; assumption | apply IH; split; [simpl in Hlen; lia | assumption]].
Qed.


Lemma plus_class_iff p s :
  matches (Regex.plus (Regex.Class p)) s <-> s <> "" /\ all_chars p s.
Proof.
  unfold Regex.plus. rewrite seq_iff. split.
  - intros (s1 & s2 & -> & H1 & H2).
    apply class_iff in H1 as (c & -> & Hp). apply star_class_iff in H2.
    split; [discriminate|]. unfold all_chars in *.
    change (String c "" +:+ s2) with (String c s2). simpl. constructor; assumption.
  - intros [Hne Hall]. destruct s as [|c s]; [contradiction|].
    unfold all_chars in Hall. simpl in Hall. inversion Hall; subst.
    exists (String c ""), s. split; [reflexivity|].
    split; [constructor; assumption | apply star_class_iff; assumption].
Qed.

Lemma at_least_class_iff p n : forall s,
  matches (Regex.at_least n (Regex.Class p)) s
  <-> (n <= String.length s)%nat /\ all_chars p s.
Proof.
  unfold Regex.at_least. intros s. rewrite seq_iff. split.
  - intros (s1 & s2 & -> & H1 & H2).
    apply rep_class_iff in H1 as [Hlen Ha1]. apply star_class_iff in H2.
    rewrite length_append, all_chars_append. split; [lia | auto].
  - revert s. induction n as [|n IH]; intros s [Hlen Hall].
    + exists "", s. split; [reflexivity|].
      split; [constructor | apply star_class_iff; assumption].
    + destruct s as [|c s]; [simpl in Hlen; lia|].
      unfold all_chars in Hall. simpl in Hall.
      inversion Hall as [|? ? Hc Hs]; subst.
      destruct (IH s) as (s1 & s2 & -> & H1 & H2);
        [split; [simpl in Hlen; lia | assumption]|].
      exists (String c s1), s2. split; [reflexivity|]. split; [|assumption].
      change (String c s1) with (String c "" +:+ s1).
      simpl Regex.rep. constructor; [constructor; assumption | assumption].
Qed.


Lemma lit_iff c s : matches (Regex.lit c) s <-> s = String c "".
Proof.
  unfold Regex.lit. rewrite class_iff. split.
  - intros (d & -> & Hd). apply Ascii.eqb_eq in Hd. subst. reflexivity.
  - intros ->. exists c. split; [reflexivity | apply Ascii.eqb_refl].
Qed.

Lemma email_pattern_iff s :
  matches LeadValidator.email_pattern s <-> email_shape s.
Proof.
  unfold LeadValidator.email_pattern, email_shape. split.
  - intros Hm.
    apply seq_iff in Hm as (local & r1 & -> & Hlocal & Hm).
    apply seq_iff in Hm as (at_ & r2 & -> & Hat & Hm).
    apply seq_iff in Hm as (domain & r3 & -> & Hdomain & Hm).
    apply seq_iff in Hm as (dot & tld & -> & Hdot & Htld).
    apply lit_iff in Hat, Hdot. subst.
    apply plus_class_iff in Hlocal as [? ?], Hdomain as [? ?].
    apply at_least_class_iff in Htld as [? ?].
    exists local, domain, tld. auto 10.
  - intros (local & domain & tld & -> & Hl1 & Hl2 & Hd1 & Hd2 & Ht1 & Ht2).
    constructor; [apply plus_class_iff; auto|].
    constructor; [apply lit_iff; reflexivity|].
    constructor; [apply plus_class_iff; auto|].
    constructor; [apply lit_iff; reflexivity|].
    apply at_least_class_iff; auto.
Qed.



(** ** What the validators accept *)

Lemma chop_newline_iff s : forall s',
  Regex.chop_newline s = Some s' <-> s = s' +:+ String "010" "".
Proof.
  induction s as [|c s IH]; intros s'.
  - split; [discriminate|]. intros Hs. symmetry in Hs.
    apply append_nil_inv in Hs as [_ Hs]. discriminate.
  - destruct s as [|d s].
    + cbn [Regex.chop_newline]. split.
      * destruct (Ascii.eqb c "010") eqn:Hc; [|discriminate].
        apply Ascii.eqb_eq in Hc. intros [= <-]. subst c. reflexivity.
      * intros Hs. destruct s' as [|e s'].
        -- injection Hs as ->. reflexivity.
        -- rewrite append_cons in Hs. injection Hs as _ Hs.
           symmetry in Hs. apply append_nil_inv in Hs as [_ Hs]. discriminate.
    + change (Regex.chop_newline (String c (String d s)))
        with (option_map (String c) (Regex.chop_newline (String d s))).
      split.
      * destruct (Regex.chop_newline (String d s)) as [t|] eqn:Ht; [|discriminate].
        intros [= <-]. rewrite append_cons, <- (proj1 (IH t) eq_refl). reflexivity.
      * intros Hs. destruct s' as [|e s'].
        -- discriminate.
        -- rewrite append_cons in Hs. injection Hs as -> Hs.
           apply IH in Hs. rewrite Hs. reflexivity.
Qed.

Lemma match_anchored_iff r (shape : string -> Prop) s :
  (forall t, matches r t <-> shape t) ->
  Regex.match_anchored r s = true <-> up_to_newline shape s.
Proof.
  intros Hshape. unfold Regex.match_anchored, up_to_newline.
  rewrite orb_true_iff, fullmatch_iff, Hshape. split.
  - intros [Hs | Hs]; [left; exact Hs | right].
    destruct (Regex.chop_newline s) as [s'|] eqn:Hc; [|discriminate].
    exists s'. split; [apply chop_newline_iff, Hc | apply Hshape, fullmatch_iff, Hs].
  - intros [Hs | (s' & Hc & Hs)]; [left; exact Hs | right].
    apply chop_newline_iff in Hc. rewrite Hc. apply fullmatch_iff, Hshape, Hs.
Qed.

Lemma up_to_newline_nonempty (shape : string -> Prop) s :
  ~ shape "" -> up_to_newline shape s -> s <> "".
Proof.
  intros Hno [Hs | (s' & -> & _)] He.
  - subst. contradiction.
  - apply append_nil_inv in He as [_ He]. discriminate.
Qed.

Lemma email_shape_nonempty : ~ email_shape "".
Proof.
  intros (local & domain & tld & Hs & Hl & _). symmetry in Hs.
  apply append_nil_inv in Hs as [Hs _]. contradiction.
Qed.

Lemma phone_shape_nonempty : ~ phone_shape "".
Proof.
  intros (sign & one & digits & Hs & _ & _ & [Hlen _] & _). symmetry in Hs.
  apply append_nil_inv in Hs as [_ Hs]. apply append_nil_inv in Hs as [_ ->].
  simpl in Hlen. lia.
Qed.

(** validate_email accepts exactly the addresses [local@domain.tld] (local
    part of letters, digits and [._%+-], domain of letters, digits and [.-],
    last label of two or more letters), and the same followed by one final
    newline, which the [$] of the pattern lets through. *)
Theorem validate_email_language (email : string) :
  LeadValidator.validate_email email = true
  <-> up_to_newline email_shape email.
Proof.
  unfold LeadValidator.validate_email.
  rewrite <- (match_anchored_iff _ _ email email_pattern_iff).
  destruct email as [|c e]; [|reflexivity].
  split; [discriminate | intros Hm; vm_compute in Hm; discriminate].
Qed.

Lemma replace_append old new s1 s2 :
  Text.replace old new (s1 +:+ s2)
  = Text.replace old new s1 +:+ Text.replace old new s2.
Proof.
  induction s1 as [|c s1 IH]; [reflexivity|].
  rewrite append_cons. cbn [Text.replace]. rewrite IH.
  destruct (Ascii.eqb c old); [rewrite append_assoc|]; reflexivity.
Qed.

Lemma clean_phone_append s1 s2 :
  clean_phone (s1 +:+ s2) = clean_phone s1 +:+ clean_phone s2.
Proof. unfold clean_phone. rewrite !replace_append. reflexivity. Qed.

Lemma validate_phone_clean phone :
  LeadValidator.validate_phone phone
  = Regex.match_anchored LeadValidator.phone_pattern (clean_phone phone).
Proof. destruct phone; reflexivity. Qed.


(** A separator anywhere in a phone number does not change the verdict. *)
Theorem validate_phone_ignores_separators (sep : ascii) (before after : string) :
  In sep ["-"; " "; "("; ")"]%char ->
  LeadValidator.validate_phone (before +:+ String sep after)
  = LeadValidator.validate_phone (before +:+ after).
Proof.
  intros Hsep. rewrite !validate_phone_clean, !clean_phone_append.
  assert (Hdrop : clean_phone (String sep after) = clean_phone after).
  { simpl in Hsep. destruct Hsep as [<- | [<- | [<- | [<- | []]]]]; reflexivity. }
  rewrite Hdrop. reflexivity.
Qed.

Lemma filter_nil_iff {A} (f : A -> bool) (l : list A) :
  List.filter f l = [] <-> Forall (fun x => f x = false) l.
Proof.
  induction l as [|x l IH]; simpl.
  - split; [constructor | reflexivity].
  - destruct (f x) eqn:Hx.
    + split; [discriminate | intros Hall; inversion Hall; congruence].
    + rewrite IH. split; [constructor; assumption | intros Hall; inversion Hall; assumption].
Qed.

(** A payload is accepted exactly when every required field is present and
    non-empty and the email, the phone number and the appointment time each
    pass their own check. *)
Theorem validate_lead_data_accepts `{Platform} (clk : clock) (data : dict string) :
  fst (LeadValidator.validate_lead_data clk data) = true
  <-> Forall (fun field => LeadValidator.is_missing data field = false)
        LeadValidator.required_fields
      /\ LeadValidator.validate_email (dict_get_default "email" "" data) = true
      /\ LeadValidator.validate_phone (dict_get_default "phone" "" data) = true
      /\ LeadValidator.validate_datetime clk
           (dict_get_default "appointment_datetime" "" data) = true.
Proof.
  rewrite validate_lead_data_unfold, <- filter_nil_iff.
  destruct (List.filter _ LeadValidator.required_fields) as [|m ms].
  - unfold LeadValidator.shape_errors.
    destruct (LeadValidator.validate_email _),
             (LeadValidator.validate_phone _),
             (LeadValidator.validate_datetime _ _); simpl;
      split; try discriminate; try tauto; intuition discriminate.
  - simpl. split; [discriminate | intros [Hnil _]; discriminate].
Qed.

(** ** Identity of a lead *)

Lemma lower_append s1 s2 :
  Text.lower (s1 +:+ s2) = Text.lower s1 +:+ Text.lower s2.
Proof.
  induction s1 as [|c s1 IH]; [reflexivity|].
  rewrite append_cons. cbn [Text.lower]. rewrite IH. reflexivity.
Qed.

(** The derived id does not distinguish upper from lower case: two leads
    whose emails and phone numbers agree after lowercasing get the same
    lead_id when none is supplied. *)
Theorem derived_id_ignores_case
    (email1 phone1 email2 phone2 : string)
    (now1 now2 name1 name2 model1 model2 time1 time2 : string)
    (score1 score2 stamp1 stamp2 : option string) :
  Text.lower email1 = Text.lower email2 ->
  Text.lower phone1 = Text.lower phone2 ->
  Lead.lead_id (Lead.make now1 name1 email1 phone1 model1 time1 score1 stamp1 None)
  = Lead.lead_id (Lead.make now2 name2 email2 phone2 model2 time2 score2 stamp2 None).
Proof.
  intros He Hp. cbn [Lead.make Lead.lead_id Lead.is_set]. unfold Lead.derive_id.
  rewrite !lower_append, He, Hp. reflexivity.
Qed.

(** ** The environment around the client of the scoring service *)

Lemma dict_set_fresh {V} key (v : V) (d : dict V) :
  ~ In key (map fst d) -> dict_set key v d = d ++ [(key, v)].
Proof.
  induction d as [|[k' v'] d IH]; simpl; intros Hfresh; [reflexivity|].
  destruct (String.eqb_spec k' key) as [-> | Hne]; [tauto|].
  rewrite IH by tauto. reflexivity.
Qed.

Lemma restore_lookup_ne saved : forall env var,
  ~ In var (map fst saved) ->
  fold_left GroqProcessor.restore_proxy saved env !! var = env !! var.
Proof.
  induction saved as [|[k v] saved IH]; simpl; intros env var Hfresh;
    [reflexivity|].
  rewrite IH by tauto. unfold GroqProcessor.restore_proxy. simpl.
  apply lookup_insert_ne. intros Hk. apply Hfresh. left. exact Hk.
Qed.

Lemma restore_delete saved : forall (env : gmap string string) var,
  ~ In var (map fst saved) ->
  fold_left GroqProcessor.restore_proxy saved (delete var env)
  = delete var (fold_left GroqProcessor.restore_proxy saved env).
Proof.
  induction saved as [|[k v] saved IH]; simpl; intros env var Hfresh;
    [reflexivity|].
  rewrite <- IH by tauto. unfold GroqProcessor.restore_proxy at 2 4. simpl.
  rewrite delete_insert_ne; [reflexivity|].
  intros Hk. apply Hfresh. left. symmetry. exact Hk.
Qed.

(** Saving the variables of a duplicate-free list and then restoring what
    was saved gives back the environment. *)
Lemma save_then_restore vars : forall saved (env : gmap string string),
  NoDup vars ->
  (forall var, In var vars -> ~ In var (map fst saved)) ->
  fold_left GroqProcessor.restore_proxy
    (fst (fold_left GroqProcessor.save_proxy vars (saved, env)))
    (snd (fold_left GroqProcessor.save_proxy vars (saved, env)))
  = fold_left GroqProcessor.restore_proxy saved env.
Proof.
  induction vars as [|var vars IH]; intros saved env Hnd Hfresh;
    [reflexivity|].
  inversion Hnd as [|? ? Hvar Hnd']; subst.
  assert (Hv : ~ In var (map fst saved)) by (apply Hfresh; left; reflexivity).
  cbn [fold_left]. unfold GroqProcessor.save_proxy at 2 4. cbn [fst snd].
  destruct (env !! var) as [value|] eqn:Hlook.
  - rewrite IH; [|exact Hnd'|].
    + rewrite dict_set_fresh by exact Hv.
      rewrite fold_left_app. cbn [fold_left].
      unfold GroqProcessor.restore_proxy at 1. cbn [fst snd].
      rewrite restore_delete by exact Hv.
      apply insert_delete_id.
      rewrite restore_lookup_ne by exact Hv. exact Hlook.
    + intros v Hin. rewrite dict_set_fresh by exact Hv.
      rewrite map_app, in_app_iff. simpl.
      intros [Hs | [Heq | []]]; [eapply Hfresh; [right; exact Hin | exact Hs] |].
      apply Hvar. rewrite Heq. apply list_elem_of_In. exact Hin.
  - apply IH; [exact Hnd'|]. intros v Hin. apply Hfresh. right. exact Hin.
Qed.

(** The first loop leaves the environment without the listed variables. *)
Lemma save_deletes vars : forall saved (env : gmap string string),
  snd (fold_left GroqProcessor.save_proxy vars (saved, env))
  = fold_left (fun e var => delete var e) vars env.
Proof.
  induction vars as [|var vars IH]; intros saved env; [reflexivity|].
  cbn [fold_left]. unfold GroqProcessor.save_proxy at 2. cbn [fst snd].
  destruct (env !! var) as [value|] eqn:Hlook.
  - apply IH.
  - rewrite (delete_id env var Hlook). apply IH.
Qed.

(** Constructing a GroqProcessor: without a key it raises ValueError and
    touches nothing; when the client is built the environment is exactly as
    before (the proxy variables are put back); when building the client
    raises, the exception goes on to the caller and the four proxy variables
    stay removed from the environment. *)
Theorem init_restores_proxies_only_on_success
    (api_key : string) (client : outcome unit) (env : gmap string string) :
  GroqProcessor.__init__ api_key client env
  = if Text.falsy api_key
    then (Raise (Exn ValueError "Groq API key is required"), env)
    else match client with
         | Ok _ => (Ok {| GroqProcessor.max_retries := 3 |}, env)
         | Raise e =>
             (Raise e,
              delete "https_proxy" (delete "http_proxy"
                (delete "HTTPS_PROXY" (delete "HTTP_PROXY" env))))
         end.
Proof.
  unfold GroqProcessor.__init__.
  destruct (Text.falsy api_key); [reflexivity|].
  unfold try_except, bind, lift, modify, ret, raise.
  destruct client as [[]|e].
  - f_equal.
    rewrite save_then_restore; [reflexivity | | intros var _ []].
    unfold GroqProcessor.proxy_vars.
    apply (bool_decide_unpack _). reflexivity.
  - f_equal. apply save_deletes.
Qed.

(** ** The routes *)

Lemma get_all_leads_effect s :
  exists s',
    GoogleSheetsLogger.get_all_leads s
    = (Ok match Sheets.faults s with
          | true :: _ | false :: true :: _ => []
          | _ => Sheets.records_of (Sheets.rows s)
          end, s')
    /\ Sheets.rows s' = Sheets.rows s.
Proof.
  unfold GoogleSheetsLogger.get_all_leads, try_except, bind,
    Sheets.open_sheet1, Sheets.get_all_records, bind, gets, ret, Sheets.remote.
  destruct s as [rs [|[|] [|[|] fs]]]; cbn; eexists; split; reflexivity.
Qed.


Lemma record_get_absent key hs : forall (cells : list pyval) acc,
  Forall (fun h => py_eq_str h key = false) hs ->
  fold_left (fun acc kv => if py_eq_str (fst kv) key then snd kv else acc)
    (zip hs cells) acc = acc.
Proof.
  induction hs as [|h hs IH]; intros cells acc Hhs; [reflexivity|].
  inversion Hhs as [|? ? Hh Hrest]; subst.
  destruct cells as [|c cells]; [reflexivity|].
  cbn [zip zip_with fold_left fst snd]. rewrite Hh. apply IH. exact Hrest.
Qed.

(** Without a column of that name, no record has a value under it. *)
Lemma record_get_no_column key rs :
  Forall (fun h => py_eq_str h key = false) (default [] (rs !! 0%nat)) ->
  key <> "" ->
  Forall (fun r => Sheets.record_get key r = VNone) (Sheets.records_of rs).
Proof.
  intros Hheader Hkey. destruct rs as [|header data]; [constructor|].
  unfold Sheets.records_of. apply Forall_map, Forall_forall. intros r _.
  unfold Sheets.record_get. apply record_get_absent.
  unfold Sheets.pad_row. apply Forall_app. split; [exact Hheader|].
  apply Forall_forall. intros c Hc.
  apply list_elem_of_In, repeat_spec in Hc. subst c.
  unfold Sheets.blank. simpl. destruct key; [contradiction | reflexivity].
Qed.

Lemma find_none_of_all_false {A} (f : A -> bool) (l : list A) :
  Forall (fun x => f x = false) l -> List.find f l = None.
Proof.
  induction 1 as [|x l Hx _ IH]; simpl; [reflexivity|]. rewrite Hx. exact IH.
Qed.

Section RouteFacts.
Context `{Platform}.
Variable wf : LeadWorkflow.t.

(** The webhook always answers: 503 without a workflow; 500 only when the
    request body cannot be read; 400 "No data provided" for a null or empty
    body, with nothing touched; otherwise the result of process_lead, with
    status 200 when it reports success and 400 when it does not. *)
Theorem capture_lead_answers
    (workflow : option LeadWorkflow.t)
    (request_json : outcome (option (dict string))) (w : world) :
  exists body code w',
    Routes.capture_lead workflow request_json w = (Ok (body, code), w')
    /\ match workflow, request_json with
       | None, _ =>
           body = Routes.Failure "System not initialized - check configuration"
           /\ code = 503 /\ w' = w
       | Some _, Raise _ =>
           body = Routes.Failure "Internal server error" /\ code = 500 /\ w' = w
       | Some self, Ok lead_data =>
           if Routes.no_data lead_data
           then body = Routes.Failure "No data provided" /\ code = 400 /\ w' = w
           else exists r,
                  LeadWorkflow.process_lead self (default [] lead_data) w = (Ok r, w')
                  /\ run_case self (default [] lead_data) w r w'
                  /\ body = Routes.Result r
                  /\ code = if success r then 200 else 400
       end.
Proof.
  unfold Routes.capture_lead.
  destruct workflow as [self|]; [|do 3 eexists; split; [reflexivity | auto]].
  unfold try_except, bind, lift, ret.
  destruct request_json as [lead_data|e];
    [|do 3 eexists; split; [reflexivity | auto]].
  destruct (Routes.no_data lead_data) eqn:Hno;
    [do 3 eexists; split; [reflexivity | auto]|].
  destruct (process_lead_cases self (default [] lead_data) w)
    as (r & w' & Hrun & Hcase).
  rewrite Hrun. do 3 eexists. split; [reflexivity|].
  exists r. auto.
Qed.


(** Looking a lead up by id finds nothing on a worksheet that has no
    "Lead ID" column, as is the case for the header this program writes:
    the answer is 404 "Lead not found" whatever the id and whatever the
    worksheet holds, and it stays 404 when the worksheet cannot be read. *)
Theorem get_lead_needs_an_id_column (lead_id : string) (w : world) :
  Forall (fun h => py_eq_str h "Lead ID" = false)
    (default [] (Sheets.rows (w_sheets w) !! 0%nat)) ->
  exists w',
    Routes.get_lead (Some wf) lead_id w
    = (Ok (Routes.Failure "Lead not found", 404), w')
    /\ Sheets.rows (w_sheets w') = Sheets.rows (w_sheets w).
Proof.
  intros Hheader.
  unfold Routes.get_lead, try_except, bind, ret, on_sheets, zoom.
  destruct (get_all_leads_effect (w_sheets w)) as (s' & -> & Hrows).
  assert (Hnone : forall leads,
            Forall (fun r => Sheets.record_get "Lead ID" r = VNone) leads ->
            List.find (fun l => py_eq_str (Sheets.record_get "Lead ID" l) lead_id)
              leads = None).
  { intros leads Hall. apply find_none_of_all_false.
    eapply Forall_impl; [exact Hall|].
    intros r Hr. cbv beta in Hr. rewrite Hr. reflexivity. }
  rewrite Hnone.
  - eexists. split; [reflexivity | exact Hrows].
  - destruct (Sheets.faults (w_sheets w)) as [|[|] [|[|] fs]];
      try constructor; apply record_get_no_column; (exact Hheader || discriminate).
Qed.


End RouteFacts.

(** ** The further properties on concrete runs *)

Lemma process_lead_invalid_touches_nothing_witness :
  Examples.run Examples.incomplete Examples.fresh
  = (Ok {| success := false; lead_id := None;
           errors := ["Missing required field: email";
                      "Missing required field: car_model";
                      "Missing required field: appointment_datetime"];
           warnings := []; meet_link := None; intent_score := None |},
     Examples.fresh).
Proof.
  destruct (@process_lead_invalid_touches_nothing Reference.platform
              Examples.workflow Examples.incomplete Examples.fresh) as [Hrun _].
  - vm_compute. reflexivity.
  - exact Hrun.
Defined.

Lemma process_lead_duplicate_only_reads_witness :
  Examples.run Examples.returning Examples.after_first
  = (Ok {| success := false; lead_id := Some "jane@corp.com";
           errors := ["Duplicate lead - already processed"];
           warnings := []; meet_link := None; intent_score := None |},
     Examples.after_first).
Proof.
  destruct (@process_lead_duplicate_only_reads Reference.platform
              Examples.workflow Examples.returning Examples.after_first
              Examples.after_first [] Examples.returning_lead) as [Hrun _].
  - vm_compute. reflexivity.
  - vm_compute. reflexivity.
  - vm_compute. reflexivity.
  - exact Hrun.
Defined.


Lemma update_lead_status_writes_first_match_witness :
  exists s',
    GoogleSheetsLogger.update_lead_status "Jane Doe" "CONTACTED" "called back"
      {| Sheets.rows := Examples.one_lead; Sheets.faults := [] |} = (Ok true, s')
    /\ Sheets.cell (Sheets.rows s') 2 9 = VStr "CONTACTED"
    /\ Sheets.cell (Sheets.rows s') 2 10 = VStr "called back".
Proof.
  destruct (update_lead_status_writes_first_match Examples.one_lead
              "Jane Doe" "CONTACTED" "called back" 2)
    as (s' & Hrun & Hstatus & Hnotes & _).
  - simpl. lia.
  - reflexivity.
  - intros j Hj. assert (j = 1%nat) as -> by lia. reflexivity.
  - exists s'. split; [exact Hrun|]. split; [exact Hstatus | exact Hnotes].
Defined.

Lemma update_lead_status_partial_write_witness :
  exists s',
    GoogleSheetsLogger.update_lead_status "Jane Doe" "CONTACTED" "called back"
      {| Sheets.rows := Examples.one_lead;
         Sheets.faults := [false; false; false; true] |} = (Ok false, s')
    /\ Sheets.cell (Sheets.rows s') 2 9 = VStr "CONTACTED"
    /\ Sheets.cell (Sheets.rows s') 2 10 = Sheets.cell Examples.one_lead 2 10.
Proof.
  apply (update_lead_status_partial_write Examples.one_lead
           "Jane Doe" "CONTACTED" "called back" 2 []).
  - simpl. lia.
  - reflexivity.
  - intros j Hj. assert (j = 1%nat) as -> by lia. reflexivity.
  - discriminate.
Defined.

Lemma analyze_lead_returns_first_success_witness :
  @GroqProcessor.analyze_lead Reference.platform GroqProcessor.init
    Examples.jane_lead
    {| Groq.replies := [ServiceFault; Examples.reply_for Examples.jane f_one];
       Groq.requests := 0 |}
  = (Ok Examples.jane_scored, {| Groq.replies := []; Groq.requests := 2 |}).
Proof.
  refine (proj1 (@analyze_lead_returns_first_success Reference.platform
                   GroqProcessor.init Examples.jane_lead 1
                   {| Groq.replies := [ServiceFault;
                                       Examples.reply_for Examples.jane f_one];
                      Groq.requests := 0 |}
                   {| Groq.replies := [Examples.reply_for Examples.jane f_one];
                      Groq.requests := 1 |}
                   {| Groq.replies := []; Groq.requests := 2 |}
                   Examples.jane_scored _ _ _)).
  - vm_compute. lia.
  - econstructor; [vm_compute; reflexivity | constructor].
  - vm_compute. reflexivity.
Defined.

Lemma attempt_rejects_other_shapes_witness :
  exists e g',
    @GroqProcessor.attempt Reference.platform
      {| Groq.replies := [Content (Some (JObject [("name", VStr "Jane Doe")]))];
         Groq.requests := 0 |}
    = (Raise e, g').
Proof.
  apply (@attempt_rejects_other_shapes Reference.platform).
  right. exists "phone". split; [simpl; tauto | reflexivity].
Defined.

Lemma create_event_needs_parsable_datetime_witness :
  @CalendarManager.create_event Reference.platform Examples.jane_lead
    Examples.vague "America/New_York"
    {| Calendar.events := []; Calendar.faults := [] |}
  = (Ok None, {| Calendar.events := []; Calendar.faults := [] |}).
Proof.
  apply (@create_event_needs_parsable_datetime Reference.platform).
  intros s [= <-]. eexists. lazy. reflexivity.
Defined.

Lemma validate_phone_ignores_separators_witness :
  LeadValidator.validate_phone ("+1" +:+ String "-" "2125550100")
  = LeadValidator.validate_phone ("+1" +:+ "2125550100").
Proof.
  apply validate_phone_ignores_separators. simpl. tauto.
Defined.

Lemma derived_id_ignores_case_witness :
  Lead.lead_id (Lead.make "2026-11-03T09:00:00" "Jane Doe" "Jane@Corp.COM"
                  "+1-212-555-0100" "Luxury Sedan X" "2026-11-05T10:00:00"
                  None None None)
  = Lead.lead_id (Lead.make "2026-11-04T12:00:00" "J. Doe" "jane@corp.com"
                    "+1-212-555-0100" "Compact Y" "2026-11-06T15:30:00"
                    None None None).
Proof.
  apply derived_id_ignores_case; reflexivity.
Defined.

Lemma get_lead_needs_an_id_column_witness :
  exists w',
    Routes.get_lead (Some Examples.workflow) "c0ef8a4bd04e" Examples.after_first
    = (Ok (Routes.Failure "Lead not found", 404), w')
    /\ Sheets.rows (w_sheets w') = Sheets.rows (w_sheets Examples.after_first).
Proof.
  apply get_lead_needs_an_id_column.
  vm_compute. repeat constructor.
Defined.
